(** * rl_autoscale: metrics registry, request observation and middleware

    A shallow embedding of [rl_autoscale/metrics.py],
    [rl_autoscale/flask_middleware.py] and
    [rl_autoscale/fastapi_middleware.py].

    Conventions of the embedding:
    - Python [float] and [int] quantities (durations, bucket bounds,
      sizes, clock readings) are exact rationals [Q]; status codes are [Z].
    - Python [str] is [string]; the text of paths, header values and
      environment variables is taken to be ASCII.
    - A Python call that may raise is a computation of the monad [M]: it
      returns an [Outcome] together with the state it leaves behind, so a
      mutation made before an exception is raised stays made.
    - The metric classes come from the [prometheus_client] package, which
      is not part of the repository; module [Prometheus] holds the pieces
      of it that the code drives. *)

From Stdlib Require Import ZArith QArith Lia Ascii.
From stdpp Require Import gmap strings pretty list.

Local Open Scope string_scope.

(** ** The Python runtime the code relies on *)

Module Py.

(** An instance of a subclass of [Exception]: its class name and [str(e)]. *)
Record Exception := mkException { exc_type : string; exc_msg : string }.

Definition ValueError (msg : string) : Exception := mkException "ValueError" msg.

Inductive Outcome (A : Type) : Type :=
| Returned (a : A)
| Raised (e : Exception).
Arguments Returned {A} a.
Arguments Raised {A} e.

Definition returned {A} (o : Outcome A) : bool :=
  match o with Returned _ => true | Raised _ => false end.

(** State first, exception second: the state survives a raise. *)
Definition M (S A : Type) : Type := S -> Outcome A * S.

Definition ret {S A} (a : A) : M S A := fun s => (Returned a, s).

Definition bind {S A B} (c : M S A) (k : A -> M S B) : M S B :=
  fun s => match c s with
           | (Returned a, s') => k a s'
           | (Raised e, s') => (Raised e, s')
           end.

Definition raise {S A} (e : Exception) : M S A := fun s => (Raised e, s).

Definition gets {S A} (f : S -> A) : M S A := fun s => (Returned (f s), s).

Definition modify {S} (f : S -> S) : M S unit := fun s => (Returned tt, f s).

(** [try: c  except Exception as e: h e] *)
Definition try_except {S A} (c : M S A) (h : Exception -> M S A) : M S A :=
  fun s => match c s with
           | (Returned a, s') => (Returned a, s')
           | (Raised e, s') => h e s'
           end.

(** [try: c  except cls: h], for one exception class. *)
Definition try_except_of {S A} (cls : string) (c : M S A) (h : M S A) : M S A :=
  fun s => match c s with
           | (Returned a, s') => (Returned a, s')
           | (Raised e, s') => if String.eqb (exc_type e) cls then h s' else (Raised e, s')
           end.

(** [try: c  finally: f].  An exception of the finaliser replaces the
    outcome of the body. *)
Definition try_finally {S A} (c : M S A) (f : M S unit) : M S A :=
  fun s => match c s with
           | (o, s') => match f s' with
                        | (Returned _, s'') => (o, s'')
                        | (Raised e, s'') => (Raised e, s'')
                        end
           end.

(** A call of something that does not touch the state. *)
Definition lift {S A} (o : Outcome A) : M S A := fun s => (o, s).

(** Run a computation on a component of the state. *)
Definition zoom {S T A} (get : S -> T) (set : T -> S -> S) (c : M T A) : M S A :=
  fun s => match c (get s) with (o, t) => (o, set t s) end.

(** *** [repr(str)] and [int(str)] on ASCII text *)

Definition dquote : ascii := ascii_of_nat 34.

Definition hex_digit (n : nat) : ascii :=
  if (n <? 10)%nat then ascii_of_nat (48 + n) else ascii_of_nat (87 + n).

Fixpoint occurs (c : ascii) (s : string) : bool :=
  match s with
  | String c' s' => Ascii.eqb c c' || occurs c s'
  | EmptyString => false
  end.

(** The body of [repr(s)] between the quotes: the quote and the backslash
    are escaped, control characters are written [\t], [\n], [\r] or
    [\xhh]. *)
Fixpoint repr_body (quote : ascii) (s : string) : string :=
  match s with
  | String c s' =>
      let n := nat_of_ascii c in
      (if Ascii.eqb c quote || Ascii.eqb c "\" then String "\" (String c EmptyString)
       else if (n =? 9)%nat then "\t"
       else if (n =? 10)%nat then "\n"
       else if (n =? 13)%nat then "\r"
       else if (n <? 32)%nat || (n =? 127)%nat then
         String "\" (String "x" (String (hex_digit (n / 16)) (String (hex_digit (n mod 16))
                                                                 EmptyString)))
       else String c EmptyString)
      ++ repr_body quote s'
  | EmptyString => EmptyString
  end.

(** Single quotes, unless the text holds a single quote and no double
    quote. *)
Definition repr (s : string) : string :=
  let quote := if occurs "'" s && negb (occurs dquote s) then dquote else "'"%char in
  String quote (repr_body quote s ++ String quote EmptyString).

(** [Py_ISSPACE]: the blank and the characters from tab to carriage
    return. *)
Definition is_space (c : ascii) : bool :=
  let n := nat_of_ascii c in
  (n =? 32)%nat || ((9 <=? n)%nat && (n <=? 13)%nat).

Definition is_digit (c : ascii) : bool :=
  let n := nat_of_ascii c in (48 <=? n)%nat && (n <=? 57)%nat.

Definition digit_value (c : ascii) : Z := Z.of_nat (nat_of_ascii c) - 48.

Fixpoint lstrip (s : string) : string :=
  match s with
  | String c s' => if is_space c then lstrip s' else s
  | EmptyString => EmptyString
  end.

(** The scan over digits and underscores: the value, the number of
    digits and what is left.  Two underscores in a row, or an underscore at
    the end of the run, are refused. *)
Fixpoint scan_digits (s : string) (acc : Z) (digits : nat) (after_underscore : bool)
  : option (Z * nat * string) :=
  match s with
  | String c s' =>
      if is_digit c then scan_digits s' (acc * 10 + digit_value c)%Z (S digits) false
      else if Ascii.eqb c "_" then
        if after_underscore then None else scan_digits s' acc digits true
      else if after_underscore then None else Some (acc, digits, s)
  | EmptyString => if after_underscore then None else Some (acc, digits, s)
  end.

(** [sys.get_int_max_str_digits()], at its default. *)
Definition int_max_str_digits : nat := 4300.

(** [int(s)]: blanks, a sign, decimal digits with single underscores
    between them, blanks.  The message of an invalid literal shows the
    first 200 characters of [repr(s)]. *)
Definition int_of_str (s : string) : Outcome Z :=
  let invalid :=
    Raised (ValueError ("invalid literal for int() with base 10: "
                        ++ String.substring 0 200 (repr s))) in
  let after_blanks := lstrip s in
  let '(negative, ds) :=
    match after_blanks with
    | String c ds =>
        if Ascii.eqb c "-" then (true, ds)
        else if Ascii.eqb c "+" then (false, ds)
        else (false, after_blanks)
    | EmptyString => (false, EmptyString)
    end in
  if String.prefix "_" ds then invalid
  else
    match scan_digits ds 0 0 false with
    | None => invalid
    | Some (n, digits, rest) =>
        if (int_max_str_digits <? digits)%nat then
          Raised (ValueError ("Exceeds the limit (" ++ pretty int_max_str_digits
                              ++ " digits) for integer string conversion: value has "
                              ++ pretty digits
                              ++ " digits; use sys.set_int_max_str_digits() "
                              ++ "to increase the limit"))
        else if (digits =? 0)%nat then invalid
        else
          match lstrip rest with
          | EmptyString => Returned (if negative : bool then (- n)%Z else n)
          | String _ _ => invalid
          end
    end.

(** *** The [logging] module, as far as the code uses it *)

Inductive Level := INFO | WARNING | ERROR.

Record LogRecord := mkLog { level : Level; message : string }.

(** A state that carries the records handed to the module's logger. *)
Class Logs (S : Type) := write_log : LogRecord -> S -> S.

Definition logger {S} `{Logs S} (lvl : Level) (msg : string) : M S unit :=
  modify (write_log (mkLog lvl msg)).

(** Truth value of a [str]. *)
Definition truthy (s : string) : bool := negb (String.eqb s "").

End Py.
Export Py.

#[global] Instance M_ret {S} : MRet (M S) := fun A a => ret a.
#[global] Instance M_bind {S} : MBind (M S) := fun A B k c => bind c k.

(** ** The [re] module, as far as [normalize_api_paths] uses it *)

Module Re.

(** The patterns of the code are built from literals, greedy repetition
    of a character class, counted repetition of a class, concatenation
    and the end anchor. *)
Inductive regex :=
| Lit (c : ascii)
| Plus (p : ascii -> bool)
| Rep (n : nat) (p : ascii -> bool)
| Seq (r1 r2 : regex)
| Eol.

(** [$] without [re.MULTILINE]: the end of the string, or just before a
    newline that ends the string. *)
Definition at_end (s : string) : bool :=
  match s with
  | EmptyString => true
  | String c EmptyString => Ascii.eqb c "010"
  | _ => false
  end.

(** Greedy [p*] followed by the continuation [k]: the longest run is
    tried first, then the matcher backtracks one character at a time. *)
Fixpoint star (p : ascii -> bool) (s : string) (k : string -> option string)
  : option string :=
  match s with
  | String c s' =>
      if p c then
        match star p s' k with
        | Some rest => Some rest
        | None => k s
        end
      else k s
  | EmptyString => k s
  end.

Fixpoint rep (n : nat) (p : ascii -> bool) (s : string) (k : string -> option string)
  : option string :=
  match n with
  | O => k s
  | S n' =>
      match s with
      | String c s' => if p c then rep n' p s' k else None
      | EmptyString => None
      end
  end.

(** Backtracking match of [r] at the start of [s]; the result is what is
    left of [s] behind the match. *)
Fixpoint exec (r : regex) (s : string) (k : string -> option string) : option string :=
  match r with
  | Lit c =>
      match s with
      | String c' s' => if Ascii.eqb c c' then k s' else None
      | EmptyString => None
      end
  | Plus p =>
      match s with
      | String c s' => if p c then star p s' k else None
      | EmptyString => None
      end
  | Rep n p => rep n p s k
  | Seq r1 r2 => exec r1 s (fun s' => exec r2 s' k)
  | Eol => if at_end s then k s else None
  end.

Definition match_at (r : regex) (s : string) : option string := exec r s Some.

(** [re.sub(r, repl, s)]: leftmost matches, not overlapping, scanning
    left to right.  [skip] counts the characters of the current match
    that are still to be dropped. *)
Fixpoint sub_from (r : regex) (repl : string) (s : string) (skip : nat) : string :=
  match s with
  | EmptyString =>
      match match_at r EmptyString with
      | Some _ => repl
      | None => EmptyString
      end
  | String c s' =>
      match skip with
      | S n => sub_from r repl s' n
      | O =>
          match match_at r s with
          | Some rest =>
              match (String.length s - String.length rest)%nat with
              | O => repl ++ String c (sub_from r repl s' 0)
              | S n => repl ++ sub_from r repl s' n
              end
          | None => String c (sub_from r repl s' 0)
          end
      end
  end.

Definition sub (r : regex) (repl : string) (s : string) : string :=
  sub_from r repl s 0.

(** Character classes *)
Definition digit (c : ascii) : bool := Py.is_digit c.

Definition in_range (lo hi : nat) (c : ascii) : bool :=
  let n := nat_of_ascii c in (lo <=? n)%nat && (n <=? hi)%nat.

(** [[0-9a-f]] under [re.IGNORECASE] *)
Definition hex_ignorecase (c : ascii) : bool :=
  in_range 48 57 c || in_range 97 102 c || in_range 65 70 c.

(** [[a-zA-Z0-9]] *)
Definition alnum (c : ascii) : bool :=
  in_range 97 122 c || in_range 65 90 c || in_range 48 57 c.

(** [[^/]] *)
Definition not_slash (c : ascii) : bool := negb (Ascii.eqb c "/").

End Re.

(** ** flask_middleware.py: the reference path normaliser *)

(** [r"/\d+"] *)
Definition numeric_id_pattern : Re.regex :=
  Re.Seq (Re.Lit "/") (Re.Plus Re.digit).

(** [r"/[0-9a-f]{8}-[0-9a-f]{4}-[0-9a-f]{4}-[0-9a-f]{4}-[0-9a-f]{12}"],
    [flags=re.IGNORECASE] *)
Definition uuid_pattern : Re.regex :=
  Re.Seq (Re.Lit "/")
    (Re.Seq (Re.Rep 8 Re.hex_ignorecase)
       (Re.Seq (Re.Lit "-")
          (Re.Seq (Re.Rep 4 Re.hex_ignorecase)
             (Re.Seq (Re.Lit "-")
                (Re.Seq (Re.Rep 4 Re.hex_ignorecase)
                   (Re.Seq (Re.Lit "-")
                      (Re.Seq (Re.Rep 4 Re.hex_ignorecase)
                         (Re.Seq (Re.Lit "-") (Re.Rep 12 Re.hex_ignorecase))))))))).

(** [r"/[^/]+\.[a-zA-Z0-9]+$"] *)
Definition filename_pattern : Re.regex :=
  Re.Seq (Re.Lit "/")
    (Re.Seq (Re.Plus Re.not_slash)
       (Re.Seq (Re.Lit ".") (Re.Seq (Re.Plus Re.alnum) Re.Eol))).

Definition normalize_api_paths (path : string) : string :=
  (* Replace numeric IDs *)
  let path := Re.sub numeric_id_pattern "/:id" path in
  (* Replace UUIDs *)
  let path := Re.sub uuid_pattern "/:uuid" path in
  (* Replace filenames with extensions *)
  let path := Re.sub filename_pattern "/:filename" path in
  path.


(** ** prometheus_client, as far as the code drives it *)

Module Prometheus.

(** An upper bound of a histogram bucket. *)
Inductive bound :=
| Finite (q : Q)
| Inf.

(** [amount <= bound] *)
Definition admits (b : bound) (amount : Q) : bool :=
  match b with
  | Finite q => Qle_bool amount q
  | Inf => true
  end.

(** What [RLMetrics.__init__] needs of the histogram constructor: the
    check it runs on the [buckets] argument, giving the upper bounds of the
    histogram or raising. *)
Class HistogramCtor := prepare_buckets : list Q -> Outcome (list bound).

Fixpoint nondecreasing (l : list Q) : bool :=
  match l with
  | [] => true
  | x :: tl =>
      match tl with
      | [] => true
      | y :: _ => Qle_bool x y && nondecreasing tl
      end
  end.

(** The constructor of the library: a bucket list that differs from
    its sorted self is refused, [+Inf] is appended, and a histogram needs
    two bounds at least.  Nothing else is looked at. *)
Definition prometheus_client_prepare (buckets : list Q) : Outcome (list bound) :=
  if negb (nondecreasing buckets) then
    Raised (ValueError "Buckets not in sorted order")
  else
    let bounds := (map Finite buckets ++ [Inf])%list in
    if (length bounds <? 2)%nat then
      Raised (ValueError "Must have at least two buckets")
    else Returned bounds.

(** Modelled from the spec: the histogram class is prometheus_client's and
    is not among the repository's sources.  A histogram has a fixed list
    of bucket upper bounds ending in +infinity and, per label
    combination, a running sum and the bucket counts.  As in the library,
    one counter per bucket is kept and an observation bumps the first
    bucket whose bound admits the value; the cumulative counts of the
    spec are what the exposition reads out ([cumulative_counts]). *)
Record HistogramChild := mkChild { bucket_counts : list nat; sum : Q }.

Record Histogram := mkHistogram {
  upper_bounds : list bound;
  children : gmap (string * string) HistogramChild
}.

Definition new_child (bounds : list bound) : HistogramChild :=
  mkChild (replicate (length bounds) 0%nat) 0%Q.

(** [h.labels(method=..., path=...)]: the child, created on first use. *)
Definition labels (h : Histogram) (k : string * string) : HistogramChild :=
  default (new_child (upper_bounds h)) (children h !! k).

Fixpoint inc_first (amount : Q) (bounds : list bound) (counts : list nat) : list nat :=
  match bounds, counts with
  | b :: bs, c :: cs =>
      if admits b amount then S c :: cs else c :: inc_first amount bs cs
  | _, _ => counts
  end.

Definition observe_child (bounds : list bound) (amount : Q) (ch : HistogramChild)
  : HistogramChild :=
  mkChild (inc_first amount bounds (bucket_counts ch)) (sum ch + amount)%Q.

(** Modelled from the spec: [h.labels(...).observe(amount)] of the
    library's histogram, which the repository calls and does not define.
    The running sum of the child takes the amount and the count of the
    first bucket whose bound admits it goes up by one. *)
Definition observe (k : string * string) (amount : Q) (h : Histogram) : Histogram :=
  mkHistogram (upper_bounds h)
    (<[k := observe_child (upper_bounds h) amount (labels h k)]> (children h)).

Fixpoint running_total (acc : nat) (counts : list nat) : list nat :=
  match counts with
  | [] => []
  | c :: cs => (acc + c)%nat :: running_total (acc + c) cs
  end.

(** The [_bucket] samples of a child: cumulative counts, one per bound. *)
Definition cumulative_counts (ch : HistogramChild) : list nat :=
  running_total 0 (bucket_counts ch).

(** A counter with the four labels of [http_requests_total]. *)
Definition counter_inc (k : string * string * string * string)
  (c : gmap (string * string * string * string) nat)
  : gmap (string * string * string * string) nat :=
  <[k := S (default 0%nat (c !! k))]> c.

(** A gauge with the [method] label. *)
Definition gauge_value (g : gmap string Z) (k : string) : Z := default 0%Z (g !! k).

Definition gauge_inc (k : string) (g : gmap string Z) : gmap string Z :=
  <[k := (gauge_value g k + 1)%Z]> g.

Definition gauge_dec (k : string) (g : gmap string Z) : gmap string Z :=
  <[k := (gauge_value g k - 1)%Z]> g.

(** A collector registry holds the names of its collectors and refuses
    a name it already holds. *)
Definition register (name : string) : M (gset string) unit :=
  fun names =>
    if decide (name ∈ names) then
      (Raised (ValueError ("Duplicated timeseries in CollectorRegistry: " ++ name)), names)
    else (Returned tt, {[name]} ∪ names).

End Prometheus.
Export Prometheus.

#[global] Instance prometheus_client : HistogramCtor := prometheus_client_prepare.

(** ** metrics.py *)

Record RLMetrics := mkRLMetrics {
  namespace : string;
  histogram_buckets : list Q;
  response_size_buckets : list Q;
  request_latency : Histogram;
  request_count : gmap (string * string * string * string) nat;
  requests_in_progress : gmap string Z;
  response_size : Histogram;
  app_info : gmap string string;
  app_started_timestamp : Q
}.

(** The interpreter state that [metrics.py] reads and writes:
    [os.environ], the collector registry that construction registers
    with ([registry or REGISTRY]), the [RLMetrics] objects created so far
    (an object's identity is its index), the module global
    [_metrics_instance] and the log. *)
Record Process := mkProcess {
  environ : gmap string string;
  REGISTRY : gset string;
  objects : list RLMetrics;
  _metrics_instance : option nat;
  process_log : list LogRecord
}.

#[global] Instance Process_logs : Logs Process :=
  fun r p => mkProcess (environ p) (REGISTRY p) (objects p) (_metrics_instance p)
               (process_log p ++ [r]).

Definition set_REGISTRY (names : gset string) (p : Process) : Process :=
  mkProcess (environ p) names (objects p) (_metrics_instance p) (process_log p).

Definition set_metrics_instance (a : nat) (p : Process) : Process :=
  mkProcess (environ p) (REGISTRY p) (objects p) (Some a) (process_log p).

(** Allocation of a new object; its identity is returned. *)
Definition new_object (m : RLMetrics) : M Process nat :=
  fun p => (Returned (length (objects p)),
            mkProcess (environ p) (REGISTRY p) (objects p ++ [m]) (_metrics_instance p)
              (process_log p)).

(** [os.getenv(name, default)] *)
Definition getenv (name dflt : string) : M Process string :=
  gets (fun p => default dflt (environ p !! name)).

Definition default_histogram_buckets : list Q :=
  [0.005; 0.01; 0.025; 0.05; 0.1; 0.25; 0.5; 1.0; 2.5; 5.0; 10.0]%Q.

Definition default_response_size_buckets : list Q :=
  [100; 1000; 10000; 100000; 1000000; 10000000]%Q.

(** [f"{namespace}_<base>" if namespace else "<base>"] *)
Definition metric_name (namespace base : string) : string :=
  if truthy namespace then namespace ++ "_" ++ base else base.

(** A collector without buckets: construction registers its name. *)
Definition new_collector (name : string) : M Process unit :=
  zoom REGISTRY set_REGISTRY (register name).

(** [Histogram(name=..., buckets=..., registry=...)]: the buckets are
    checked, then the name is registered. *)
Definition new_histogram `{HistogramCtor} (name : string) (buckets : list Q)
  : M Process Histogram :=
  bounds ← lift (prepare_buckets buckets);
  new_collector name;;
  ret (mkHistogram bounds ∅).

(** [RLMetrics.__init__]; [now] is the reading of [time.time()] that
    [set_to_current_time] takes. *)
Definition RLMetrics_init `{HistogramCtor} (now : Q) (namespace : string)
    (histogram_buckets response_size_buckets : option (list Q))
    (app_version app_name : string) : M Process RLMetrics :=
  let histogram_buckets :=
    match histogram_buckets with
    | None => default_histogram_buckets
    | Some buckets => buckets
    end in
  let response_size_buckets :=
    match response_size_buckets with
    | None => default_response_size_buckets
    | Some buckets => buckets
    end in
  request_latency ← new_histogram (metric_name namespace "http_request_duration_seconds")
                       histogram_buckets;
  new_collector (metric_name namespace "http_requests_total");;
  new_collector (metric_name namespace "http_requests_in_progress");;
  response_size ← new_histogram (metric_name namespace "http_response_size_bytes")
                     response_size_buckets;
  new_collector (metric_name namespace "app");;
  let info_labels : gmap string string := ∅ in
  let info_labels := if truthy app_name then <["name" := app_name]> info_labels
                     else info_labels in
  let info_labels := if truthy app_version then <["version" := app_version]> info_labels
                     else info_labels in
  new_collector (metric_name namespace "app_started_timestamp_seconds");;
  logger INFO ("Initialized RL metrics with namespace='" ++ namespace ++ "', buckets="
               ++ pretty (length histogram_buckets));;
  ret (mkRLMetrics namespace histogram_buckets response_size_buckets
         request_latency ∅ ∅ response_size info_labels now).

(** [get_metrics_registry]; the result is the identity of the instance. *)
Definition get_metrics_registry `{HistogramCtor} (now : Q) (namespace : option string)
    (histogram_buckets response_size_buckets : option (list Q))
    (app_version app_name : option string) : M Process nat :=
  instance ← gets _metrics_instance;
  match instance with
  | Some a => ret a
  | None =>
      (* with _metrics_lock: double-check *)
      instance ← gets _metrics_instance;
      match instance with
      | Some a => ret a
      | None =>
          namespace ← match namespace with
                      | None => getenv "RL_METRICS_NAMESPACE" ""
                      | Some v => ret v
                      end;
          app_name ← match app_name with
                     | None => getenv "RL_METRICS_APP_NAME" ""
                     | Some v => ret v
                     end;
          app_version ← match app_version with
                        | None => getenv "RL_METRICS_APP_VERSION" ""
                        | Some v => ret v
                        end;
          m ← RLMetrics_init now namespace histogram_buckets response_size_buckets
                app_version app_name;
          a ← new_object m;
          modify (set_metrics_instance a);;
          ret a
      end
  end.

(** *** The methods of an [RLMetrics] object *)

(** Calls received by an [RLMetrics] object, in order. *)
Inductive Call :=
| Call_observe_request (method path : string) (duration : Q) (status_code : Z)
    (response_size : option Z)
| Call_inc_in_progress (method : string)
| Call_dec_in_progress (method : string).

(** What a method sees: the object, the log and the calls so far. *)
Record World := mkWorld {
  self : RLMetrics;
  world_log : list LogRecord;
  calls : list Call
}.

#[global] Instance World_logs : Logs World :=
  fun r w => mkWorld (self w) (world_log w ++ [r]) (calls w).

Definition set_self (f : RLMetrics -> RLMetrics) (w : World) : World :=
  mkWorld (f (self w)) (world_log w) (calls w).

Definition called (c : Call) : M World unit :=
  modify (fun w => mkWorld (self w) (world_log w) (calls w ++ [c])).

Definition on_request_latency (f : Histogram -> Histogram) (m : RLMetrics) : RLMetrics :=
  mkRLMetrics (namespace m) (histogram_buckets m) (response_size_buckets m)
    (f (request_latency m)) (request_count m) (requests_in_progress m)
    (response_size m) (app_info m) (app_started_timestamp m).

Definition on_request_count
    (f : gmap (string * string * string * string) nat ->
         gmap (string * string * string * string) nat) (m : RLMetrics) : RLMetrics :=
  mkRLMetrics (namespace m) (histogram_buckets m) (response_size_buckets m)
    (request_latency m) (f (request_count m)) (requests_in_progress m)
    (response_size m) (app_info m) (app_started_timestamp m).

Definition on_requests_in_progress (f : gmap string Z -> gmap string Z) (m : RLMetrics)
  : RLMetrics :=
  mkRLMetrics (namespace m) (histogram_buckets m) (response_size_buckets m)
    (request_latency m) (request_count m) (f (requests_in_progress m))
    (response_size m) (app_info m) (app_started_timestamp m).

Definition on_response_size (f : Histogram -> Histogram) (m : RLMetrics) : RLMetrics :=
  mkRLMetrics (namespace m) (histogram_buckets m) (response_size_buckets m)
    (request_latency m) (request_count m) (requests_in_progress m)
    (f (response_size m)) (app_info m) (app_started_timestamp m).

(** The mutations a method asks of the metric library. *)
Inductive Mutation :=
| Latency_observe
| Count_inc
| Size_observe
| In_progress_inc
| In_progress_dec.

(** [error_type] as [observe_request] computes it. *)
Definition error_type (status_code : Z) : string :=
  let error_type := "none" in
  if (400 <=? status_code)%Z && (status_code <? 500)%Z then "client_error"
  else if (status_code >=? 500)%Z then "server_error"
  else error_type.

Section Methods.

(** The library may fail inside a mutation (resource exhaustion and the
    like): [fault op] is the exception it raises in [op], if any.  A
    mutation that raises leaves the metrics as they were. *)
Variable fault : Mutation -> option Exception.

Definition mutate (op : Mutation) (f : RLMetrics -> RLMetrics) : M World unit :=
  fun w => match fault op with
           | Some e => (Raised e, w)
           | None => (Returned tt, set_self f w)
           end.

Definition observe_request (method path : string) (duration : Q) (status_code : Z)
    (response_size : option Z) : M World unit :=
  called (Call_observe_request method path duration status_code response_size);;
  try_except
    ((* Determine error type for better categorization *)
     let error_type := error_type status_code in
     mutate Latency_observe (on_request_latency (observe (method, path) duration));;
     mutate Count_inc
       (on_request_count (counter_inc (method, path, pretty status_code, error_type)));;
     (* Record response size if provided *)
     match response_size with
     | Some size =>
         mutate Size_observe (on_response_size (observe (method, path) (inject_Z size)))
     | None => ret tt
     end)
    (fun e => logger ERROR ("Failed to record metrics: " ++ exc_msg e)).

Definition inc_in_progress (method : string) : M World unit :=
  called (Call_inc_in_progress method);;
  mutate In_progress_inc (on_requests_in_progress (gauge_inc method)).

Definition dec_in_progress (method : string) : M World unit :=
  called (Call_dec_in_progress method);;
  mutate In_progress_dec (on_requests_in_progress (gauge_dec method)).

(** [with metrics.track_in_progress(method): body] *)
Definition track_in_progress {A} (method : string) (body : M World A) : M World A :=
  mutate In_progress_inc (on_requests_in_progress (gauge_inc method));;
  try_finally body (mutate In_progress_dec (on_requests_in_progress (gauge_dec method))).

End Methods.

(** [if content_length:] on the value of [headers.get(...)] *)
Definition header_given (h : option string) : bool :=
  match h with
  | Some v => truthy v
  | None => false
  end.

(** [try: response_size = int(content_length)  except ValueError: pass] *)
Definition size_of_header {S} (content_length : string) : M S (option Z) :=
  try_except_of "ValueError"
    (n ← lift (int_of_str content_length); ret (Some n))
    (ret None).

(** The normaliser is called under [try]; on an exception the path stays
    what it was and a warning is logged. *)
Definition apply_normalizer {S} `{Logs S}
    (path_normalizer : option (string -> Outcome string)) (path : string) : M S string :=
  match path_normalizer with
  | Some normalizer =>
      try_except (lift (normalizer path))
        (fun e =>
           logger WARNING ("Path normalizer failed for " ++ path ++ ": " ++ exc_msg e);;
           ret path)
  | None => ret path
  end.

(** ** flask_middleware.py *)

Module flask_middleware.

(** [flask.request], with the attribute the [before_request] hook sets. *)
Record Request := mkRequest {
  method : string;
  path : string;
  _rl_metrics_start_time : option Q
}.

(** The response: status, [Content-Length] header if any, and what
    reading the property [response.data] gives: the bytes of the body, or
    the exception the read raises (werkzeug refuses it with a
    [RuntimeError] for a response in direct passthrough mode). *)
Record Response := mkResponse {
  status_code : Z;
  content_length : option string;
  data : Outcome string
}.

(** State of one request: the metrics object of the closure and the
    request object. *)
Record Context := mkContext { metrics : World; request : Request }.

#[global] Instance Context_logs : Logs Context :=
  fun r c => mkContext (write_log r (metrics c)) (request c).

Definition set_metrics (w : World) (c : Context) : Context := mkContext w (request c).

Definition set_start_time (t : Q) (c : Context) : Context :=
  mkContext (metrics c)
    (mkRequest (method (request c)) (path (request c)) (Some t)).

Definition default_exclude_paths : list string :=
  ["/health"; "/healthz"; "/metrics"; "/readiness"; "/liveness"].

(** [if exclude_paths is None: exclude_paths = [...]] *)
Definition resolve_exclude_paths (exclude_paths : option (list string)) : list string :=
  match exclude_paths with
  | None => default_exclude_paths
  | Some l => l
  end.

Section Handlers.

Variable fault : Mutation -> option Exception.
Variable path_normalizer : option (string -> Outcome string).
Variable exclude_paths : list string.

(** [now] is the reading of [get_precise_time()]. *)
Definition before_request_handler (now : Q) : M Context unit :=
  modify (set_start_time now);;
  request ← gets request;
  (* Track in-progress request *)
  zoom metrics set_metrics (inc_in_progress fault (method request)).

Definition after_request_handler (now : Q) (response : Response) : M Context Response :=
  request ← gets request;
  (* Always decrement in-progress counter *)
  try_except
    (zoom metrics set_metrics (dec_in_progress fault (method request)))
    (fun _ => ret tt);;
  (* Skip if no start time recorded *)
  match _rl_metrics_start_time request with
  | None => ret response
  | Some start_time =>
      let duration := (now - start_time)%Q in
      let method := method request in
      let path := path request in
      let status_code := status_code response in
      (* Apply path normalization if provided *)
      path ← apply_normalizer path_normalizer path;
      (* Skip excluded paths *)
      if bool_decide (path ∈ exclude_paths) then ret response
      else
        (* Get response size from Content-Length header if available *)
        response_size ←
          (if header_given (content_length response) then
             size_of_header (default "" (content_length response))
           else
             body ← lift (data response);
             if truthy body then
               body ← lift (data response);
               ret (Some (Z.of_nat (String.length body)))
             else ret None);
        (* Record metrics *)
        try_except
          (zoom metrics set_metrics
             (observe_request fault method path duration status_code response_size))
          (fun e =>
             logger ERROR ("Failed to record metrics for " ++ method ++ " " ++ path
                           ++ ": " ++ exc_msg e));;
        ret response
  end.

End Handlers.

End flask_middleware.

(** ** fastapi_middleware.py *)

Module fastapi_middleware.

Record Request := mkRequest { method : string; url_path : string }.

Record Response := mkResponse { status_code : Z; content_length : option string }.

(** The middleware object; its [metrics] is the object of the [World]. *)
Record RLMetricsMiddleware := mkMiddleware {
  path_normalizer : option (string -> Outcome string);
  exclude_paths : list string
}.

(** [RLMetricsMiddleware.__init__]: [exclude_paths or [...]] *)
Definition RLMetricsMiddleware_init (path_normalizer : option (string -> Outcome string))
    (exclude_paths : option (list string)) : RLMetricsMiddleware :=
  mkMiddleware path_normalizer
    match exclude_paths with
    | Some (p :: l) => p :: l
    | _ => ["/health"; "/metrics"; "/docs"; "/openapi.json"]
    end.

Section Dispatch.

Variable fault : Mutation -> option Exception.

(** [call_next] is the outcome of the downstream application on the
    request; [start_time] and [end_time] are the two readings of
    [get_precise_time()]. *)
Definition dispatch (self : RLMetricsMiddleware) (request : Request)
    (call_next : Outcome Response) (start_time end_time : Q) : M World Response :=
  (* Skip excluded paths *)
  if bool_decide (url_path request ∈ exclude_paths self) then lift call_next
  else
    (* Track in-progress request *)
    inc_in_progress fault (method request);;
    try_finally
      ((* Process request *)
       response ← lift call_next;
       (* Calculate duration *)
       let duration := (end_time - start_time)%Q in
       (* Get path (apply normalizer if provided) *)
       path ← apply_normalizer (path_normalizer self) (url_path request);
       (* Get response size from Content-Length header if available *)
       response_size ←
         (if header_given (content_length response) then
            size_of_header (default "" (content_length response))
          else ret None);
       (* Record metrics *)
       try_except
         (observe_request fault (method request) path duration (status_code response)
            response_size)
         (fun e => logger ERROR ("Failed to record metrics: " ++ exc_msg e));;
       ret response)
      ((* Always decrement in-progress counter *)
       dec_in_progress fault (method request)).

End Dispatch.

End fastapi_middleware.

(** ** Vocabulary of the statements *)

(** The metric library never fails. *)
Definition no_fault : Mutation -> option Exception := fun _ => None.

(** A process in which nothing has been registered or created yet. *)
Definition initial_process (env : gmap string string) : Process :=
  mkProcess env ∅ [] None [].

(** The exception, if any, that stops the mutations of one
    [observe_request] call: the first of latency, count and (when a size is
    given) size that fails. *)
Definition first_fault (fault : Mutation -> option Exception) (response_size : option Z)
  : option Exception :=
  match fault Latency_observe with
  | Some e => Some e
  | None =>
      match fault Count_inc with
      | Some e => Some e
      | None =>
          match response_size with
          | Some _ => fault Size_observe
          | None => None
          end
      end
  end.

Definition is_inc (method : string) (c : Call) : bool :=
  match c with
  | Call_inc_in_progress m => bool_decide (m = method)
  | _ => false
  end.

Definition is_dec (method : string) (c : Call) : bool :=
  match c with
  | Call_dec_in_progress m => bool_decide (m = method)
  | _ => false
  end.

Definition is_observe (c : Call) : bool :=
  match c with
  | Call_observe_request _ _ _ _ _ => true
  | _ => false
  end.

Definition count_calls (p : Call -> bool) (l : list Call) : nat :=
  length (List.filter p l).

(** Order on bucket bounds, and bounds in ascending order. *)
Definition bound_leb (a b : bound) : bool :=
  match a, b with
  | Finite x, Finite y => Qle_bool x y
  | _, Inf => true
  | Inf, Finite _ => false
  end.

Fixpoint ascending (bounds : list bound) : bool :=
  match bounds with
  | [] => true
  | a :: tl =>
      match tl with
      | [] => true
      | b :: _ => bound_leb a b && ascending tl
      end
  end.

(** A histogram as the constructor and [observe] leave it: bounds in
    ascending order and one counter per bound in every child. *)
Definition histogram_wf (h : Histogram) : Prop :=
  ascending (upper_bounds h) = true /\
  forall k ch, children h !! k = Some ch ->
               length (bucket_counts ch) = length (upper_bounds h).

(** The effect of one observation on the cumulative bucket counts, in
    the words of the specification: the count of every bucket whose bound
    is at least the observed value goes up by one. *)
Definition cumulative_after (bounds : list bound) (amount : Q) (cumulative : list nat)
  : list nat :=
  zip_with (fun b c => if admits b amount then S c else c) bounds cumulative.

(** Bucket sequences the specification calls valid: strictly ascending
    and strictly positive. *)
Fixpoint strictly_ascending (l : list Q) : bool :=
  match l with
  | [] => true
  | x :: tl =>
      match tl with
      | [] => true
      | y :: _ => negb (Qle_bool y x) && strictly_ascending tl
      end
  end.

Definition all_positive (l : list Q) : bool :=
  forallb (fun x => negb (Qle_bool x 0)) l.

(** The arguments of one [get_metrics_registry] call. *)
Record RegistryArgs := mkArgs {
  arg_now : Q;
  arg_namespace : option string;
  arg_histogram_buckets : option (list Q);
  arg_response_size_buckets : option (list Q);
  arg_app_version : option string;
  arg_app_name : option string
}.

Definition get_registry `{HistogramCtor} (a : RegistryArgs) : M Process nat :=
  get_metrics_registry (arg_now a) (arg_namespace a) (arg_histogram_buckets a)
    (arg_response_size_buckets a) (arg_app_version a) (arg_app_name a).

(** A sequence of calls, one after the other; the outcomes in order. *)
Fixpoint get_registry_all `{HistogramCtor} (l : list RegistryArgs) (p : Process)
  : list (Outcome nat) * Process :=
  match l with
  | [] => ([], p)
  | a :: tl =>
      match get_registry a p with
      | (o, p') => match get_registry_all tl p' with
                   | (os, p'') => (o :: os, p'')
                   end
      end
  end.

(** An argument, or else the environment variable, or else the empty
    string. *)
Definition arg_or_env (arg : option string) (name : string) (env : gmap string string)
  : string :=
  match arg with
  | Some v => v
  | None => default "" (env !! name)
  end.

(** The labels of the [app] info metric for a name and a version: each
    is present when it is not empty. *)
Definition app_identity (app_name app_version : string) : gmap string string :=
  (if truthy app_version then <["version" := app_version]> else id)
    ((if truthy app_name then <["name" := app_name]> else id) ∅).

(** The bucket lists of an object built from the given arguments. *)
Definition buckets_or (dflt : list Q) (arg : option (list Q)) : list Q :=
  match arg with
  | None => dflt
  | Some buckets => buckets
  end.

(** The size read from a [Content-Length] value: its integer value, or
    nothing when it is not an integer literal. *)
Definition header_size (content_length : string) : option Z :=
  match int_of_str content_length with
  | Returned n => Some n
  | Raised _ => None
  end.

(** The response size the Flask hook hands on, or the exception of
    reading the body when there is no header to go by. *)
Definition flask_response_size (response : flask_middleware.Response)
  : Outcome (option Z) :=
  if header_given (flask_middleware.content_length response) then
    Returned (header_size (default "" (flask_middleware.content_length response)))
  else
    match flask_middleware.data response with
    | Returned body =>
        Returned (if truthy body then Some (Z.of_nat (String.length body)) else None)
    | Raised e => Raised e
    end.

(** The response size the FastAPI middleware hands on. *)
Definition fastapi_response_size (response : fastapi_middleware.Response) : option Z :=
  if header_given (fastapi_middleware.content_length response) then
    header_size (default "" (fastapi_middleware.content_length response))
  else None.

(** A request fully recorded: one latency observation, one count and,
    when a size is known, one size observation, all under the given path. *)
Definition record_request (method path : string) (duration : Q) (status_code : Z)
    (response_size : option Z) (m : RLMetrics) : RLMetrics :=
  let m := on_request_latency (observe (method, path) duration) m in
  let m := on_request_count
             (counter_inc (method, path, pretty status_code, error_type status_code)) m in
  match response_size with
  | Some size => on_response_size (observe (method, path) (inject_Z size)) m
  | None => m
  end.

(** The warning of a failed normaliser. *)
Definition normalizer_warning (path : string) (e : Exception) : LogRecord :=
  mkLog WARNING ("Path normalizer failed for " ++ path ++ ": " ++ exc_msg e).

(** An object as the constructor leaves it with no arguments, and a
    world around it in which nothing has happened yet. *)
Definition fresh_metrics : RLMetrics :=
  mkRLMetrics "" default_histogram_buckets default_response_size_buckets
    (mkHistogram (map Finite default_histogram_buckets ++ [Inf])%list ∅) ∅ ∅
    (mkHistogram (map Finite default_response_size_buckets ++ [Inf])%list ∅) ∅ 0.

Definition fresh_world : World := mkWorld fresh_metrics [] [].

(** A sequence of gauge operations on one object. *)
Inductive GaugeOp := Inc (method : string) | Dec (method : string).

Definition gauge_op (o : GaugeOp) : M World unit :=
  match o with
  | Inc m => inc_in_progress no_fault m
  | Dec m => dec_in_progress no_fault m
  end.

Fixpoint gauge_ops (l : list GaugeOp) (w : World) : World :=
  match l with
  | [] => w
  | o :: tl => gauge_ops tl (gauge_op o w).2
  end.

Definition incs_of (method : string) (l : list GaugeOp) : nat :=
  length (List.filter (fun o => match o with Inc m => bool_decide (m = method) | _ => false end) l).

Definition decs_of (method : string) (l : list GaugeOp) : nat :=
  length (List.filter (fun o => match o with Dec m => bool_decide (m = method) | _ => false end) l).

(** ** metrics.py: the metrics server *)

(** [needle in hay] for two [str]. *)
Fixpoint contains (needle hay : string) : bool :=
  String.prefix needle hay ||
  match hay with
  | String _ hay' => contains needle hay'
  | EmptyString => false
  end.

(** [str(x)] of an [Optional[int]] and of an [Optional[str]], as an
    f-string prints them. *)
Definition str_optional_int (x : option Z) : string :=
  match x with
  | Some n => pretty n
  | None => "None"
  end.

Definition str_optional (x : option string) : string :=
  match x with
  | Some v => v
  | None => "None"
  end.

(** What [enable_metrics] of flask_middleware.py installs on the
    application: the two hooks, closed over a normaliser and an exclusion
    list. *)
Record FlaskHooks := mkFlaskHooks {
  hooks_path_normalizer : option (string -> Outcome string);
  hooks_exclude_paths : list string
}.

(** The application object as [enable_metrics] of __init__.py looks at
    it: which attributes it has, and the name of its type. *)
Record App := mkApp {
  has_before_request : bool;
  has_after_request : bool;
  has_add_middleware : bool;
  type_name : string
}.

(** The keyword arguments the adapters take. *)
Record Options := mkOptions {
  opt_namespace : option string;
  opt_histogram_buckets : option (list Q);
  opt_response_size_buckets : option (list Q);
  opt_path_normalizer : option (string -> Outcome string);
  opt_exclude_paths : option (list string);
  opt_app_name : option string;
  opt_app_version : option string
}.

(** What has been installed on the application. *)
Inductive Instrumented :=
| Flask_hooks (h : FlaskHooks)
| FastAPI_middleware (mw : fastapi_middleware.RLMetricsMiddleware).

Section Exposition.

(** The exception classes that derive from [OSError], by class name;
    [OSError] itself always counts. *)
Variable OSError_subclass : string -> bool.

(** [prometheus_client.start_http_server(port)]: what binding the port
    does. *)
Variable start_http_server : Z -> Outcome unit.

Context `{HistogramCtor}.

Definition isinstance_OSError (e : Exception) : bool :=
  String.eqb (exc_type e) "OSError" || OSError_subclass (exc_type e).

(** [try: c  except OSError as e: h e] *)
Definition try_except_OSError {S A} (c : M S A) (h : Exception -> M S A) : M S A :=
  fun s => match c s with
           | (Returned a, s') => (Returned a, s')
           | (Raised e, s') => if isinstance_OSError e then h e s' else (Raised e, s')
           end.

Definition start_metrics_server (port : option Z) : M Process unit :=
  port ← match port with
          | None => v ← getenv "RL_METRICS_PORT" "8000"; lift (int_of_str v)
          | Some port => mret port
          end;
  try_except_OSError
    (lift (start_http_server port);;
     logger INFO ("✅ Metrics server started on port " ++ pretty port);;
     logger INFO ("📊 Metrics available at http://localhost:" ++ pretty port
                  ++ "/metrics"))
    (fun e =>
       if contains "Address already in use" (exc_msg e) then
         logger WARNING ("⚠️  Port " ++ pretty port
                         ++ " already in use, metrics server may already be running")
       else
         logger ERROR ("Failed to start metrics server on port " ++ pretty port ++ ": "
                       ++ exc_msg e);;
         raise e).

(** [enable_metrics] of flask_middleware.py.  The application object is
    left out: what is installed on it is returned beside the metrics
    instance. *)
Definition flask_enable_metrics (now : Q) (port : option Z) (namespace : option string)
    (histogram_buckets response_size_buckets : option (list Q))
    (path_normalizer : option (string -> Outcome string))
    (exclude_paths : option (list string)) (app_name app_version : option string)
  : M Process (nat * FlaskHooks) :=
  (* Get or create metrics instance *)
  metrics ← get_metrics_registry now namespace histogram_buckets response_size_buckets
              app_version app_name;
  (* Default excluded paths *)
  let exclude_paths := flask_middleware.resolve_exclude_paths exclude_paths in
  (* Start metrics server *)
  try_except_OSError (start_metrics_server port)
    (fun _ => logger WARNING ("Metrics server on port " ++ str_optional_int port
                              ++ " may already be running"));;
  logger INFO ("✅ RL metrics enabled for Flask app (port=" ++ str_optional_int port
               ++ ", namespace='" ++ str_optional namespace ++ "', excluded="
               ++ pretty (length exclude_paths) ++ " paths)");;
  mret (metrics, mkFlaskHooks path_normalizer exclude_paths).

(** [enable_metrics] of fastapi_middleware.py, in the same way. *)
Definition fastapi_enable_metrics (now : Q) (port : option Z) (namespace : option string)
    (histogram_buckets response_size_buckets : option (list Q))
    (path_normalizer : option (string -> Outcome string))
    (exclude_paths : option (list string)) (app_name app_version : option string)
  : M Process (nat * fastapi_middleware.RLMetricsMiddleware) :=
  (* Get or create metrics instance *)
  metrics ← get_metrics_registry now namespace histogram_buckets response_size_buckets
              app_version app_name;
  (* Start metrics server *)
  try_except_OSError (start_metrics_server port)
    (fun _ => logger WARNING ("Metrics server on port " ++ str_optional_int port
                              ++ " may already be running"));;
  (* Add middleware *)
  let middleware := fastapi_middleware.RLMetricsMiddleware_init path_normalizer
                      exclude_paths in
  logger INFO ("âœ… RL metrics enabled for FastAPI app (port=" ++ str_optional_int port
               ++ ", namespace='" ++ str_optional namespace ++ "')");;
  mret (metrics, middleware).

(** ** __init__.py *)

Definition enable_flask_metrics (now : Q) (port : option Z) (kwargs : Options)
  : M Process (nat * Instrumented) :=
  r ← flask_enable_metrics now port (opt_namespace kwargs) (opt_histogram_buckets kwargs)
        (opt_response_size_buckets kwargs) (opt_path_normalizer kwargs)
        (opt_exclude_paths kwargs) (opt_app_name kwargs) (opt_app_version kwargs);
  mret (r.1, Flask_hooks r.2).

Definition enable_fastapi_metrics (now : Q) (port : option Z) (kwargs : Options)
  : M Process (nat * Instrumented) :=
  r ← fastapi_enable_metrics now port (opt_namespace kwargs) (opt_histogram_buckets kwargs)
        (opt_response_size_buckets kwargs) (opt_path_normalizer kwargs)
        (opt_exclude_paths kwargs) (opt_app_name kwargs) (opt_app_version kwargs);
  mret (r.1, FastAPI_middleware r.2).

Definition enable_metrics (now : Q) (app : App) (port : option Z) (kwargs : Options)
  : M Process (nat * Instrumented) :=
  (* Detect Flask *)
  if has_before_request app && has_after_request app then
    enable_flask_metrics now port kwargs
  (* Detect FastAPI *)
  else if has_add_middleware app then
    enable_fastapi_metrics now port kwargs
  else
    raise (ValueError ("Unsupported framework: " ++ type_name app
                       ++ ". Supported: Flask, FastAPI")).

End Exposition.

(** ** Further vocabulary *)

(** The path the metrics are labelled with: what the normaliser returns,
    or the path itself when there is no normaliser or it raises. *)
Definition normalized_path (path_normalizer : option (string -> Outcome string))
    (path : string) : string :=
  match path_normalizer with
  | Some normalizer =>
      match normalizer path with
      | Returned path' => path'
      | Raised _ => path
      end
  | None => path
  end.

(** The warning a raising normaliser leaves in the log, if any. *)
Definition normalizer_log (path_normalizer : option (string -> Outcome string))
    (path : string) : list LogRecord :=
  match path_normalizer with
  | Some normalizer =>
      match normalizer path with
      | Returned _ => []
      | Raised e => [normalizer_warning path e]
      end
  | None => []
  end.

(** The sum of a counter over all its label combinations. *)
Definition counter_total (c : gmap (string * string * string * string) nat) : nat :=
  map_fold (fun _ v acc => (v + acc)%nat) 0%nat c.

(** The arguments of one [observe_request] call, and a sequence of
    calls on one object. *)
Record Observation := mkObservation {
  obs_method : string;
  obs_path : string;
  obs_duration : Q;
  obs_status_code : Z;
  obs_response_size : option Z
}.

Fixpoint observe_all (fault : Mutation -> option Exception) (l : list Observation)
    (w : World) : World :=
  match l with
  | [] => w
  | o :: tl =>
      observe_all fault tl
        (observe_request fault (obs_method o) (obs_path o) (obs_duration o)
           (obs_status_code o) (obs_response_size o) w).2
  end.

(** No slash of the string is followed by a decimal digit;
    [after_slash] says whether the character before the string is a
    slash. *)
Fixpoint slash_digit_free (after_slash : bool) (s : string) : bool :=
  match s with
  | EmptyString => true
  | String c s' =>
      negb (after_slash && Re.digit c) && slash_digit_free (Ascii.eqb c "/") s'
  end.

Fixpoint count_slashes (s : string) : nat :=
  match s with
  | EmptyString => 0%nat
  | String c s' => ((if Ascii.eqb c "/" then 1 else 0) + count_slashes s')%nat
  end.

(** The number of slashes in whatever a pattern matches, when the
    pattern fixes it: a class counts for none when it refuses the slash. *)
Fixpoint slashes_of (r : Re.regex) : option nat :=
  match r with
  | Re.Lit c => Some (if Ascii.eqb c "/" then 1%nat else 0%nat)
  | Re.Plus p => if p "/"%char then None else Some 0%nat
  | Re.Rep _ p => if p "/"%char then None else Some 0%nat
  | Re.Seq r1 r2 =>
      match slashes_of r1, slashes_of r2 with
      | Some a, Some b => Some (a + b)%nat
      | _, _ => None
      end
  | Re.Eol => Some 0%nat
  end.

(** Two processes that differ in their log at most, and the levels of
    the records of a log. *)
Definition same_but_log (p p' : Process) : Prop :=
  environ p' = environ p /\ REGISTRY p' = REGISTRY p /\ objects p' = objects p /\
  _metrics_instance p' = _metrics_instance p.

Definition levels (p : Process) : list Level := map level (process_log p).

(** ** Properties *)

(** *** The monad *)

Lemma bind_returned {S A B} (c : M S A) (k : A -> M S B) s a s' :
  c s = (Returned a, s') -> (c ≫= k) s = k a s'.
Proof. intros Hc. unfold mbind, M_bind, bind. now rewrite Hc. Qed.

Lemma bind_raised {S A B} (c : M S A) (k : A -> M S B) s e s' :
  c s = (Raised e, s') -> (c ≫= k) s = (Raised e, s').
Proof. intros Hc. unfold mbind, M_bind, bind. now rewrite Hc. Qed.

(** *** Status classification *)

Lemma error_type_cases (status_code : Z) :
  ((400 <= status_code < 500)%Z /\ error_type status_code = "client_error") \/
  ((500 <= status_code)%Z /\ error_type status_code = "server_error") \/
  ((status_code < 400)%Z /\ error_type status_code = "none").
Proof.
  unfold error_type.
  destruct (Z.leb_spec 400 status_code) as [H400|H400];
    destruct (Z.ltb_spec status_code 500) as [H500|H500]; simpl.
  - left. split; [lia | reflexivity].
  - right. left. rewrite Z.geb_leb.
    destruct (Z.leb_spec 500 status_code); [split; [lia | reflexivity] | lia].
  - right. right. rewrite Z.geb_leb.
    destruct (Z.leb_spec 500 status_code); [lia | split; [lia | reflexivity]].
  - lia.
Qed.

Lemma observe_request_count method path duration status_code response_size w :
  request_count (self (observe_request no_fault method path duration status_code
                         response_size w).2)
  = counter_inc (method, path, pretty status_code, error_type status_code)
      (request_count (self w)).
Proof. destruct response_size; reflexivity. Qed.

(** C4: for every integer status code, [error_type] is ["client_error"]
    exactly for 400..499, ["server_error"] exactly from 500 on and ["none"]
    exactly below 400; these three cases cover every status code, and it is
    under this label (and the decimal text of the status) that
    [observe_request] counts the request. *)
Theorem error_type_classification (status_code : Z) :
  (error_type status_code = "client_error" <-> (400 <= status_code < 500)%Z) /\
  (error_type status_code = "server_error" <-> (500 <= status_code)%Z) /\
  (error_type status_code = "none" <-> (status_code < 400)%Z) /\
  (error_type status_code = "client_error" \/
   error_type status_code = "server_error" \/
   error_type status_code = "none") /\
  (forall method path duration response_size w,
     request_count (self (observe_request no_fault method path duration status_code
                            response_size w).2)
     = counter_inc (method, path, pretty status_code, error_type status_code)
         (request_count (self w))).
Proof.
  split; [|split; [|split; [|split]]].
  5: { intros. apply observe_request_count. }
  all: destruct (error_type_cases status_code) as [[Hr He]|[[Hr He]|[Hr He]]];
    rewrite He; try (split; intros; first [discriminate | lia | reflexivity]); auto.
Qed.

(** *** [observe_request] *)

(** What one call leaves behind, mutation by mutation. *)
Lemma observe_request_unfold fault method path duration status_code response_size w :
  observe_request fault method path duration status_code response_size w =
  let w0 := mkWorld (self w) (world_log w)
              (calls w ++ [Call_observe_request method path duration status_code
                             response_size])%list in
  let failed e w1 :=
    (Returned tt, write_log (mkLog ERROR ("Failed to record metrics: " ++ exc_msg e)) w1) in
  match fault Latency_observe with
  | Some e => failed e w0
  | None =>
      let w1 := set_self (on_request_latency (observe (method, path) duration)) w0 in
      match fault Count_inc with
      | Some e => failed e w1
      | None =>
          let w2 := set_self (on_request_count
                                (counter_inc (method, path, pretty status_code,
                                              error_type status_code))) w1 in
          match response_size with
          | None => (Returned tt, w2)
          | Some size =>
              match fault Size_observe with
              | Some e => failed e w2
              | None =>
                  (Returned tt,
                   set_self (on_response_size (observe (method, path) (inject_Z size))) w2)
              end
          end
      end
  end.
Proof.
  unfold observe_request, called, try_except, mutate, logger, modify.
  unfold mbind, M_bind, bind, mret, M_ret, ret. cbn.
  destruct (fault Latency_observe); [reflexivity|].
  destruct (fault Count_inc); [reflexivity|].
  destruct response_size; [|reflexivity].
  destruct (fault Size_observe); reflexivity.
Qed.

(** C6: whatever the arguments and whichever mutation of the metric
    library fails, [observe_request] returns normally; the exception that
    stopped the mutations is logged at error level and goes no further, and
    without a failure nothing is logged. *)
Theorem observe_request_never_raises fault method path duration status_code
    response_size w :
  let r := observe_request fault method path duration status_code response_size w in
  r.1 = Returned tt /\
  world_log r.2 =
    (world_log w ++
     match first_fault fault response_size with
     | Some e => [mkLog ERROR ("Failed to record metrics: " ++ exc_msg e)]
     | None => []
     end)%list.
Proof.
  cbv zeta. rewrite observe_request_unfold. unfold first_fault. cbv zeta.
  destruct (fault Latency_observe); [split; reflexivity|].
  destruct (fault Count_inc); [split; reflexivity|].
  destruct response_size; [|split; [reflexivity | cbn; now rewrite app_nil_r]].
  destruct (fault Size_observe); split; try reflexivity.
  cbn. now rewrite app_nil_r.
Qed.

(** C10: a call without a response size leaves the response-size
    histogram as it was, whichever mutations fail.  Of the other metrics
    only the latency child at (method, path) and the counter child at
    (method, path, str(status_code), error_type) can differ afterwards; the
    gauge and the configuration are untouched.  When nothing fails the
    object is exactly the old one with that latency observation and that
    count, and with a size given the size histogram takes one observation
    at (method, path). *)
Theorem observe_request_without_size_frame fault method path duration status_code w :
  let w' := (observe_request fault method path duration status_code None w).2 in
  let counted := (method, path, pretty status_code, error_type status_code) in
  response_size (self w') = response_size (self w) /\
  requests_in_progress (self w') = requests_in_progress (self w) /\
  upper_bounds (request_latency (self w')) = upper_bounds (request_latency (self w)) /\
  delete (method, path) (children (request_latency (self w')))
    = delete (method, path) (children (request_latency (self w))) /\
  delete counted (request_count (self w')) = delete counted (request_count (self w)) /\
  (namespace (self w'), histogram_buckets (self w'), response_size_buckets (self w'),
   app_info (self w'), app_started_timestamp (self w'))
    = (namespace (self w), histogram_buckets (self w), response_size_buckets (self w),
       app_info (self w), app_started_timestamp (self w)) /\
  self (observe_request no_fault method path duration status_code None w).2
    = on_request_count (counter_inc counted)
        (on_request_latency (observe (method, path) duration) (self w)) /\
  (forall size,
     response_size (self (observe_request no_fault method path duration status_code
                            (Some size) w).2)
     = observe (method, path) (inject_Z size) (response_size (self w))).
Proof.
  cbv zeta. rewrite !observe_request_unfold. cbv zeta.
  destruct (fault Latency_observe), (fault Count_inc); cbn;
    rewrite ?delete_insert_eq; repeat split; reflexivity.
Qed.

(** *** Histograms *)

Lemma running_total_succ acc counts :
  running_total (S acc) counts = map S (running_total acc counts).
Proof.
  revert acc. induction counts as [|c cs IH]; intros acc; [reflexivity|].
  cbn. f_equal. apply IH.
Qed.

Lemma running_total_length acc counts :
  length (running_total acc counts) = length counts.
Proof.
  revert acc. induction counts as [|c cs IH]; intros acc; [reflexivity|].
  cbn. f_equal. apply IH.
Qed.

Lemma inc_first_length amount bounds counts :
  length (inc_first amount bounds counts) = length counts.
Proof.
  revert counts. induction bounds as [|b bs IH]; intros [|c cs]; try reflexivity.
  cbn. destruct (admits b amount); [reflexivity|]. cbn. f_equal. apply IH.
Qed.

Lemma admits_mono a b amount :
  bound_leb a b = true -> admits a amount = true -> admits b amount = true.
Proof.
  destruct a as [x|], b as [y|]; cbn; try easy.
  rewrite !Qle_bool_iff. intros Hxy Hx. now apply Qle_trans with x.
Qed.

(** In an ascending list every bound behind one that admits the value
    admits it too. *)
Lemma ascending_admits b bounds amount :
  ascending (b :: bounds) = true -> admits b amount = true ->
  Forall (fun b' => admits b' amount = true) bounds.
Proof.
  revert b. induction bounds as [|b' bs IH]; intros b Hasc Hb; [constructor|].
  cbn in Hasc. apply andb_true_iff in Hasc as [Hle Hasc].
  assert (Hb' : admits b' amount = true) by (eapply admits_mono; eassumption).
  constructor; [exact Hb' | now apply IH with b'].
Qed.

Lemma ascending_tail b bounds : ascending (b :: bounds) = true -> ascending bounds = true.
Proof.
  destruct bounds as [|b' bs]; [reflexivity|].
  cbn. intros H. now apply andb_true_iff in H as [_ H].
Qed.

Lemma cumulative_after_all_admit bounds amount cumulative :
  Forall (fun b => admits b amount = true) bounds ->
  length cumulative = length bounds ->
  cumulative_after bounds amount cumulative = map S cumulative.
Proof.
  intros Hall. revert cumulative.
  induction Hall as [|b bs Hb _ IH]; intros [|c cs] Hlen; try discriminate; [reflexivity|].
  cbn. rewrite Hb. f_equal. apply IH. now injection Hlen.
Qed.

(** The counters of the library, read out cumulatively, move as the
    specification says. *)
Lemma running_total_inc_first amount bounds counts acc :
  ascending bounds = true ->
  length counts = length bounds ->
  running_total acc (inc_first amount bounds counts)
  = cumulative_after bounds amount (running_total acc counts).
Proof.
  revert counts acc.
  induction bounds as [|b bs IH]; intros [|c cs] acc Hasc Hlen; try discriminate;
    [reflexivity|].
  injection Hlen as Hlen. cbn. destruct (admits b amount) eqn:Hb.
  - cbn. rewrite Nat.add_succ_r. f_equal. rewrite running_total_succ.
    symmetry. apply cumulative_after_all_admit.
    + now apply ascending_admits with b.
    + now rewrite running_total_length.
  - cbn. f_equal. apply IH; [now apply ascending_tail with b | exact Hlen].
Qed.

Lemma labels_length h k :
  histogram_wf h -> length (bucket_counts (labels h k)) = length (upper_bounds h).
Proof.
  intros [_ Hch]. unfold labels.
  destruct (children h !! k) as [ch|] eqn:Hk; cbn.
  - now apply Hch with k.
  - apply length_replicate.
Qed.

Lemma observe_wf k amount h : histogram_wf h -> histogram_wf (observe k amount h).
Proof.
  intros Hwf. split; [apply Hwf|].
  intros k' ch. cbn. destruct (decide (k = k')) as [->|Hne].
  - rewrite lookup_insert_eq. intros [= <-]. cbn.
    rewrite inc_first_length. now apply labels_length.
  - rewrite lookup_insert_ne by exact Hne. apply Hwf.
Qed.

Lemma nondecreasing_ascending buckets :
  nondecreasing buckets = true -> ascending (map Finite buckets ++ [Inf])%list = true.
Proof.
  induction buckets as [|x tl IH]; [reflexivity|].
  destruct tl as [|y tl']; [reflexivity|].
  intros H. change (nondecreasing (x :: y :: tl'))
    with (Qle_bool x y && nondecreasing (y :: tl')) in H.
  apply andb_true_iff in H as [Hxy Htl].
  change (ascending (map Finite (x :: y :: tl') ++ [Inf])%list)
    with (Qle_bool x y && ascending (map Finite (y :: tl') ++ [Inf])%list).
  rewrite Hxy. now apply IH.
Qed.

(** The histograms the library's constructor builds are well formed. *)
Lemma prometheus_client_prepare_wf buckets bounds :
  prometheus_client_prepare buckets = Returned bounds ->
  histogram_wf (mkHistogram bounds ∅).
Proof.
  unfold prometheus_client_prepare.
  destruct (nondecreasing buckets) eqn:Hnd; [|discriminate]. cbn.
  match goal with |- context [if ?b then _ else _] => destruct b end; [discriminate|].
  intros [= <-].
  split; [now apply nondecreasing_ascending|].
  intros k ch. cbn. now rewrite lookup_empty.
Qed.

(** C9: in a histogram with ascending bounds, one observation of
    [amount] under labels [k] raises by one the cumulative count of exactly
    the buckets whose bound is at least [amount] (the +infinity bucket is
    always among them), leaves the other cumulative counts as they were,
    and adds [amount] to the running sum of that child; bounds and the
    children under other labels do not change. *)
Theorem observe_cumulative (h : Histogram) (k : string * string) (amount : Q) :
  histogram_wf h ->
  let before := labels h k in
  let after := labels (observe k amount h) k in
  cumulative_counts after
    = cumulative_after (upper_bounds h) amount (cumulative_counts before) /\
  (forall i b, upper_bounds h !! i = Some b ->
     exists c, cumulative_counts before !! i = Some c /\
               cumulative_counts after !! i
               = Some (if admits b amount then S c else c)) /\
  (forall i, upper_bounds h !! i = Some Inf ->
     exists c, cumulative_counts before !! i = Some c /\
               cumulative_counts after !! i = Some (S c)) /\
  sum after = (sum before + amount)%Q /\
  upper_bounds (observe k amount h) = upper_bounds h /\
  delete k (children (observe k amount h)) = delete k (children h).
Proof.
  intros Hwf before after.
  assert (Hcum : cumulative_counts after
                 = cumulative_after (upper_bounds h) amount (cumulative_counts before)).
  { subst before after. unfold labels at 1. cbn. rewrite lookup_insert_eq. cbn.
    unfold cumulative_counts. cbn.
    apply running_total_inc_first; [apply Hwf | now apply labels_length]. }
  assert (Hpoint : forall i b, upper_bounds h !! i = Some b ->
     exists c, cumulative_counts before !! i = Some c /\
               cumulative_counts after !! i
               = Some (if admits b amount then S c else c)).
  { intros i b Hb. rewrite Hcum. unfold cumulative_after.
    destruct (cumulative_counts before !! i) as [c|] eqn:Hc.
    - exists c. split; [reflexivity|]. rewrite lookup_zip_with, Hb. cbn. now rewrite Hc.
    - apply lookup_ge_None in Hc. apply lookup_lt_Some in Hb.
      unfold cumulative_counts in Hc. rewrite running_total_length in Hc.
      subst before. rewrite labels_length in Hc by exact Hwf. lia. }
  repeat split.
  - exact Hcum.
  - exact Hpoint.
  - intros i Hi. destruct (Hpoint i Inf Hi) as (c & Hc & Hc'). now exists c.
  - subst before after. unfold labels at 1. cbn. now rewrite lookup_insert_eq.
  - cbn. apply delete_insert_eq.
Qed.

(** The buckets [0.01, 0.05, 0.1] as the constructor prepares them. *)
Example prepare_three_buckets :
  prometheus_client_prepare [0.01; 0.05; 0.1]%Q
  = Returned [Finite 0.01; Finite 0.05; Finite 0.1; Inf].
Proof. reflexivity. Qed.

(** Observing 0.03 against [0.01, 0.05, 0.1]: the cumulative counts of
    0.05, 0.1 and +Inf go from 0 to 1, that of 0.01 stays 0. *)
Example observe_three_hundredths :
  let h := mkHistogram [Finite 0.01; Finite 0.05; Finite 0.1; Inf] ∅ in
  cumulative_counts (labels h ("GET", "/api")) = [0; 0; 0; 0]%nat /\
  cumulative_counts (labels (observe ("GET", "/api") 0.03 h) ("GET", "/api"))
  = [0; 1; 1; 1]%nat /\
  sum (labels (observe ("GET", "/api") 0.03 h) ("GET", "/api")) = (0 + 0.03)%Q.
Proof. repeat split; reflexivity. Qed.

Lemma observe_cumulative_witness :
  let h := mkHistogram [Finite 0.01; Finite 0.05; Finite 0.1; Inf] ∅ in
  let k := ("GET", "/api") in
  histogram_wf h /\
  cumulative_counts (labels (observe k 0.03 h) k)
  = cumulative_after (upper_bounds h) 0.03 (cumulative_counts (labels h k)) /\
  cumulative_counts (labels (observe k 0.03 h) k) = [0; 1; 1; 1]%nat.
Proof.
  assert (Hwf : histogram_wf (mkHistogram [Finite 0.01; Finite 0.05; Finite 0.1; Inf] ∅)).
  { split; [reflexivity|]. intros k ch Hk. cbn in Hk. rewrite lookup_empty in Hk.
    discriminate. }
  split; [exact Hwf|]. split; [|reflexivity].
  exact (proj1 (observe_cumulative _ ("GET", "/api") 0.03%Q Hwf)).
Defined.

(** *** Construction *)

Lemma metric_name_inj namespace a b :
  metric_name namespace a = metric_name namespace b -> a = b.
Proof.
  unfold metric_name. destruct (truthy namespace); [|easy].
  induction namespace as [|c s IH]; cbn; intros Heq.
  - now injection Heq.
  - injection Heq as Heq. now apply IH.
Qed.

Lemma new_collector_fresh name p :
  name ∉ REGISTRY p ->
  new_collector name p = (Returned tt, set_REGISTRY ({[name]} ∪ REGISTRY p) p).
Proof.
  intros Hfresh. unfold new_collector, zoom, register.
  destruct (decide (name ∈ REGISTRY p)); [contradiction | reflexivity].
Qed.

Lemma new_histogram_rejected `{HistogramCtor} name buckets e p :
  prepare_buckets buckets = Raised e -> new_histogram name buckets p = (Raised e, p).
Proof.
  intros Hraise. unfold new_histogram, lift, mbind, M_bind, bind. now rewrite Hraise.
Qed.

Lemma new_histogram_fresh `{HistogramCtor} name buckets bounds p :
  prepare_buckets buckets = Returned bounds -> name ∉ REGISTRY p ->
  new_histogram name buckets p
  = (Returned (mkHistogram bounds ∅), set_REGISTRY ({[name]} ∪ REGISTRY p) p).
Proof.
  intros Hok Hfresh. unfold new_histogram, lift, mbind, M_bind, bind.
  rewrite Hok, (new_collector_fresh _ _ Hfresh). reflexivity.
Qed.

(** A name of the object is not among names of the object registered
    before it, nor in a registry that holds none of them. *)
Ltac fresh_name :=
  cbn;
  repeat (rewrite not_elem_of_union; split);
  try (rewrite not_elem_of_singleton;
       let Heq := fresh in intros Heq; apply metric_name_inj in Heq; discriminate);
  auto.

(** Construction on a registry that holds none of the object's names:
    the only way to fail is the histogram constructor. *)
Lemma RLMetrics_init_fresh `{HistogramCtor} now namespace hb rsb app_version app_name p :
  (forall base, metric_name namespace base ∉ REGISTRY p) ->
  match prepare_buckets (buckets_or default_histogram_buckets hb),
        prepare_buckets (buckets_or default_response_size_buckets rsb) with
  | Returned _, Returned _ =>
      returned (RLMetrics_init now namespace hb rsb app_version app_name p).1 = true
  | Raised e, _ =>
      RLMetrics_init now namespace hb rsb app_version app_name p = (Raised e, p)
  | Returned _, Raised e =>
      (RLMetrics_init now namespace hb rsb app_version app_name p).1 = Raised e
  end.
Proof.
  intros Hfresh. unfold RLMetrics_init.
  change (match hb with None => default_histogram_buckets | Some b => b end)
    with (buckets_or default_histogram_buckets hb).
  change (match rsb with None => default_response_size_buckets | Some b => b end)
    with (buckets_or default_response_size_buckets rsb).
  destruct (prepare_buckets (buckets_or default_histogram_buckets hb)) as [lb|e] eqn:Hlb.
  2: { erewrite bind_raised; [reflexivity | now apply new_histogram_rejected]. }
  erewrite bind_returned by (apply new_histogram_fresh; [exact Hlb | fresh_name]).
  erewrite bind_returned by (apply new_collector_fresh; fresh_name).
  erewrite bind_returned by (apply new_collector_fresh; fresh_name).
  destruct (prepare_buckets (buckets_or default_response_size_buckets rsb))
    as [sb|e] eqn:Hsb.
  2: { erewrite bind_raised; [reflexivity | now apply new_histogram_rejected]. }
  erewrite bind_returned by (apply new_histogram_fresh; [exact Hsb | fresh_name]).
  erewrite bind_returned by (apply new_collector_fresh; fresh_name).
  erewrite bind_returned by (apply new_collector_fresh; fresh_name).
  reflexivity.
Qed.

Lemma prometheus_client_prepare_returned buckets :
  returned (prometheus_client_prepare buckets) = false
  <-> buckets = [] \/ nondecreasing buckets = false.
Proof.
  unfold prometheus_client_prepare.
  destruct (nondecreasing buckets) eqn:Hnd; cbn.
  - destruct buckets as [|x tl]; cbn.
    + split; [now left | reflexivity].
    + rewrite length_app, length_map. cbn.
      destruct (Nat.leb_spec (length tl + 1) 0) as [Hle|_]; [lia|].
      cbn. split; [discriminate | intros [Hnil|Hfalse]; discriminate].
  - split; [now right | reflexivity].
Qed.

(** C5, as the code has it: [RLMetrics.__init__] checks no bucket list
    itself.  On a registry that holds none of its metric names it raises
    exactly when the histogram constructor of the metric library refuses
    the latency buckets or the response-size buckets (defaults taken for
    [None]); with prometheus_client that is exactly when one of the two
    lists is empty or not in non-decreasing order, so a sequence that
    descends somewhere makes construction raise, while non-positive and
    repeated bounds do not. *)
Theorem RLMetrics_init_raises_iff now namespace hb rsb app_version app_name p :
  (forall base, metric_name namespace base ∉ REGISTRY p) ->
  let latency := buckets_or default_histogram_buckets hb in
  let size := buckets_or default_response_size_buckets rsb in
  (forall ctor : HistogramCtor,
     returned (RLMetrics_init (H := ctor) now namespace hb rsb app_version app_name p).1
     = false
     <-> returned (ctor latency) = false \/ returned (ctor size) = false) /\
  (returned (RLMetrics_init (H := prometheus_client) now namespace hb rsb app_version
               app_name p).1 = false
   <-> latency = [] \/ nondecreasing latency = false \/
       size = [] \/ nondecreasing size = false).
Proof.
  intros Hfresh latency size.
  assert (Hgen : forall ctor : HistogramCtor,
     returned (RLMetrics_init (H := ctor) now namespace hb rsb app_version app_name p).1
     = false
     <-> returned (ctor latency) = false \/ returned (ctor size) = false).
  { intros ctor.
    pose proof (RLMetrics_init_fresh (H := ctor) now namespace hb rsb app_version
                  app_name p Hfresh) as Hinit.
    unfold prepare_buckets in Hinit. fold latency size in Hinit.
    destruct (ctor latency) as [lb|e]; [destruct (ctor size) as [sb|e]|].
    - rewrite Hinit. cbn. split; [discriminate | intros [?|?]; discriminate].
    - rewrite Hinit. cbn. split; [now right | reflexivity].
    - rewrite Hinit. cbn. split; [now left | reflexivity]. }
  split; [exact Hgen|].
  rewrite (Hgen prometheus_client). unfold prometheus_client.
  rewrite !prometheus_client_prepare_returned. tauto.
Qed.

Lemma RLMetrics_init_raises_iff_witness :
  (forall base, metric_name "" base ∉ REGISTRY (initial_process ∅)) /\
  returned (RLMetrics_init (H := prometheus_client) 0 "" (Some [0.5; 0.1]%Q) None "" ""
              (initial_process ∅)).1 = false.
Proof.
  assert (Hfresh : forall base, metric_name "" base ∉ REGISTRY (initial_process ∅))
    by (intros base; cbn; apply not_elem_of_empty).
  split; [exact Hfresh|].
  apply (proj2 (RLMetrics_init_raises_iff 0 "" (Some [0.5; 0.1]%Q) None "" ""
                  (initial_process ∅) Hfresh)).
  right. left. reflexivity.
Defined.

(** C5 as stated fails: bucket lists with a non-positive bound, or with a
    repeated bound, are invalid in the specification's sense and yet
    construction returns. *)
Lemma nonpositive_buckets_accepted :
  all_positive [-1; 0.5]%Q = false /\
  returned (RLMetrics_init (H := prometheus_client) 0 "" (Some [-1; 0.5]%Q) None "" ""
              (initial_process ∅)).1 = true /\
  all_positive [0; 100]%Q = false /\
  returned (RLMetrics_init (H := prometheus_client) 0 "" None (Some [0; 100]%Q) "" ""
              (initial_process ∅)).1 = true /\
  strictly_ascending [1; 1]%Q = false /\
  returned (RLMetrics_init (H := prometheus_client) 0 "" (Some [1; 1]%Q) None "" ""
              (initial_process ∅)).1 = true.
Proof. repeat split; vm_compute; reflexivity. Qed.

(** What a construction that returns has built. *)
Lemma RLMetrics_init_returned `{HistogramCtor} now namespace0 hb rsb app_version app_name
    p m p' :
  RLMetrics_init now namespace0 hb rsb app_version app_name p = (Returned m, p') ->
  (namespace m = namespace0 /\
   histogram_buckets m = buckets_or default_histogram_buckets hb /\
   response_size_buckets m = buckets_or default_response_size_buckets rsb /\
   app_info m = app_identity app_name app_version /\
   app_started_timestamp m = now) /\
  (prepare_buckets (histogram_buckets m) = Returned (upper_bounds (request_latency m)) /\
   prepare_buckets (response_size_buckets m) = Returned (upper_bounds (response_size m)) /\
   children (request_latency m) = ∅ /\ children (response_size m) = ∅ /\
   request_count m = ∅ /\ requests_in_progress m = ∅) /\
  (objects p' = objects p /\ _metrics_instance p' = _metrics_instance p /\
   environ p' = environ p).
Proof.
  unfold RLMetrics_init, new_histogram, new_collector, zoom, register, lift, logger,
    modify, mbind, M_bind, bind, mret, M_ret, ret.
  change (match hb with None => default_histogram_buckets | Some b => b end)
    with (buckets_or default_histogram_buckets hb).
  change (match rsb with None => default_response_size_buckets | Some b => b end)
    with (buckets_or default_response_size_buckets rsb).
  destruct (prepare_buckets (buckets_or default_histogram_buckets hb)) as [lb|e] eqn:Hlb;
    [|discriminate].
  repeat (cbn; match goal with
               | |- context [decide ?P] => destruct (decide P); [discriminate|]
               end).
  destruct (prepare_buckets (buckets_or default_response_size_buckets rsb)) as [sb|e]
    eqn:Hsb; [|discriminate].
  repeat (cbn; match goal with
               | |- context [decide ?P] => destruct (decide P); [discriminate|]
               end).
  cbn. intros [= <- <-]. cbn. unfold app_identity.
  destruct (truthy app_name), (truthy app_version); repeat split; assumption || reflexivity.
Qed.

(** *** The singleton *)

Lemma get_registry_existing `{HistogramCtor} (a : RegistryArgs) p inst :
  _metrics_instance p = Some inst -> get_registry a p = (Returned inst, p).
Proof.
  intros Hinst. unfold get_registry, get_metrics_registry, gets, mbind, M_bind, bind.
  now rewrite Hinst.
Qed.

Lemma get_registry_all_existing `{HistogramCtor} (l : list RegistryArgs) p inst :
  _metrics_instance p = Some inst ->
  get_registry_all l p = (replicate (length l) (Returned inst), p).
Proof.
  intros Hinst. induction l as [|a tl IH]; [reflexivity|].
  cbn. rewrite (get_registry_existing a p inst Hinst), IH. reflexivity.
Qed.

Lemma get_registry_first `{HistogramCtor} (a : RegistryArgs) p inst p1 :
  _metrics_instance p = None ->
  get_registry a p = (Returned inst, p1) ->
  _metrics_instance p1 = Some inst /\
  exists m p',
    RLMetrics_init (arg_now a)
      (arg_or_env (arg_namespace a) "RL_METRICS_NAMESPACE" (environ p))
      (arg_histogram_buckets a) (arg_response_size_buckets a)
      (arg_or_env (arg_app_version a) "RL_METRICS_APP_VERSION" (environ p))
      (arg_or_env (arg_app_name a) "RL_METRICS_APP_NAME" (environ p)) p
    = (Returned m, p') /\
    objects p1 !! inst = Some m /\ inst = length (objects p).
Proof.
  intros Hnone. unfold get_registry, get_metrics_registry.
  unfold gets, getenv, mbind, M_bind, bind, mret, M_ret, ret. rewrite Hnone.
  destruct a as [now ns hb rsb ver name].
  destruct ns as [ns|], ver as [ver|], name as [name|]; cbn -[RLMetrics_init];
    rewrite Hnone;
    (destruct (RLMetrics_init _ _ _ _ _ _ p) as [[m|e] p'] eqn:Hinit; [|discriminate];
     cbn; intros [= <- <-]; (split; [reflexivity|]);
     exists m, p'; (split; [reflexivity|]);
     destruct (RLMetrics_init_returned _ _ _ _ _ _ _ _ _ Hinit)
       as (_ & _ & Hobj & _ & _);
     cbn; (split; [|now rewrite Hobj]); apply list_lookup_middle; reflexivity).
Qed.

(** C3: once a call of [get_metrics_registry] has created the instance,
    every later call, whatever its arguments, returns that same object and
    changes nothing: the arguments are not looked at, so they are neither
    merged nor validated.  The object carries the configuration of the
    creating call: its namespace and application identity (argument, else
    environment variable, else empty) and its bucket lists (argument, else
    the defaults). *)
Theorem get_metrics_registry_singleton `{HistogramCtor} (first : RegistryArgs)
    (rest : list RegistryArgs) (p0 p1 : Process) (inst : nat) :
  _metrics_instance p0 = None ->
  get_registry first p0 = (Returned inst, p1) ->
  get_registry_all rest p1 = (replicate (length rest) (Returned inst), p1) /\
  exists m,
    objects p1 !! inst = Some m /\
    namespace m = arg_or_env (arg_namespace first) "RL_METRICS_NAMESPACE" (environ p0) /\
    histogram_buckets m
    = buckets_or default_histogram_buckets (arg_histogram_buckets first) /\
    response_size_buckets m
    = buckets_or default_response_size_buckets (arg_response_size_buckets first) /\
    app_info m
    = app_identity (arg_or_env (arg_app_name first) "RL_METRICS_APP_NAME" (environ p0))
        (arg_or_env (arg_app_version first) "RL_METRICS_APP_VERSION" (environ p0)) /\
    prepare_buckets (histogram_buckets m) = Returned (upper_bounds (request_latency m)) /\
    prepare_buckets (response_size_buckets m)
    = Returned (upper_bounds (response_size m)).
Proof.
  intros Hnone Hfirst.
  destruct (get_registry_first first p0 inst p1 Hnone Hfirst)
    as (Hinst & m & p' & Hinit & Hm & _).
  split; [now apply get_registry_all_existing|].
  exists m. split; [exact Hm|].
  destruct (RLMetrics_init_returned _ _ _ _ _ _ _ _ _ Hinit)
    as ((Hns & Hhb & Hrsb & Hinfo & _) & (Hlb & Hsb & _) & _).
  repeat split; assumption.
Qed.

Lemma get_metrics_registry_singleton_witness :
  let first := mkArgs 0 (Some "shop") (Some [0.1; 0.5]%Q) None (Some "1.0") None in
  let other := mkArgs 1 (Some "other") (Some [3; 1]%Q) (Some [-5]%Q) None (Some "x") in
  let p0 := initial_process {["RL_METRICS_APP_NAME" := "cart"]} in
  let p1 := (get_registry (H := prometheus_client) first p0).2 in
  get_registry_all (H := prometheus_client) [other; first] p1
  = ([Returned 0%nat; Returned 0%nat], p1) /\
  exists m,
    objects p1 !! 0%nat = Some m /\
    namespace m = "shop" /\
    histogram_buckets m = [0.1; 0.5]%Q /\
    response_size_buckets m = default_response_size_buckets /\
    app_info m = {["name" := "cart"; "version" := "1.0"]}.
Proof.
  intros first other p0 p1.
  assert (Hnone : _metrics_instance p0 = None) by reflexivity.
  assert (Hfirst : get_registry (H := prometheus_client) first p0 = (Returned 0%nat, p1))
    by (vm_compute; reflexivity).
  destruct (get_metrics_registry_singleton (H := prometheus_client) first [other; first]
              p0 p1 0%nat Hnone Hfirst)
    as (Hrest & m & Hm & Hns & Hhb & Hrsb & Hinfo & _).
  split; [exact Hrest|].
  exists m. repeat split; assumption.
Defined.

(** *** The steps of a request, when the library does not fail *)

Lemma inc_in_progress_no_fault method w :
  inc_in_progress no_fault method w
  = (Returned tt,
     mkWorld (on_requests_in_progress (gauge_inc method) (self w)) (world_log w)
       (calls w ++ [Call_inc_in_progress method])%list).
Proof. reflexivity. Qed.

Lemma dec_in_progress_no_fault method w :
  dec_in_progress no_fault method w
  = (Returned tt,
     mkWorld (on_requests_in_progress (gauge_dec method) (self w)) (world_log w)
       (calls w ++ [Call_dec_in_progress method])%list).
Proof. reflexivity. Qed.

Lemma observe_request_no_fault method path duration status_code response_size w :
  observe_request no_fault method path duration status_code response_size w
  = (Returned tt,
     mkWorld (record_request method path duration status_code response_size (self w))
       (world_log w)
       (calls w ++ [Call_observe_request method path duration status_code
                      response_size])%list).
Proof. destruct response_size; reflexivity. Qed.

(** [int] raises nothing but [ValueError]. *)
Lemma int_of_str_raises s e : int_of_str s = Raised e -> exc_type e = "ValueError".
Proof.
  unfold int_of_str.
  destruct (match lstrip s with
            | String c ds =>
                if Ascii.eqb c "-" then (true, ds)
                else if Ascii.eqb c "+" then (false, ds) else (false, lstrip s)
            | EmptyString => (false, EmptyString)
            end) as [negative ds].
  destruct (String.prefix "_" ds); [now intros [= <-]|].
  destruct (scan_digits ds 0 0 false) as [[[n digits] rest]|]; [|now intros [= <-]].
  destruct (int_max_str_digits <? digits)%nat; [now intros [= <-]|].
  destruct (digits =? 0)%nat; [now intros [= <-]|].
  destruct (lstrip rest); [discriminate | now intros [= <-]].
Qed.

Lemma size_of_header_pure {S} content_length (s : S) :
  size_of_header content_length s = (Returned (header_size content_length), s).
Proof.
  unfold size_of_header, header_size, try_except_of, lift, mbind, M_bind, bind.
  destruct (int_of_str content_length) as [n|e] eqn:Hint; [reflexivity|].
  now rewrite (int_of_str_raises _ _ Hint).
Qed.


Lemma apply_normalizer_returned {S} `{Logs S} normalizer path path' (s : S) :
  normalizer path = Returned path' ->
  apply_normalizer (Some normalizer) path s = (Returned path', s).
Proof.
  intros Hok. unfold apply_normalizer, try_except, lift. now rewrite Hok.
Qed.

(** *** The in-progress gauge *)

Lemma gauge_value_inc method method' g :
  gauge_value (gauge_inc method' g) method
  = (gauge_value g method + if bool_decide (method' = method) then 1 else 0)%Z.
Proof.
  unfold gauge_inc, gauge_value at 1. case_bool_decide as Heq.
  - subst. rewrite lookup_insert_eq. reflexivity.
  - rewrite lookup_insert_ne by exact Heq. fold (gauge_value g method). lia.
Qed.

Lemma gauge_value_dec method method' g :
  gauge_value (gauge_dec method' g) method
  = (gauge_value g method - if bool_decide (method' = method) then 1 else 0)%Z.
Proof.
  unfold gauge_dec, gauge_value at 1. case_bool_decide as Heq.
  - subst. rewrite lookup_insert_eq. reflexivity.
  - rewrite lookup_insert_ne by exact Heq. fold (gauge_value g method). lia.
Qed.

(** After any sequence of [inc_in_progress] and [dec_in_progress] calls
    the gauge of a method stands at its old value plus the number of its
    increments minus the number of its decrements. *)
Lemma gauge_ops_value (l : list GaugeOp) (w : World) (method : string) :
  gauge_value (requests_in_progress (self (gauge_ops l w))) method
  = (gauge_value (requests_in_progress (self w)) method
     + Z.of_nat (incs_of method l) - Z.of_nat (decs_of method l))%Z.
Proof.
  revert w. induction l as [|o tl IH]; intros w.
  - cbn. lia.
  - cbn [gauge_ops]. rewrite IH. destruct o as [m|m]; cbn [gauge_op].
    + rewrite inc_in_progress_no_fault. cbn [snd self requests_in_progress
        on_requests_in_progress]. rewrite gauge_value_inc.
      unfold incs_of, decs_of. cbn [List.filter].
      case_bool_decide; cbn [length]; lia.
    + rewrite dec_in_progress_no_fault. cbn [snd self requests_in_progress
        on_requests_in_progress]. rewrite gauge_value_dec.
      unfold incs_of, decs_of. cbn [List.filter].
      case_bool_decide; cbn [length]; lia.
Qed.

(** With no more decrements than increments the gauge does not fall
    below where it started, so from zero it is never negative. *)
Lemma gauge_ops_nonnegative (l : list GaugeOp) (w : World) (method : string) :
  (decs_of method l <= incs_of method l)%nat ->
  (0 <= gauge_value (requests_in_progress (self w)) method)%Z ->
  (0 <= gauge_value (requests_in_progress (self (gauge_ops l w))) method)%Z.
Proof. intros Hpaired Hstart. rewrite gauge_ops_value. lia. Qed.

(** *** The FastAPI middleware *)

Lemma fastapi_size_step {S} (response : fastapi_middleware.Response) (s : S) :
  (if header_given (fastapi_middleware.content_length response)
   then size_of_header (default "" (fastapi_middleware.content_length response))
   else mret None) s
  = (Returned (fastapi_response_size response), s).
Proof.
  unfold fastapi_response_size.
  destruct (header_given _); [apply size_of_header_pure | reflexivity].
Qed.

(** An excluded path goes straight to the application: the world of the
    metrics object is left exactly as it was, whatever the library would
    do. *)
Lemma dispatch_excluded fault (mw : fastapi_middleware.RLMetricsMiddleware)
    (request : fastapi_middleware.Request) call_next start_time end_time (w : World) :
  fastapi_middleware.url_path request ∈ fastapi_middleware.exclude_paths mw ->
  fastapi_middleware.dispatch fault mw request call_next start_time end_time w
  = (call_next, w).
Proof.
  intros Hex. unfold fastapi_middleware.dispatch.
  rewrite bool_decide_eq_true_2 by exact Hex. reflexivity.
Qed.

(** What the request leaves when the application returns a response and
    the library does not fail. *)
Lemma dispatch_returned (mw : fastapi_middleware.RLMetricsMiddleware)
    (request : fastapi_middleware.Request) (response : fastapi_middleware.Response)
    start_time end_time (w : World) path w1 :
  fastapi_middleware.url_path request ∉ fastapi_middleware.exclude_paths mw ->
  apply_normalizer (fastapi_middleware.path_normalizer mw)
    (fastapi_middleware.url_path request)
    (inc_in_progress no_fault (fastapi_middleware.method request) w).2
  = (Returned path, w1) ->
  fastapi_middleware.dispatch no_fault mw request (Returned response) start_time
    end_time w
  = (Returned response,
     (dec_in_progress no_fault (fastapi_middleware.method request)
        (observe_request no_fault (fastapi_middleware.method request) path
           (end_time - start_time) (fastapi_middleware.status_code response)
           (fastapi_response_size response) w1).2).2).
Proof.
  intros Hex Hnorm. unfold fastapi_middleware.dispatch.
  rewrite bool_decide_eq_false_2 by exact Hex.
  erewrite bind_returned by apply inc_in_progress_no_fault.
  rewrite inc_in_progress_no_fault in Hnorm. cbn [snd] in Hnorm.
  unfold try_finally.
  erewrite bind_returned by reflexivity.
  erewrite bind_returned by exact Hnorm.
  erewrite bind_returned by apply fastapi_size_step.
  erewrite bind_returned
    by (unfold try_except; rewrite observe_request_no_fault; reflexivity).
  rewrite observe_request_no_fault. reflexivity.
Qed.

(** Every request to a path that is not excluded makes one
    [inc_in_progress] call and one [dec_in_progress] call for its method,
    whether the application returns or raises and whatever the normaliser
    does; between them at most [observe_request] is called, and the gauge
    ends where it started. *)
Lemma dispatch_pairs (mw : fastapi_middleware.RLMetricsMiddleware)
    (request : fastapi_middleware.Request) call_next start_time end_time (w : World) :
  fastapi_middleware.url_path request ∉ fastapi_middleware.exclude_paths mw ->
  let method := fastapi_middleware.method request in
  let r := fastapi_middleware.dispatch no_fault mw request call_next start_time
             end_time w in
  r.1 = call_next /\
  (exists observed,
     calls r.2 = (calls w ++ Call_inc_in_progress method :: observed
                  ++ [Call_dec_in_progress method])%list /\
     forallb is_observe observed = true) /\
  gauge_value (requests_in_progress (self r.2)) method
  = gauge_value (requests_in_progress (self w)) method.
Proof.
  intros Hex method r.
  assert (Hgauge : forall g, gauge_value (gauge_dec method (gauge_inc method g)) method
                             = gauge_value g method).
  { intros g. rewrite gauge_value_dec, gauge_value_inc.
    rewrite bool_decide_eq_true_2 by reflexivity. lia. }
  destruct call_next as [response|e].
  - destruct (apply_normalizer (fastapi_middleware.path_normalizer mw)
                (fastapi_middleware.url_path request)
                (inc_in_progress no_fault method w).2) as [[path|e] w1] eqn:Hnorm.
    + subst r. rewrite (dispatch_returned _ _ _ _ _ _ _ _ Hex Hnorm).
      rewrite observe_request_no_fault, dec_in_progress_no_fault.
      rewrite inc_in_progress_no_fault in Hnorm. cbn [snd] in Hnorm.
      assert (Hw1 : self w1 = on_requests_in_progress (gauge_inc method) (self w) /\
                    calls w1 = (calls w ++ [Call_inc_in_progress method])%list).
      { unfold apply_normalizer in Hnorm.
        destruct (fastapi_middleware.path_normalizer mw) as [f|].
        - unfold try_except, lift in Hnorm.
          destruct (f (fastapi_middleware.url_path request)).
          + injection Hnorm as _ <-. now split.
          + injection Hnorm as _ <-. now split.
        - injection Hnorm as _ <-. now split. }
      destruct Hw1 as [Hself Hcalls]. cbn [fst snd self calls]. split; [reflexivity|].
      split.
      * eexists [_]. rewrite Hcalls, <- !app_assoc. split; reflexivity.
      * rewrite Hself.
        destruct (fastapi_response_size response); cbn; apply Hgauge.
    + exfalso. unfold apply_normalizer in Hnorm.
      destruct (fastapi_middleware.path_normalizer mw) as [f|]; [|discriminate].
      unfold try_except, lift in Hnorm.
      destruct (f (fastapi_middleware.url_path request)); discriminate.
  - subst r. unfold fastapi_middleware.dispatch.
    rewrite bool_decide_eq_false_2 by exact Hex.
    erewrite bind_returned by apply inc_in_progress_no_fault.
    unfold try_finally. erewrite bind_raised by reflexivity.
    rewrite dec_in_progress_no_fault. cbn [fst snd self calls]. split; [reflexivity|].
    split.
    + exists []. rewrite <- app_assoc. split; reflexivity.
    + cbn. apply Hgauge.
Qed.

(** *** The Flask hooks *)

Lemma flask_size_step {S} (response : flask_middleware.Response) (s : S) :
  (if header_given (flask_middleware.content_length response)
   then size_of_header (default "" (flask_middleware.content_length response))
   else body ← lift (flask_middleware.data response);
        if truthy body
        then body ← lift (flask_middleware.data response);
             ret (Some (Z.of_nat (String.length body)))
        else ret None) s
  = (flask_response_size response, s).
Proof.
  unfold flask_response_size.
  destruct (header_given _); [apply size_of_header_pure|].
  unfold lift, mbind, M_bind, bind.
  destruct (flask_middleware.data response) as [body|e]; [|reflexivity].
  destruct (truthy body); reflexivity.
Qed.

(** The [before_request] hook looks at no path: it stamps the request and
    calls [inc_in_progress] for every request. *)
Lemma before_request_handler_no_fault now (ctx : flask_middleware.Context) :
  let method := flask_middleware.method (flask_middleware.request ctx) in
  flask_middleware.before_request_handler no_fault now ctx
  = (Returned tt,
     flask_middleware.mkContext
       (inc_in_progress no_fault method (flask_middleware.metrics ctx)).2
       (flask_middleware.mkRequest method
          (flask_middleware.path (flask_middleware.request ctx)) (Some now))).
Proof. reflexivity. Qed.

(** Without a recorded start time the [after_request] hook has already
    called [dec_in_progress] when it returns. *)
Lemma after_request_handler_without_start path_normalizer exclude_paths now response
    (ctx : flask_middleware.Context) :
  flask_middleware._rl_metrics_start_time (flask_middleware.request ctx) = None ->
  flask_middleware.after_request_handler no_fault path_normalizer exclude_paths now
    response ctx
  = (Returned response,
     flask_middleware.mkContext
       (dec_in_progress no_fault
          (flask_middleware.method (flask_middleware.request ctx))
          (flask_middleware.metrics ctx)).2
       (flask_middleware.request ctx)).
Proof.
  intros Hnone. unfold flask_middleware.after_request_handler.
  erewrite bind_returned by reflexivity.
  erewrite bind_returned by reflexivity.
  rewrite Hnone. reflexivity.
Qed.

(** With a start time, a path that is not excluded after normalisation
    is recorded. *)
Lemma after_request_handler_recorded path_normalizer exclude_paths now response
    (ctx : flask_middleware.Context) start_time path ctx1 size :
  let request := flask_middleware.request ctx in
  let method := flask_middleware.method request in
  flask_middleware._rl_metrics_start_time request = Some start_time ->
  apply_normalizer path_normalizer (flask_middleware.path request)
    (flask_middleware.mkContext
       (dec_in_progress no_fault method (flask_middleware.metrics ctx)).2 request)
  = (Returned path, ctx1) ->
  path ∉ exclude_paths ->
  flask_response_size response = Returned size ->
  flask_middleware.after_request_handler no_fault path_normalizer exclude_paths now
    response ctx
  = (Returned response,
     flask_middleware.mkContext
       (observe_request no_fault method path (now - start_time)
          (flask_middleware.status_code response) size
          (flask_middleware.metrics ctx1)).2
       (flask_middleware.request ctx1)).
Proof.
  intros request method Hstart Hnorm Hex Hsize.
  unfold flask_middleware.after_request_handler.
  erewrite bind_returned by reflexivity.
  erewrite bind_returned by reflexivity.
  fold request. rewrite Hstart.
  erewrite bind_returned by exact Hnorm.
  rewrite bool_decide_eq_false_2 by exact Hex.
  erewrite bind_returned by (rewrite flask_size_step, Hsize; reflexivity).
  erewrite bind_returned
    by (unfold try_except, zoom; rewrite observe_request_no_fault; reflexivity).
  rewrite observe_request_no_fault. reflexivity.
Qed.

(** With a start time and a path that is not excluded after
    normalisation, an exception of the size step leaves the hook as it
    is: nothing is observed. *)
Lemma after_request_handler_size_raised fault path_normalizer exclude_paths now response
    (ctx : flask_middleware.Context) start_time path ctx0 ctx1 e :
  let request := flask_middleware.request ctx in
  let method := flask_middleware.method request in
  flask_middleware._rl_metrics_start_time request = Some start_time ->
  try_except
    (zoom flask_middleware.metrics flask_middleware.set_metrics
       (dec_in_progress fault method))
    (fun _ => ret tt) ctx = (Returned tt, ctx0) ->
  apply_normalizer path_normalizer (flask_middleware.path request) ctx0
  = (Returned path, ctx1) ->
  path ∉ exclude_paths ->
  flask_response_size response = Raised e ->
  flask_middleware.after_request_handler fault path_normalizer exclude_paths now
    response ctx
  = (Raised e, ctx1).
Proof.
  intros request method Hstart Hdec Hnorm Hex Hsize.
  unfold flask_middleware.after_request_handler.
  erewrite bind_returned by reflexivity.
  erewrite bind_returned by exact Hdec.
  fold request. rewrite Hstart.
  erewrite bind_returned by exact Hnorm.
  rewrite bool_decide_eq_false_2 by exact Hex.
  apply bind_raised. rewrite flask_size_step, Hsize. reflexivity.
Qed.

(** With a start time, a path that is excluded after normalisation is not
    recorded: only the decrement has happened. *)
Lemma after_request_handler_skipped path_normalizer exclude_paths now response
    (ctx : flask_middleware.Context) start_time path ctx1 :
  let request := flask_middleware.request ctx in
  let method := flask_middleware.method request in
  flask_middleware._rl_metrics_start_time request = Some start_time ->
  apply_normalizer path_normalizer (flask_middleware.path request)
    (flask_middleware.mkContext
       (dec_in_progress no_fault method (flask_middleware.metrics ctx)).2 request)
  = (Returned path, ctx1) ->
  path ∈ exclude_paths ->
  flask_middleware.after_request_handler no_fault path_normalizer exclude_paths now
    response ctx
  = (Returned response, ctx1).
Proof.
  intros request method Hstart Hnorm Hex.
  unfold flask_middleware.after_request_handler.
  erewrite bind_returned by reflexivity.
  erewrite bind_returned by reflexivity.
  fold request. rewrite Hstart.
  erewrite bind_returned by exact Hnorm.
  rewrite bool_decide_eq_true_2 by exact Hex. reflexivity.
Qed.

(** *** Exclusion *)

(** C1 (Flask side, at the request [GET /health] with the default
    exclusion list): the [before_request] hook calls [inc_in_progress] for
    every request, excluded or not, and the [after_request] hook calls
    [dec_in_progress] before it looks at the exclusion list.  So the
    excluded request makes two gauge mutations and leaves a [GET] child of
    value 0 in a gauge that had none; only the histograms and the counter
    are spared. *)
Theorem flask_tracks_excluded_request :
  (forall now ctx,
     let method := flask_middleware.method (flask_middleware.request ctx) in
     let ctx' := (flask_middleware.before_request_handler no_fault now ctx).2 in
     calls (flask_middleware.metrics ctx')
     = (calls (flask_middleware.metrics ctx) ++ [Call_inc_in_progress method])%list /\
     requests_in_progress (self (flask_middleware.metrics ctx'))
     = gauge_inc method (requests_in_progress (self (flask_middleware.metrics ctx)))) /\
  let ctx := flask_middleware.mkContext fresh_world
               (flask_middleware.mkRequest "GET" "/health" None) in
  let ctx1 := (flask_middleware.before_request_handler no_fault 1 ctx).2 in
  let ctx2 := (flask_middleware.after_request_handler no_fault None
                 flask_middleware.default_exclude_paths 2
                 (flask_middleware.mkResponse 200 (Some "2") (Returned "ok")) ctx1).2 in
  bool_decide ("/health" ∈ flask_middleware.default_exclude_paths) = true /\
  calls (flask_middleware.metrics ctx1) = [Call_inc_in_progress "GET"] /\
  requests_in_progress (self (flask_middleware.metrics ctx1)) !! "GET" = Some 1%Z /\
  calls (flask_middleware.metrics ctx2)
  = [Call_inc_in_progress "GET"; Call_dec_in_progress "GET"] /\
  requests_in_progress fresh_metrics !! "GET" = None /\
  requests_in_progress (self (flask_middleware.metrics ctx2)) !! "GET" = Some 0%Z /\
  request_latency (self (flask_middleware.metrics ctx2)) = request_latency fresh_metrics /\
  request_count (self (flask_middleware.metrics ctx2)) = request_count fresh_metrics /\
  response_size (self (flask_middleware.metrics ctx2)) = response_size fresh_metrics.
Proof.
  split.
  - intros now ctx method ctx'. subst ctx'.
    rewrite before_request_handler_no_fault. split; reflexivity.
  - repeat split; vm_compute; reflexivity.
Qed.

(** *** Pairing of increments and decrements *)

(** C2 (Flask side, at a request that reaches the [after_request] hook
    without the [before_request] hook having run, so without
    [_rl_metrics_start_time]): the hook calls [dec_in_progress] first and
    only then finds the start time missing.  The request has made no
    [inc_in_progress] call and one [dec_in_progress] call, and the gauge of
    its method, which stood at 0, stands at -1. *)
Theorem flask_decrement_without_increment :
  let ctx := flask_middleware.mkContext fresh_world
               (flask_middleware.mkRequest "GET" "/api/users" None) in
  let response := flask_middleware.mkResponse 200 None (Returned "ok") in
  let r := flask_middleware.after_request_handler no_fault None
             flask_middleware.default_exclude_paths 2 response ctx in
  r.1 = Returned response /\
  calls (flask_middleware.metrics r.2) = [Call_dec_in_progress "GET"] /\
  count_calls (is_inc "GET") (calls (flask_middleware.metrics r.2)) = 0%nat /\
  count_calls (is_dec "GET") (calls (flask_middleware.metrics r.2)) = 1%nat /\
  gauge_value (requests_in_progress fresh_metrics) "GET" = 0%Z /\
  gauge_value (requests_in_progress (self (flask_middleware.metrics r.2))) "GET"
  = (-1)%Z.
Proof. repeat split; vm_compute; reflexivity. Qed.

(** *** The reference normaliser *)

(** The examples of the docstring. *)
Example normalize_api_paths_docstring :
  normalize_api_paths "/api/users/123" = "/api/users/:id" /\
  normalize_api_paths "/api/posts/456/comments" = "/api/posts/:id/comments" /\
  normalize_api_paths "/files/abc-def-123.pdf" = "/files/:filename".
Proof. repeat split; reflexivity. Qed.

(** A UUID that starts with a letter is replaced. *)
Example normalize_api_paths_letter_led_uuid :
  normalize_api_paths "/items/f23e4567-e89b-12d3-a456-426614174000/x"
  = "/items/:uuid/x".
Proof. reflexivity. Qed.

(** C7 (at a UUID that starts with a digit): the numeric pass runs first
    and rewrites the leading digits of the UUID segment, so the UUID pass
    finds nothing to match; the segment does not become [:uuid].  The
    numeric pass alone already gives the final result, and it also
    rewrites the digits that lead a segment which is not purely numeric. *)
Theorem normalize_api_paths_digit_led_uuid :
  normalize_api_paths "/items/123e4567-e89b-12d3-a456-426614174000"
  = "/items/:ide4567-e89b-12d3-a456-426614174000" /\
  Re.sub numeric_id_pattern "/:id" "/items/123e4567-e89b-12d3-a456-426614174000"
  = "/items/:ide4567-e89b-12d3-a456-426614174000" /\
  Re.sub uuid_pattern "/:uuid" "/items/123e4567-e89b-12d3-a456-426614174000"
  = "/items/:uuid" /\
  normalize_api_paths "/v1/users/12ab" = "/v1/users/:idab".
Proof. repeat split; reflexivity. Qed.

(** *** A normaliser that raises *)



(** ** Further properties of the code *)

(** *** Normalisation inside the adapters *)

Lemma apply_normalizer_world path_normalizer path (w : World) :
  apply_normalizer path_normalizer path w
  = (Returned (normalized_path path_normalizer path),
     mkWorld (self w) (world_log w ++ normalizer_log path_normalizer path)%list (calls w)).
Proof.
  unfold apply_normalizer, normalized_path, normalizer_log.
  destruct path_normalizer as [f|]; [unfold try_except, lift; destruct (f path)|];
    destruct w; cbn; rewrite ?app_nil_r; reflexivity.
Qed.

Lemma apply_normalizer_context path_normalizer path (ctx : flask_middleware.Context) :
  apply_normalizer path_normalizer path ctx
  = (Returned (normalized_path path_normalizer path),
     flask_middleware.mkContext
       (mkWorld (self (flask_middleware.metrics ctx))
          (world_log (flask_middleware.metrics ctx)
           ++ normalizer_log path_normalizer path)%list
          (calls (flask_middleware.metrics ctx)))
       (flask_middleware.request ctx)).
Proof.
  unfold apply_normalizer, normalized_path, normalizer_log.
  destruct path_normalizer as [f|]; [unfold try_except, lift; destruct (f path)|];
    destruct ctx as [[m l c] rq]; cbn; rewrite ?app_nil_r; reflexivity.
Qed.

Lemma count_calls_app p (l1 l2 : list Call) :
  count_calls p (l1 ++ l2) = (count_calls p l1 + count_calls p l2)%nat.
Proof. unfold count_calls. now rewrite List.filter_app, length_app. Qed.

Lemma count_calls_observed p (l : list Call) :
  forallb is_observe l = true ->
  (forall c, is_observe c = true -> p c = false) ->
  count_calls p l = 0%nat.
Proof.
  intros Hall Hp. induction l as [|c tl IH]; [reflexivity|].
  cbn in Hall. apply andb_true_iff in Hall as [Hc Htl].
  unfold count_calls in *. cbn. rewrite (Hp c Hc). now apply IH.
Qed.

(** *** The FastAPI middleware: what a request does *)

(** A request to a path of the middleware's exclusion list, as
    [RLMetricsMiddleware.__init__] settles it, reaches the application
    without any effect on the metrics object, the log or the calls, also
    when the metric library would fail; the outcome is the application's. *)
Theorem fastapi_excluded_request_untouched fault path_normalizer
    (exclude_paths : option (list string)) (request : fastapi_middleware.Request)
    call_next start_time end_time (w : World) :
  let mw := fastapi_middleware.RLMetricsMiddleware_init path_normalizer exclude_paths in
  fastapi_middleware.url_path request ∈ fastapi_middleware.exclude_paths mw ->
  fastapi_middleware.dispatch fault mw request call_next start_time end_time w
  = (call_next, w).
Proof. intros mw Hex. now apply dispatch_excluded. Qed.

Lemma fastapi_excluded_request_untouched_witness :
  let mw := fastapi_middleware.RLMetricsMiddleware_init None (Some ["/internal"]) in
  fastapi_middleware.dispatch (fun _ => Some (ValueError "boom")) mw
    (fastapi_middleware.mkRequest "GET" "/internal")
    (Returned (fastapi_middleware.mkResponse 200 None)) 1 2 fresh_world
  = (Returned (fastapi_middleware.mkResponse 200 None), fresh_world).
Proof.
  apply (fastapi_excluded_request_untouched (fun _ => Some (ValueError "boom")) None
           (Some ["/internal"])).
  apply (bool_decide_unpack _). vm_compute. exact I.
Defined.

(** An empty exclusion list does not switch exclusion off in the FastAPI
    middleware: [exclude_paths or [...]] puts the four defaults in its
    place, so a request to one of them is still left alone. *)
Theorem fastapi_empty_exclusion_list_means_defaults fault path_normalizer
    (request : fastapi_middleware.Request) call_next start_time end_time (w : World) :
  fastapi_middleware.url_path request ∈ ["/health"; "/metrics"; "/docs"; "/openapi.json"] ->
  fastapi_middleware.dispatch fault
    (fastapi_middleware.RLMetricsMiddleware_init path_normalizer (Some []))
    request call_next start_time end_time w
  = (call_next, w) /\
  fastapi_middleware.dispatch fault
    (fastapi_middleware.RLMetricsMiddleware_init path_normalizer None)
    request call_next start_time end_time w
  = (call_next, w).
Proof. intros Hex. split; now apply dispatch_excluded. Qed.

Lemma fastapi_empty_exclusion_list_means_defaults_witness :
  fastapi_middleware.dispatch no_fault
    (fastapi_middleware.RLMetricsMiddleware_init None (Some []))
    (fastapi_middleware.mkRequest "GET" "/docs")
    (Returned (fastapi_middleware.mkResponse 200 None)) 1 2 fresh_world
  = (Returned (fastapi_middleware.mkResponse 200 None), fresh_world).
Proof.
  apply (fastapi_empty_exclusion_list_means_defaults no_fault None
           (fastapi_middleware.mkRequest "GET" "/docs")).
  apply (bool_decide_unpack _). vm_compute. exact I.
Defined.

(** A request to a path that is not excluded, answered by the
    application: the gauge goes up, the request is recorded under the
    normalised path (the raw path when there is no normaliser or it
    raises) with the duration between the two clock readings, the gauge
    goes down, and the response is returned.  The exclusion list is
    consulted for the raw path only: a normalised path that is on the list
    is recorded all the same. *)
Theorem fastapi_response_recorded (mw : fastapi_middleware.RLMetricsMiddleware)
    (request : fastapi_middleware.Request) (response : fastapi_middleware.Response)
    start_time end_time (w : World) :
  fastapi_middleware.url_path request ∉ fastapi_middleware.exclude_paths mw ->
  let method := fastapi_middleware.method request in
  let path := normalized_path (fastapi_middleware.path_normalizer mw)
                (fastapi_middleware.url_path request) in
  let duration := (end_time - start_time)%Q in
  let status := fastapi_middleware.status_code response in
  let size := fastapi_response_size response in
  let r := fastapi_middleware.dispatch no_fault mw request (Returned response)
             start_time end_time w in
  r.1 = Returned response /\
  self r.2
  = on_requests_in_progress (gauge_dec method)
      (record_request method path duration status size
         (on_requests_in_progress (gauge_inc method) (self w))) /\
  world_log r.2
  = (world_log w
     ++ normalizer_log (fastapi_middleware.path_normalizer mw)
          (fastapi_middleware.url_path request))%list /\
  calls r.2
  = (calls w ++ [Call_inc_in_progress method;
                 Call_observe_request method path duration status size;
                 Call_dec_in_progress method])%list.
Proof.
  intros Hex method path duration status size r. subst r.
  erewrite dispatch_returned; [|exact Hex|apply apply_normalizer_world].
  rewrite observe_request_no_fault, dec_in_progress_no_fault, inc_in_progress_no_fault.
  cbn. rewrite <- ?app_assoc. repeat split; reflexivity.
Qed.

Lemma fastapi_response_recorded_witness :
  let mw := fastapi_middleware.mkMiddleware (Some (fun _ => Returned "/health"))
              ["/health"] in
  let r := fastapi_middleware.dispatch no_fault mw
             (fastapi_middleware.mkRequest "GET" "/status")
             (Returned (fastapi_middleware.mkResponse 200 (Some "12"))) 1 3 fresh_world in
  self r.2
  = on_requests_in_progress (gauge_dec "GET")
      (record_request "GET" "/health" (3 - 1) 200 (Some 12%Z)
         (on_requests_in_progress (gauge_inc "GET") fresh_metrics)).
Proof.
  assert (Hex : "/status" ∉ ["/health"])
    by (apply (bool_decide_unpack _); vm_compute; exact I).
  exact (proj1 (proj2 (fastapi_response_recorded
           (fastapi_middleware.mkMiddleware (Some (fun _ => Returned "/health"))
              ["/health"])
           (fastapi_middleware.mkRequest "GET" "/status")
           (fastapi_middleware.mkResponse 200 (Some "12")) 1 3 fresh_world Hex))).
Defined.

(** Whatever the application does with a request that is not excluded,
    returning or raising, and whatever the normaliser does, the request
    adds one [inc_in_progress] call and one [dec_in_progress] call for its
    method and at most one [observe_request] call; the outcome is the
    application's and the gauge of the method ends where it started. *)
Theorem fastapi_increment_decrement_paired (mw : fastapi_middleware.RLMetricsMiddleware)
    (request : fastapi_middleware.Request) call_next start_time end_time (w : World) :
  fastapi_middleware.url_path request ∉ fastapi_middleware.exclude_paths mw ->
  let method := fastapi_middleware.method request in
  let r := fastapi_middleware.dispatch no_fault mw request call_next start_time
             end_time w in
  r.1 = call_next /\
  count_calls (is_inc method) (calls r.2) = S (count_calls (is_inc method) (calls w)) /\
  count_calls (is_dec method) (calls r.2) = S (count_calls (is_dec method) (calls w)) /\
  (count_calls is_observe (calls r.2) <= S (count_calls is_observe (calls w)))%nat /\
  gauge_value (requests_in_progress (self r.2)) method
  = gauge_value (requests_in_progress (self w)) method.
Proof.
  intros Hex method r.
  destruct (dispatch_pairs mw request call_next start_time end_time w Hex)
    as (Hout & (observed & Hcalls & Hobs) & Hgauge).
  fold method in Hcalls, Hgauge. fold r in Hout, Hcalls, Hgauge.
  split; [exact Hout|]. rewrite Hcalls.
  change (Call_inc_in_progress method :: observed ++ [Call_dec_in_progress method])%list
    with ([Call_inc_in_progress method] ++ observed ++ [Call_dec_in_progress method])%list.
  rewrite !count_calls_app.
  rewrite (count_calls_observed (is_inc method) observed Hobs)
    by (intros [] ?; try discriminate; reflexivity).
  rewrite (count_calls_observed (is_dec method) observed Hobs)
    by (intros [] ?; try discriminate; reflexivity).
  assert (Hle : (count_calls is_observe observed <= 1)%nat).
  { destruct call_next as [response|e].
    - assert (Hlen : length (calls r.2) = S (S (S (length (calls w))))).
      { subst r.
        erewrite dispatch_returned; [|exact Hex|apply apply_normalizer_world].
        rewrite observe_request_no_fault, dec_in_progress_no_fault,
          inc_in_progress_no_fault. cbn. rewrite !length_app. cbn. lia. }
      rewrite Hcalls in Hlen. rewrite length_app in Hlen. cbn in Hlen.
      rewrite length_app in Hlen. cbn in Hlen.
      unfold count_calls. pose proof (List.filter_length_le is_observe observed). lia.
    - assert (Hlen : length (calls r.2) = S (S (length (calls w)))).
      { subst r. unfold fastapi_middleware.dispatch.
        rewrite bool_decide_eq_false_2 by exact Hex.
        erewrite bind_returned by apply inc_in_progress_no_fault.
        unfold try_finally. erewrite bind_raised by reflexivity.
        rewrite dec_in_progress_no_fault. cbn. rewrite !length_app. cbn. lia. }
      rewrite Hcalls in Hlen. rewrite length_app in Hlen. cbn in Hlen.
      rewrite length_app in Hlen. cbn in Hlen.
      unfold count_calls. pose proof (List.filter_length_le is_observe observed). lia. }
  assert (Hinc : count_calls (is_inc method) [Call_inc_in_progress method] = 1%nat)
    by (unfold count_calls; cbn; now rewrite bool_decide_eq_true_2).
  assert (Hdec : count_calls (is_dec method) [Call_dec_in_progress method] = 1%nat)
    by (unfold count_calls; cbn; now rewrite bool_decide_eq_true_2).
  rewrite Hinc, Hdec.
  change (count_calls (is_inc method) [Call_dec_in_progress method]) with 0%nat.
  change (count_calls (is_dec method) [Call_inc_in_progress method]) with 0%nat.
  change (count_calls is_observe [Call_inc_in_progress method]) with 0%nat.
  change (count_calls is_observe [Call_dec_in_progress method]) with 0%nat.
  repeat split; lia.
Qed.

Lemma fastapi_increment_decrement_paired_witness :
  let r := fastapi_middleware.dispatch no_fault
             (fastapi_middleware.RLMetricsMiddleware_init None None)
             (fastapi_middleware.mkRequest "POST" "/api/orders")
             (Raised (ValueError "handler failed")) 1 2 fresh_world in
  r.1 = Raised (ValueError "handler failed") /\
  count_calls (is_inc "POST") (calls r.2) = 1%nat /\
  count_calls (is_dec "POST") (calls r.2) = 1%nat.
Proof.
  assert (Hex : "/api/orders" ∉ ["/health"; "/metrics"; "/docs"; "/openapi.json"])
    by (apply (bool_decide_unpack _); vm_compute; exact I).
  destruct (fastapi_increment_decrement_paired
              (fastapi_middleware.RLMetricsMiddleware_init None None)
              (fastapi_middleware.mkRequest "POST" "/api/orders")
              (Raised (ValueError "handler failed")) 1 2 fresh_world Hex)
    as (Hout & Hinc & Hdec & _).
  repeat split; assumption.
Defined.

(** When the application raises on a request that is not excluded, the
    exception goes on to the caller unchanged and nothing is observed: the
    histograms, the counter and the log are as before, the normaliser is
    not consulted, and only the increment and the decrement have been
    made. *)
Theorem fastapi_application_exception_not_recorded
    (mw : fastapi_middleware.RLMetricsMiddleware) (request : fastapi_middleware.Request)
    (e : Exception) start_time end_time (w : World) :
  fastapi_middleware.url_path request ∉ fastapi_middleware.exclude_paths mw ->
  let method := fastapi_middleware.method request in
  let r := fastapi_middleware.dispatch no_fault mw request (Raised e) start_time
             end_time w in
  r.1 = Raised e /\
  request_latency (self r.2) = request_latency (self w) /\
  request_count (self r.2) = request_count (self w) /\
  response_size (self r.2) = response_size (self w) /\
  world_log r.2 = world_log w /\
  calls r.2 = (calls w ++ [Call_inc_in_progress method; Call_dec_in_progress method])%list.
Proof.
  intros Hex method r. subst r. unfold fastapi_middleware.dispatch.
  rewrite bool_decide_eq_false_2 by exact Hex.
  erewrite bind_returned by apply inc_in_progress_no_fault.
  unfold try_finally. erewrite bind_raised by reflexivity.
  rewrite dec_in_progress_no_fault. cbn. rewrite <- ?app_assoc.
  repeat split; reflexivity.
Qed.

Lemma fastapi_application_exception_not_recorded_witness :
  let r := fastapi_middleware.dispatch no_fault
             (fastapi_middleware.mkMiddleware (Some (fun _ => Raised (ValueError "n")))
                ["/health"])
             (fastapi_middleware.mkRequest "GET" "/api")
             (Raised (ValueError "handler failed")) 1 2 fresh_world in
  r.1 = Raised (ValueError "handler failed") /\ world_log r.2 = [] /\
  request_count (self r.2) = ∅.
Proof.
  assert (Hex : "/api" ∉ ["/health"])
    by (apply (bool_decide_unpack _); vm_compute; exact I).
  destruct (fastapi_application_exception_not_recorded
              (fastapi_middleware.mkMiddleware (Some (fun _ => Raised (ValueError "n")))
                 ["/health"])
              (fastapi_middleware.mkRequest "GET" "/api")
              (ValueError "handler failed") 1 2 fresh_world Hex)
    as (Hout & _ & Hcount & _ & Hlog & _).
  repeat split; assumption.
Defined.

(** *** The FastAPI middleware: when the gauge fails *)

Lemma inc_in_progress_ok fault method w :
  fault In_progress_inc = None ->
  inc_in_progress fault method w
  = (Returned tt,
     mkWorld (on_requests_in_progress (gauge_inc method) (self w)) (world_log w)
       (calls w ++ [Call_inc_in_progress method])%list).
Proof.
  intros Hok. unfold inc_in_progress, called, mutate, modify, mbind, M_bind, bind.
  cbn. now rewrite Hok.
Qed.

Lemma inc_in_progress_fault fault method w e :
  fault In_progress_inc = Some e ->
  inc_in_progress fault method w
  = (Raised e, mkWorld (self w) (world_log w) (calls w ++ [Call_inc_in_progress method])%list).
Proof.
  intros Hf. unfold inc_in_progress, called, mutate, modify, mbind, M_bind, bind.
  cbn. now rewrite Hf.
Qed.

Lemma dec_in_progress_fault fault method w e :
  fault In_progress_dec = Some e ->
  dec_in_progress fault method w
  = (Raised e, mkWorld (self w) (world_log w) (calls w ++ [Call_dec_in_progress method])%list).
Proof.
  intros Hf. unfold dec_in_progress, called, mutate, modify, mbind, M_bind, bind.
  cbn. now rewrite Hf.
Qed.

(** The increment of the FastAPI middleware stands outside every [try]:
    when it fails on a request that is not excluded, the exception reaches
    the caller in place of the application's outcome, and nothing else has
    happened to the metrics object: no observation, no decrement, no log
    record. *)
Theorem fastapi_increment_failure_reaches_caller fault
    (mw : fastapi_middleware.RLMetricsMiddleware) (request : fastapi_middleware.Request)
    call_next start_time end_time (w : World) (e : Exception) :
  fastapi_middleware.url_path request ∉ fastapi_middleware.exclude_paths mw ->
  fault In_progress_inc = Some e ->
  fastapi_middleware.dispatch fault mw request call_next start_time end_time w
  = (Raised e,
     mkWorld (self w) (world_log w)
       (calls w ++ [Call_inc_in_progress (fastapi_middleware.method request)])%list).
Proof.
  intros Hex Hf. unfold fastapi_middleware.dispatch.
  rewrite bool_decide_eq_false_2 by exact Hex.
  erewrite bind_raised by (apply inc_in_progress_fault; exact Hf). reflexivity.
Qed.

Lemma fastapi_increment_failure_reaches_caller_witness :
  let fault := fun op => match op with
                         | In_progress_inc => Some (ValueError "gauge")
                         | _ => None
                         end in
  (fastapi_middleware.dispatch fault (fastapi_middleware.mkMiddleware None ["/health"])
     (fastapi_middleware.mkRequest "GET" "/api")
     (Returned (fastapi_middleware.mkResponse 200 None)) 1 2 fresh_world).1
  = Raised (ValueError "gauge").
Proof.
  intros fault.
  assert (Hex : "/api" ∉ ["/health"])
    by (apply (bool_decide_unpack _); vm_compute; exact I).
  rewrite (fastapi_increment_failure_reaches_caller fault
             (fastapi_middleware.mkMiddleware None ["/health"])
             (fastapi_middleware.mkRequest "GET" "/api")
             (Returned (fastapi_middleware.mkResponse 200 None)) 1 2 fresh_world
             (ValueError "gauge") Hex eq_refl).
  reflexivity.
Defined.

(** The decrement of the FastAPI middleware runs in [finally] without a
    guard of its own: when it fails, its exception is what the caller gets,
    whether the application had returned a response or raised. *)
Theorem fastapi_decrement_failure_replaces_outcome fault
    (mw : fastapi_middleware.RLMetricsMiddleware) (request : fastapi_middleware.Request)
    call_next start_time end_time (w : World) (e : Exception) :
  fastapi_middleware.url_path request ∉ fastapi_middleware.exclude_paths mw ->
  fault In_progress_inc = None ->
  fault In_progress_dec = Some e ->
  (fastapi_middleware.dispatch fault mw request call_next start_time end_time w).1
  = Raised e.
Proof.
  intros Hex Hinc Hdec. unfold fastapi_middleware.dispatch.
  rewrite bool_decide_eq_false_2 by exact Hex.
  erewrite bind_returned by (apply inc_in_progress_ok; exact Hinc).
  unfold try_finally.
  match goal with |- (let (o, s') := ?body ?s in _).1 = _ => destruct (body s) as [o s'] end.
  rewrite (dec_in_progress_fault fault _ s' e Hdec). reflexivity.
Qed.

Lemma fastapi_decrement_failure_replaces_outcome_witness :
  let fault := fun op => match op with
                         | In_progress_dec => Some (ValueError "gauge")
                         | _ => None
                         end in
  (fastapi_middleware.dispatch fault (fastapi_middleware.mkMiddleware None ["/health"])
     (fastapi_middleware.mkRequest "GET" "/api")
     (Returned (fastapi_middleware.mkResponse 200 None)) 1 2 fresh_world).1
  = Raised (ValueError "gauge").
Proof.
  intros fault.
  assert (Hex : "/api" ∉ ["/health"])
    by (apply (bool_decide_unpack _); vm_compute; exact I).
  exact (fastapi_decrement_failure_replaces_outcome fault
           (fastapi_middleware.mkMiddleware None ["/health"])
           (fastapi_middleware.mkRequest "GET" "/api")
           (Returned (fastapi_middleware.mkResponse 200 None)) 1 2 fresh_world
           (ValueError "gauge") Hex eq_refl eq_refl).
Defined.

(** *** The Flask hooks: what a request does *)

(** A guarded call on the metrics object never raises and leaves the
    request object alone. *)
Lemma flask_guarded_call (c : M World unit) (h : Exception -> M flask_middleware.Context unit)
    (ctx : flask_middleware.Context) :
  (forall e s, (h e s).1 = Returned tt /\
               flask_middleware.request (h e s).2 = flask_middleware.request s) ->
  let r := try_except (zoom flask_middleware.metrics flask_middleware.set_metrics c) h
             ctx in
  r.1 = Returned tt /\ flask_middleware.request r.2 = flask_middleware.request ctx.
Proof.
  intros Hh. unfold try_except, zoom.
  destruct (c (flask_middleware.metrics ctx)) as [[[]|e] w1]; cbn; [now split|].
  apply (Hh e (flask_middleware.set_metrics w1 ctx)).
Qed.

(** The [after_request] hook does not fail the request on account of
    the metric library or of the normaliser: whichever mutation raises and
    whatever the normaliser does, it leaves the request object as it was
    and returns the response it was given, unless its size step raises.
    The size step raises exactly for a request with a start time, whose
    normalised path is not excluded and whose response has no
    [Content-Length] to go by and a body that cannot be read; the exception
    of the read is then the outcome of the hook. *)
Theorem flask_after_request_raises_only_on_body_read fault path_normalizer exclude_paths
    now (response : flask_middleware.Response) (ctx : flask_middleware.Context) :
  let request := flask_middleware.request ctx in
  let path := normalized_path path_normalizer (flask_middleware.path request) in
  let r := flask_middleware.after_request_handler fault path_normalizer exclude_paths now
             response ctx in
  flask_middleware.request r.2 = request /\
  (r.1 = Returned response \/ exists e, r.1 = Raised e) /\
  (forall e, r.1 = Raised e <->
     flask_middleware._rl_metrics_start_time request <> None /\
     (path ∉ exclude_paths) /\
     header_given (flask_middleware.content_length response) = false /\
     flask_middleware.data response = Raised e).
Proof.
  intros request path. subst request path.
  unfold flask_middleware.after_request_handler.
  erewrite bind_returned by reflexivity.
  pose proof (flask_guarded_call
                (dec_in_progress fault
                   (flask_middleware.method (flask_middleware.request ctx)))
                (fun _ => mret tt) ctx) as Hdec.
  cbv zeta in Hdec.
  destruct (try_except _ _ ctx) as [o1 ctx1] eqn:Hstep1.
  destruct Hdec as [Ho1 Hrq1]; [intros e s; now split|]. cbn in Ho1, Hrq1. subst o1.
  erewrite bind_returned by exact Hstep1.
  destruct (flask_middleware._rl_metrics_start_time (flask_middleware.request ctx))
    as [start_time|];
    [|cbn; split; [exact Hrq1|]; split; [now left|];
      intros e; split; [discriminate | now intros [Hstart _]]].
  erewrite bind_returned by apply apply_normalizer_context.
  case_bool_decide as Hex;
    [cbn; split; [exact Hrq1|]; split; [now left|];
     intros e; split; [discriminate | now intros (_ & Hnot & _)]|].
  set (ctx' := flask_middleware.mkContext
                 (mkWorld (self (flask_middleware.metrics ctx1))
                    (world_log (flask_middleware.metrics ctx1)
                     ++ normalizer_log path_normalizer
                          (flask_middleware.path (flask_middleware.request ctx)))%list
                    (calls (flask_middleware.metrics ctx1)))
                 (flask_middleware.request ctx1)).
  pose proof (flask_size_step response ctx') as Hsize.
  unfold flask_response_size in Hsize.
  destruct (header_given (flask_middleware.content_length response)) eqn:Hheader;
    [|destruct (flask_middleware.data response) as [body|e0] eqn:Hdata].
  3: { erewrite bind_raised by exact Hsize. cbn.
       split; [exact Hrq1|]. split; [right; now exists e0|].
       intros e; split.
       - intros [= <-]. repeat split; [discriminate | exact Hex].
       - now intros (_ & _ & _ & [= <-]). }
  all: erewrite bind_returned by exact Hsize.
  all: match goal with
       | |- context [try_except (zoom _ _ ?c) ?h] =>
           pose proof (flask_guarded_call c h ctx') as Hobs; cbv zeta in Hobs;
           destruct (try_except
                       (zoom flask_middleware.metrics flask_middleware.set_metrics c) h
                       ctx')
             as [o2 ctx2] eqn:Hstep2
       end.
  all: destruct Hobs as [Ho2 Hrq2]; [intros e s; now split|]; cbn in Ho2, Hrq2; subst o2.
  all: erewrite bind_returned by exact Hstep2.
  all: cbn; split; [congruence|]; split; [now left|].
  all: intros e; split; [discriminate|].
  - now intros (_ & _ & Hno & _).
  - now intros (_ & _ & _ & Hraised).
Qed.

Lemma flask_after_request_raises_only_on_body_read_witness :
  let refused := mkException "RuntimeError"
    "Attempted implicit sequence conversion but the response object is in direct passthrough mode." in
  let fault := fun _ : Mutation => Some (ValueError "registry") in
  let ctx := flask_middleware.mkContext fresh_world
               (flask_middleware.mkRequest "GET" "/download" (Some 1%Q)) in
  (flask_middleware.after_request_handler fault None
     flask_middleware.default_exclude_paths 2
     (flask_middleware.mkResponse 200 None (Raised refused)) ctx).1 = Raised refused /\
  (flask_middleware.after_request_handler fault None
     flask_middleware.default_exclude_paths 2
     (flask_middleware.mkResponse 200 (Some "1024") (Raised refused)) ctx).1
  = Returned (flask_middleware.mkResponse 200 (Some "1024") (Raised refused)).
Proof.
  intros refused fault ctx.
  assert (Hex : normalized_path None "/download" ∉ flask_middleware.default_exclude_paths)
    by (apply (bool_decide_unpack _); vm_compute; exact I).
  split.
  - apply (proj2 (proj2 (flask_after_request_raises_only_on_body_read fault None
             flask_middleware.default_exclude_paths 2
             (flask_middleware.mkResponse 200 None (Raised refused)) ctx))).
    repeat split; [discriminate | exact Hex].
  - destruct (flask_after_request_raises_only_on_body_read fault None
                flask_middleware.default_exclude_paths 2
                (flask_middleware.mkResponse 200 (Some "1024") (Raised refused)) ctx)
      as (_ & [Hret|[e He]] & Hiff); [exact Hret|].
    apply Hiff in He. now destruct He as (_ & _ & Hheader & _).
Defined.

(** A request that passes both hooks, whose normalised path is not on
    the exclusion list and whose size step returns: the gauge goes up and
    down again, and the request is recorded under the normalised path with
    the duration between the two clock readings.  In Flask the decrement
    comes before the observation, and it is the normalised path that the
    exclusion list is asked about, so a request whose raw path is on the
    list is recorded when the normaliser moves it off the list. *)
Theorem flask_request_recorded path_normalizer exclude_paths (method raw_path : string)
    (started : option Q) (response : flask_middleware.Response) (size : option Z)
    (start_time end_time : Q) (w : World) :
  normalized_path path_normalizer raw_path ∉ exclude_paths ->
  flask_response_size response = Returned size ->
  let path := normalized_path path_normalizer raw_path in
  let duration := (end_time - start_time)%Q in
  let status := flask_middleware.status_code response in
  let ctx := flask_middleware.mkContext w
               (flask_middleware.mkRequest method raw_path started) in
  let ctx1 := (flask_middleware.before_request_handler no_fault start_time ctx).2 in
  let r := flask_middleware.after_request_handler no_fault path_normalizer exclude_paths
             end_time response ctx1 in
  r.1 = Returned response /\
  self (flask_middleware.metrics r.2)
  = record_request method path duration status size
      (on_requests_in_progress (gauge_dec method)
         (on_requests_in_progress (gauge_inc method) (self w))) /\
  world_log (flask_middleware.metrics r.2)
  = (world_log w ++ normalizer_log path_normalizer raw_path)%list /\
  calls (flask_middleware.metrics r.2)
  = (calls w ++ [Call_inc_in_progress method; Call_dec_in_progress method;
                 Call_observe_request method path duration status size])%list /\
  gauge_value (requests_in_progress (self (flask_middleware.metrics r.2))) method
  = gauge_value (requests_in_progress (self w)) method.
Proof.
  intros Hex Hsize path duration status ctx ctx1 r. subst r ctx1.
  rewrite before_request_handler_no_fault. cbn [snd].
  erewrite after_request_handler_recorded;
    [|reflexivity|apply apply_normalizer_context|exact Hex|exact Hsize].
  rewrite observe_request_no_fault, dec_in_progress_no_fault, inc_in_progress_no_fault.
  cbn. rewrite <- ?app_assoc.
  repeat split; try reflexivity.
  destruct size; cbn;
    rewrite gauge_value_dec, gauge_value_inc, bool_decide_eq_true_2 by reflexivity; lia.
Qed.

Lemma flask_request_recorded_witness :
  let normalizer := Some (fun _ : string => Returned "/live") in
  let ctx := flask_middleware.mkContext fresh_world
               (flask_middleware.mkRequest "GET" "/health" None) in
  let ctx1 := (flask_middleware.before_request_handler no_fault 1 ctx).2 in
  let r := flask_middleware.after_request_handler no_fault normalizer
             flask_middleware.default_exclude_paths 3
             (flask_middleware.mkResponse 200 None (Returned "ok")) ctx1 in
  "/health" ∈ flask_middleware.default_exclude_paths /\
  calls (flask_middleware.metrics r.2)
  = [Call_inc_in_progress "GET"; Call_dec_in_progress "GET";
     Call_observe_request "GET" "/live" (3 - 1) 200 (Some 2%Z)].
Proof.
  intros normalizer ctx ctx1 r.
  assert (Hex : normalized_path normalizer "/health"
                ∉ flask_middleware.default_exclude_paths)
    by (apply (bool_decide_unpack _); vm_compute; exact I).
  split; [apply (bool_decide_unpack _); vm_compute; exact I|].
  exact (proj1 (proj2 (proj2 (proj2 (flask_request_recorded normalizer
           flask_middleware.default_exclude_paths "GET" "/health" None
           (flask_middleware.mkResponse 200 None (Returned "ok")) (Some 2%Z) 1 3
           fresh_world Hex eq_refl))))).
Defined.

(** A request that passes both hooks and whose normalised path is on the
    exclusion list is not observed, also when its raw path is not on the
    list: histograms, counter and log stay as they were apart from the
    warning of a raising normaliser, and the only calls are the increment
    and the decrement. *)
Theorem flask_request_skipped path_normalizer exclude_paths (method raw_path : string)
    (started : option Q) (response : flask_middleware.Response) (start_time end_time : Q)
    (w : World) :
  normalized_path path_normalizer raw_path ∈ exclude_paths ->
  let ctx := flask_middleware.mkContext w
               (flask_middleware.mkRequest method raw_path started) in
  let ctx1 := (flask_middleware.before_request_handler no_fault start_time ctx).2 in
  let r := flask_middleware.after_request_handler no_fault path_normalizer exclude_paths
             end_time response ctx1 in
  r.1 = Returned response /\
  request_latency (self (flask_middleware.metrics r.2)) = request_latency (self w) /\
  request_count (self (flask_middleware.metrics r.2)) = request_count (self w) /\
  response_size (self (flask_middleware.metrics r.2)) = response_size (self w) /\
  world_log (flask_middleware.metrics r.2)
  = (world_log w ++ normalizer_log path_normalizer raw_path)%list /\
  calls (flask_middleware.metrics r.2)
  = (calls w ++ [Call_inc_in_progress method; Call_dec_in_progress method])%list.
Proof.
  intros Hex ctx ctx1 r. subst r ctx1.
  rewrite before_request_handler_no_fault. cbn [snd].
  erewrite after_request_handler_skipped;
    [|reflexivity|apply apply_normalizer_context|exact Hex].
  rewrite dec_in_progress_no_fault, inc_in_progress_no_fault.
  cbn. rewrite <- ?app_assoc. repeat split; reflexivity.
Qed.

Lemma flask_request_skipped_witness :
  let normalizer := Some (fun _ : string => Returned "/metrics") in
  let ctx := flask_middleware.mkContext fresh_world
               (flask_middleware.mkRequest "GET" "/api/users" None) in
  let ctx1 := (flask_middleware.before_request_handler no_fault 1 ctx).2 in
  let r := flask_middleware.after_request_handler no_fault normalizer
             flask_middleware.default_exclude_paths 3
             (flask_middleware.mkResponse 200 None (Returned "ok")) ctx1 in
  ("/api/users" ∉ flask_middleware.default_exclude_paths) /\
  request_count (self (flask_middleware.metrics r.2)) = ∅.
Proof.
  intros normalizer ctx ctx1 r.
  assert (Hex : normalized_path normalizer "/api/users"
                ∈ flask_middleware.default_exclude_paths)
    by (apply (bool_decide_unpack _); vm_compute; exact I).
  split; [apply (bool_decide_unpack _); vm_compute; exact I|].
  exact (proj1 (proj2 (proj2 (flask_request_skipped normalizer
           flask_middleware.default_exclude_paths "GET" "/api/users" None
           (flask_middleware.mkResponse 200 None (Returned "ok")) 1 3 fresh_world Hex)))).
Defined.

(** The size the Flask hook observes for a request that it records: a
    [Content-Length] header that holds an integer is taken and the body is
    not looked at; a header that is not an integer literal leaves the
    request without a size observation even when the body is there;
    without a header (or with an empty one) the body is read: the length
    of a non-empty body is taken, an empty body gives no observation, and
    a body that cannot be read makes the hook raise the exception of the
    read with nothing recorded. *)
Theorem flask_size_from_header_or_body path_normalizer exclude_paths (method raw_path : string)
    (response : flask_middleware.Response) (start_time end_time : Q) (w : World) :
  normalized_path path_normalizer raw_path ∉ exclude_paths ->
  let path := normalized_path path_normalizer raw_path in
  let header := flask_middleware.content_length response in
  let r := flask_middleware.after_request_handler no_fault path_normalizer exclude_paths
             end_time response
             (flask_middleware.mkContext w
                (flask_middleware.mkRequest method raw_path (Some start_time))) in
  let observed := response_size (self (flask_middleware.metrics r.2)) in
  (forall cl n, header = Some cl -> cl <> "" -> int_of_str cl = Returned n ->
     r.1 = Returned response /\
     observed = observe (method, path) (inject_Z n) (response_size (self w))) /\
  (forall cl e, header = Some cl -> cl <> "" -> int_of_str cl = Raised e ->
     r.1 = Returned response /\ observed = response_size (self w)) /\
  (forall body, header = None \/ header = Some "" ->
     flask_middleware.data response = Returned body -> body <> "" ->
     r.1 = Returned response /\
     observed = observe (method, path) (inject_Z (Z.of_nat (String.length body)))
                  (response_size (self w))) /\
  (header = None \/ header = Some "" ->
   flask_middleware.data response = Returned "" ->
   r.1 = Returned response /\ observed = response_size (self w)) /\
  (forall e, header = None \/ header = Some "" ->
     flask_middleware.data response = Raised e ->
     r.1 = Raised e /\ observed = response_size (self w) /\
     request_latency (self (flask_middleware.metrics r.2)) = request_latency (self w) /\
     request_count (self (flask_middleware.metrics r.2)) = request_count (self w)).
Proof.
  intros Hex path header r observed. subst observed r.
  assert (Htruthy : forall s : string, s <> "" -> truthy s = true).
  { intros [|c s] Hs; [contradiction | reflexivity]. }
  assert (Hrecorded : forall size, flask_response_size response = Returned size ->
            flask_middleware.after_request_handler no_fault path_normalizer exclude_paths
              end_time response
              (flask_middleware.mkContext w
                 (flask_middleware.mkRequest method raw_path (Some start_time)))
            = (Returned response,
               flask_middleware.mkContext
                 (observe_request no_fault method path (end_time - start_time)
                    (flask_middleware.status_code response) size
                    (mkWorld (on_requests_in_progress (gauge_dec method) (self w))
                       (world_log w ++ normalizer_log path_normalizer raw_path)%list
                       (calls w ++ [Call_dec_in_progress method])%list)).2
                 (flask_middleware.mkRequest method raw_path (Some start_time)))).
  { intros size Hsize.
    erewrite after_request_handler_recorded;
      [|reflexivity|apply apply_normalizer_context|exact Hex|exact Hsize].
    rewrite dec_in_progress_no_fault. reflexivity. }
  unfold flask_response_size, header_size in Hrecorded. fold header in Hrecorded.
  split; [|split; [|split; [|split]]].
  - intros cl n Hh Hcl Hint.
    rewrite (Hrecorded (Some n))
      by (rewrite Hh; cbn; now rewrite (Htruthy cl Hcl), Hint).
    rewrite observe_request_no_fault. split; reflexivity.
  - intros cl e Hh Hcl Hint.
    rewrite (Hrecorded None)
      by (rewrite Hh; cbn; now rewrite (Htruthy cl Hcl), Hint).
    rewrite observe_request_no_fault. split; reflexivity.
  - intros body Hh Hdata Hb.
    rewrite (Hrecorded (Some (Z.of_nat (String.length body))))
      by (destruct Hh as [Hh|Hh]; rewrite Hh, Hdata; cbn; now rewrite (Htruthy body Hb)).
    rewrite observe_request_no_fault. split; reflexivity.
  - intros Hh Hdata.
    rewrite (Hrecorded None) by (destruct Hh as [Hh|Hh]; now rewrite Hh, Hdata).
    rewrite observe_request_no_fault. split; reflexivity.
  - intros e Hh Hdata.
    erewrite after_request_handler_size_raised;
      [|reflexivity
       |unfold try_except, zoom; rewrite dec_in_progress_no_fault; reflexivity
       |apply apply_normalizer_context|exact Hex
       |unfold flask_response_size; fold header;
        destruct Hh as [Hh|Hh]; now rewrite Hh, Hdata].
    repeat split; reflexivity.
Qed.

Lemma flask_size_from_header_or_body_witness :
  let refused := mkException "RuntimeError"
    "Attempted implicit sequence conversion but the response object is in direct passthrough mode." in
  let ctx := flask_middleware.mkContext fresh_world
               (flask_middleware.mkRequest "GET" "/api" (Some 1%Q)) in
  let malformed := flask_middleware.after_request_handler no_fault None
                     flask_middleware.default_exclude_paths 3
                     (flask_middleware.mkResponse 200 (Some "12 bytes") (Returned "hello"))
                     ctx in
  let streamed := flask_middleware.after_request_handler no_fault None
                    flask_middleware.default_exclude_paths 3
                    (flask_middleware.mkResponse 200 None (Raised refused)) ctx in
  response_size (self (flask_middleware.metrics malformed.2))
  = response_size fresh_metrics /\
  streamed.1 = Raised refused /\
  request_count (self (flask_middleware.metrics streamed.2)) = request_count fresh_metrics.
Proof.
  intros refused ctx malformed streamed.
  assert (Hex : normalized_path None "/api" ∉ flask_middleware.default_exclude_paths)
    by (apply (bool_decide_unpack _); vm_compute; exact I).
  destruct (flask_size_from_header_or_body None flask_middleware.default_exclude_paths
              "GET" "/api"
              (flask_middleware.mkResponse 200 (Some "12 bytes") (Returned "hello"))
              1 3 fresh_world Hex) as (_ & Hmalformed & _).
  destruct (flask_size_from_header_or_body None flask_middleware.default_exclude_paths
              "GET" "/api" (flask_middleware.mkResponse 200 None (Raised refused))
              1 3 fresh_world Hex) as (_ & _ & _ & _ & Hstreamed).
  split.
  - apply (Hmalformed "12 bytes"
             (ValueError "invalid literal for int() with base 10: '12 bytes'"));
      [reflexivity | discriminate | vm_compute; reflexivity].
  - destruct (Hstreamed refused (or_introl eq_refl) eq_refl) as (Hout & _ & _ & Hcount).
    split; assumption.
Defined.

(** *** Scoped tracking *)

(** [with metrics.track_in_progress(method)]: the outcome of the block
    is the outcome of the statement, returning or raising, and when the
    block leaves the gauge of the method where it found it the gauge is
    back at its old value afterwards; when the increment itself fails the
    block is not run. *)
Theorem track_in_progress_restores_gauge {A} (method : string) (body : M World A)
    (w : World) :
  (forall w', gauge_value (requests_in_progress (self (body w').2)) method
              = gauge_value (requests_in_progress (self w')) method) ->
  let entered := set_self (on_requests_in_progress (gauge_inc method)) w in
  let r := track_in_progress no_fault method body w in
  r.1 = (body entered).1 /\
  gauge_value (requests_in_progress (self r.2)) method
  = gauge_value (requests_in_progress (self w)) method /\
  (forall fault e, fault In_progress_inc = Some e ->
     track_in_progress fault method body w = (Raised e, w)).
Proof.
  intros Hbody entered r. subst r. unfold track_in_progress, try_finally, mutate.
  unfold mbind, M_bind, bind. cbn. fold entered.
  pose proof (Hbody entered) as Hkeep.
  destruct (body entered) as [o w1]. cbn in *.
  repeat split.
  - rewrite gauge_value_dec, Hkeep. subst entered. cbn.
    rewrite gauge_value_inc, bool_decide_eq_true_2 by reflexivity. lia.
  - intros fault e Hf. now rewrite Hf.
Qed.

Lemma track_in_progress_restores_gauge_witness :
  let body : M World nat := raise (ValueError "block failed") in
  let r := track_in_progress no_fault "GET" body fresh_world in
  r.1 = Raised (ValueError "block failed") /\
  gauge_value (requests_in_progress (self r.2)) "GET" = 0%Z.
Proof.
  intros body r.
  destruct (track_in_progress_restores_gauge "GET" body fresh_world (fun w' => eq_refl))
    as (Hout & Hgauge & _).
  split; [exact Hout | exact Hgauge].
Defined.

(** *** The gauge over a sequence of calls *)

(** After any sequence of [inc_in_progress] and [dec_in_progress] calls
    on one object, the gauge of each method stands at its old value plus
    its increments minus its decrements; the gauges of methods that the
    sequence does not name are unchanged, and with no more decrements than
    increments a gauge that was not negative is not negative. *)
Theorem in_progress_gauge_counts (l : list GaugeOp) (w : World) (method : string) :
  gauge_value (requests_in_progress (self (gauge_ops l w))) method
  = (gauge_value (requests_in_progress (self w)) method
     + Z.of_nat (incs_of method l) - Z.of_nat (decs_of method l))%Z /\
  (incs_of method l = 0%nat -> decs_of method l = 0%nat ->
   gauge_value (requests_in_progress (self (gauge_ops l w))) method
   = gauge_value (requests_in_progress (self w)) method) /\
  ((decs_of method l <= incs_of method l)%nat ->
   (0 <= gauge_value (requests_in_progress (self w)) method)%Z ->
   (0 <= gauge_value (requests_in_progress (self (gauge_ops l w))) method)%Z).
Proof.
  pose proof (gauge_ops_value l w method) as Hvalue.
  repeat split; [exact Hvalue | intros; lia | intros; lia].
Qed.

(** *** The request counter over a sequence of calls *)

Lemma counter_total_insert (k : string * string * string * string) (v : nat)
    (c : gmap (string * string * string * string) nat) :
  c !! k = None -> counter_total (<[k := v]> c) = (v + counter_total c)%nat.
Proof.
  intros Hnone. unfold counter_total.
  rewrite map_fold_insert_L; [reflexivity| |exact Hnone].
  intros. lia.
Qed.

Lemma counter_total_inc (k : string * string * string * string)
    (c : gmap (string * string * string * string) nat) :
  counter_total (counter_inc k c) = S (counter_total c).
Proof.
  unfold counter_inc. destruct (c !! k) as [v|] eqn:Hk; cbn.
  - rewrite <- (insert_delete_eq c k (S v)).
    rewrite <- (insert_delete_id c k v Hk) at 2.
    rewrite !counter_total_insert by apply lookup_delete_eq. lia.
  - now rewrite counter_total_insert.
Qed.

Lemma observe_request_total fault method path duration status_code response_size w :
  let total w := counter_total (request_count (self w)) in
  let w' := (observe_request fault method path duration status_code response_size w).2 in
  (total w <= total w' <= S (total w))%nat /\
  (fault Latency_observe = None -> fault Count_inc = None -> total w' = S (total w)).
Proof.
  cbv zeta. rewrite observe_request_unfold. cbv zeta.
  destruct (fault Latency_observe); [cbn; split; [lia | discriminate]|].
  destruct (fault Count_inc); [cbn; split; [lia | discriminate]|].
  destruct response_size as [size|]; [destruct (fault Size_observe)|];
    cbn -[counter_total counter_inc];
    rewrite counter_total_inc; (split; [lia | reflexivity]).
Qed.

(** The request counter counts calls: over any sequence of
    [observe_request] calls its total over all label combinations never
    goes down and rises by at most one per call, whatever fails in the
    metric library; when the latency and the count mutations do not fail
    it rises by exactly the number of calls, also when the size
    observation fails. *)
Theorem request_counter_counts_calls fault (l : list Observation) (w : World) :
  let total w := counter_total (request_count (self w)) in
  (total w <= total (observe_all fault l w) <= total w + length l)%nat /\
  (fault Latency_observe = None -> fault Count_inc = None ->
   total (observe_all fault l w) = (total w + length l)%nat).
Proof.
  cbv zeta. revert w. induction l as [|o tl IH]; intros w.
  - cbn. split; [lia | intros; lia].
  - cbn [observe_all length].
    pose proof (observe_request_total fault (obs_method o) (obs_path o) (obs_duration o)
                  (obs_status_code o) (obs_response_size o) w) as [Hstep Hexact].
    cbv zeta in Hstep, Hexact.
    destruct (IH (observe_request fault (obs_method o) (obs_path o) (obs_duration o)
                    (obs_status_code o) (obs_response_size o) w).2) as [Hrest Hrest'].
    split; [lia|]. intros Hl Hc. rewrite (Hrest' Hl Hc), (Hexact Hl Hc). lia.
Qed.

(** *** The singleton when construction fails *)

(** Construction touches the registry and the log only, and takes no
    name out of the registry. *)
Lemma RLMetrics_init_frame `{HistogramCtor} now namespace0 hb rsb app_version app_name p :
  let r := RLMetrics_init now namespace0 hb rsb app_version app_name p in
  objects r.2 = objects p /\ _metrics_instance r.2 = _metrics_instance p /\
  environ r.2 = environ p /\ REGISTRY p ⊆ REGISTRY r.2.
Proof.
  unfold RLMetrics_init, new_histogram, new_collector, zoom, register, lift, logger,
    modify, mbind, M_bind, bind, mret, M_ret, ret.
  assert (Hgrow : forall (R : gset string), REGISTRY p ⊆ R -> forall name,
            REGISTRY p ⊆ {[name]} ∪ R)
    by (intros R HR name; now apply union_subseteq_r').
  destruct (prepare_buckets _) as [lb|e]; [|cbn; repeat split; reflexivity].
  repeat (cbn; match goal with
               | |- context [decide ?P] =>
                   destruct (decide P);
                   [cbn; repeat split; try reflexivity; repeat apply Hgrow; reflexivity|]
               end).
  destruct (prepare_buckets _) as [sb|e];
    [|cbn; repeat split; try reflexivity; repeat apply Hgrow; reflexivity].
  repeat (cbn; match goal with
               | |- context [decide ?P] =>
                   destruct (decide P);
                   [cbn; repeat split; try reflexivity; repeat apply Hgrow; reflexivity|]
               end).
  cbn. repeat split; try reflexivity. repeat apply Hgrow. reflexivity.
Qed.

(** A first call is the constructor on the resolved arguments, followed
    by the store into the module global when it returns. *)
Lemma get_registry_unfold `{HistogramCtor} (a : RegistryArgs) p :
  _metrics_instance p = None ->
  get_registry a p
  = match RLMetrics_init (arg_now a)
            (arg_or_env (arg_namespace a) "RL_METRICS_NAMESPACE" (environ p))
            (arg_histogram_buckets a) (arg_response_size_buckets a)
            (arg_or_env (arg_app_version a) "RL_METRICS_APP_VERSION" (environ p))
            (arg_or_env (arg_app_name a) "RL_METRICS_APP_NAME" (environ p)) p with
    | (Returned m, p') =>
        (Returned (length (objects p')),
         mkProcess (environ p') (REGISTRY p') (objects p' ++ [m])%list
           (Some (length (objects p'))) (process_log p'))
    | (Raised e, p') => (Raised e, p')
    end.
Proof.
  intros Hnone. unfold get_registry, get_metrics_registry.
  unfold gets, getenv, mbind, M_bind, bind, mret, M_ret, ret. rewrite Hnone.
  destruct a as [now ns hb rsb ver name].
  destruct ns as [ns|], ver as [ver|], name as [name|]; cbn -[RLMetrics_init];
    rewrite Hnone;
    (destruct (RLMetrics_init _ _ _ _ _ _ p) as [[m|e] p']; reflexivity).
Qed.

(** A call of [get_metrics_registry] that raises has stored nothing: the
    module global is still empty and no object exists, so the next call
    constructs again; what the failed constructor had registered stays
    registered. *)
Theorem get_metrics_registry_failure_stores_nothing `{HistogramCtor} (a : RegistryArgs)
    (p p' : Process) (e : Exception) :
  _metrics_instance p = None ->
  get_registry a p = (Raised e, p') ->
  _metrics_instance p' = None /\ objects p' = objects p /\ environ p' = environ p /\
  REGISTRY p ⊆ REGISTRY p'.
Proof.
  intros Hnone Hcall. rewrite (get_registry_unfold a p Hnone) in Hcall.
  pose proof (RLMetrics_init_frame (arg_now a)
                (arg_or_env (arg_namespace a) "RL_METRICS_NAMESPACE" (environ p))
                (arg_histogram_buckets a) (arg_response_size_buckets a)
                (arg_or_env (arg_app_version a) "RL_METRICS_APP_VERSION" (environ p))
                (arg_or_env (arg_app_name a) "RL_METRICS_APP_NAME" (environ p)) p)
    as Hframe.
  cbv zeta in Hframe.
  destruct (RLMetrics_init _ _ _ _ _ _ p) as [[m|e'] p1]; [discriminate|].
  injection Hcall as _ <-. cbn in Hframe.
  destruct Hframe as (Hobj & Hinst & Henv & Hreg).
  repeat split; try assumption. now rewrite Hinst.
Qed.

Lemma get_metrics_registry_failure_stores_nothing_witness :
  let a := mkArgs 0 None None (Some [3; 1]%Q) None None in
  let r := get_registry (H := prometheus_client) a (initial_process ∅) in
  r.1 = Raised (ValueError "Buckets not in sorted order") /\
  _metrics_instance r.2 = None /\ objects r.2 = [] /\
  "http_request_duration_seconds" ∈ REGISTRY r.2.
Proof.
  intros a r.
  assert (Hcall : get_registry (H := prometheus_client) a (initial_process ∅)
                  = (Raised (ValueError "Buckets not in sorted order"), r.2))
    by (vm_compute; reflexivity).
  destruct (get_metrics_registry_failure_stores_nothing (H := prometheus_client) a
              (initial_process ∅) r.2 (ValueError "Buckets not in sorted order")
              eq_refl Hcall) as (Hinst & Hobj & _ & _).
  split; [vm_compute; reflexivity|]. split; [exact Hinst|]. split; [exact Hobj|].
  apply (bool_decide_unpack _). vm_compute. exact I.
Defined.

Lemma RLMetrics_init_size_rejected `{HistogramCtor} now namespace0 hb rsb app_version
    app_name p lb e :
  (forall base, metric_name namespace0 base ∉ REGISTRY p) ->
  prepare_buckets (buckets_or default_histogram_buckets hb) = Returned lb ->
  prepare_buckets (buckets_or default_response_size_buckets rsb) = Raised e ->
  RLMetrics_init now namespace0 hb rsb app_version app_name p
  = (Raised e,
     set_REGISTRY
       ({[metric_name namespace0 "http_requests_in_progress"]}
        ∪ ({[metric_name namespace0 "http_requests_total"]}
           ∪ ({[metric_name namespace0 "http_request_duration_seconds"]} ∪ REGISTRY p)))
       p).
Proof.
  intros Hfresh Hlb Hsb. unfold RLMetrics_init.
  change (match hb with None => default_histogram_buckets | Some b => b end)
    with (buckets_or default_histogram_buckets hb).
  change (match rsb with None => default_response_size_buckets | Some b => b end)
    with (buckets_or default_response_size_buckets rsb).
  erewrite bind_returned by (apply new_histogram_fresh; [exact Hlb | fresh_name]).
  erewrite bind_returned by (apply new_collector_fresh; fresh_name).
  erewrite bind_returned by (apply new_collector_fresh; fresh_name).
  erewrite bind_raised by (apply new_histogram_rejected; exact Hsb).
  reflexivity.
Qed.

Lemma RLMetrics_init_name_taken `{HistogramCtor} now namespace0 hb rsb app_version
    app_name p :
  metric_name namespace0 "http_request_duration_seconds" ∈ REGISTRY p ->
  returned (RLMetrics_init now namespace0 hb rsb app_version app_name p).1 = false.
Proof.
  intros Htaken. unfold RLMetrics_init, new_histogram, new_collector, zoom, register, lift,
    mbind, M_bind, bind.
  destruct (prepare_buckets _) as [lb|e]; [|reflexivity].
  cbn. destruct (decide _) as [_|Hfree]; [reflexivity | contradiction].
Qed.

(** A first call that fails on the response-size buckets leaves the
    process unable to build the singleton under that namespace: the
    latency histogram, the counter and the gauge of the failed attempt stay
    in the registry (a registry that refuses a name it holds), so every
    later call, with whatever buckets, raises as well and the module global
    stays empty. *)
Theorem get_metrics_registry_retry_after_partial_failure `{HistogramCtor}
    (first second : RegistryArgs) (p0 : Process) (e : Exception) :
  let ns := arg_or_env (arg_namespace first) "RL_METRICS_NAMESPACE" (environ p0) in
  _metrics_instance p0 = None ->
  (forall base, metric_name ns base ∉ REGISTRY p0) ->
  returned (prepare_buckets
              (buckets_or default_histogram_buckets (arg_histogram_buckets first)))
  = true ->
  prepare_buckets
    (buckets_or default_response_size_buckets (arg_response_size_buckets first))
  = Raised e ->
  arg_or_env (arg_namespace second) "RL_METRICS_NAMESPACE" (environ p0) = ns ->
  let r1 := get_registry first p0 in
  let r2 := get_registry second r1.2 in
  r1.1 = Raised e /\ returned r2.1 = false /\ _metrics_instance r2.2 = None.
Proof.
  intros ns Hnone Hfresh Hlat Hsize Hns r1 r2.
  destruct (prepare_buckets
              (buckets_or default_histogram_buckets (arg_histogram_buckets first)))
    as [lb|] eqn:Hlb; [|discriminate].
  assert (Hr1 : r1 = (Raised e,
            set_REGISTRY
              ({[metric_name ns "http_requests_in_progress"]}
               ∪ ({[metric_name ns "http_requests_total"]}
                  ∪ ({[metric_name ns "http_request_duration_seconds"]} ∪ REGISTRY p0)))
              p0)).
  { subst r1. rewrite (get_registry_unfold first p0 Hnone). fold ns.
    now rewrite (RLMetrics_init_size_rejected _ _ _ _ _ _ _ lb e Hfresh Hlb Hsize). }
  split; [now rewrite Hr1|].
  subst r2. rewrite Hr1. cbn [snd].
  set (p1 := set_REGISTRY _ p0).
  assert (Hnone1 : _metrics_instance p1 = None) by exact Hnone.
  rewrite (get_registry_unfold second p1 Hnone1).
  change (environ p1) with (environ p0). rewrite Hns.
  pose proof (RLMetrics_init_name_taken (arg_now second) ns
                (arg_histogram_buckets second) (arg_response_size_buckets second)
                (arg_or_env (arg_app_version second) "RL_METRICS_APP_VERSION" (environ p0))
                (arg_or_env (arg_app_name second) "RL_METRICS_APP_NAME" (environ p0)) p1)
    as Htaken.
  pose proof (RLMetrics_init_frame (arg_now second) ns
                (arg_histogram_buckets second) (arg_response_size_buckets second)
                (arg_or_env (arg_app_version second) "RL_METRICS_APP_VERSION" (environ p0))
                (arg_or_env (arg_app_name second) "RL_METRICS_APP_NAME" (environ p0)) p1)
    as Hframe.
  cbv zeta in Hframe.
  destruct (RLMetrics_init _ _ _ _ _ _ p1) as [[m|e'] p2].
  - exfalso. cbn in Htaken.
    assert (Hin : metric_name ns "http_request_duration_seconds" ∈ REGISTRY p1).
    { subst p1. cbn. apply elem_of_union_r, elem_of_union_r, elem_of_union_l.
      now apply elem_of_singleton. }
    specialize (Htaken Hin). discriminate.
  - cbn. split; [reflexivity|]. destruct Hframe as (_ & Hinst & _). cbn in Hinst.
    now rewrite Hinst.
Qed.

Lemma get_metrics_registry_retry_after_partial_failure_witness :
  let first := mkArgs 0 (Some "shop") None (Some [3; 1]%Q) None None in
  let second := mkArgs 1 (Some "shop") None None None None in
  let r1 := get_registry (H := prometheus_client) first (initial_process ∅) in
  let r2 := get_registry (H := prometheus_client) second r1.2 in
  r1.1 = Raised (ValueError "Buckets not in sorted order") /\
  r2.1 = Raised (ValueError
                   "Duplicated timeseries in CollectorRegistry: shop_http_request_duration_seconds") /\
  _metrics_instance r2.2 = None.
Proof.
  intros first second r1 r2.
  destruct (get_metrics_registry_retry_after_partial_failure (H := prometheus_client)
              first second (initial_process ∅)
              (ValueError "Buckets not in sorted order") eq_refl
              (fun base => not_elem_of_empty (C := gset string) _) eq_refl eq_refl eq_refl)
    as (H1 & _ & H3).
  split; [exact H1|]. split; [vm_compute; reflexivity | exact H3].
Defined.

(** *** The substitution passes of the reference normaliser *)

Lemma string_app_cons (c : ascii) (a b : string) : String c a ++ b = String c (a ++ b).
Proof. reflexivity. Qed.

Lemma count_slashes_app (a b : string) :
  count_slashes (a ++ b) = (count_slashes a + count_slashes b)%nat.
Proof.
  induction a as [|c a IH]; [reflexivity|].
  rewrite string_app_cons. cbn. rewrite IH. lia.
Qed.

Lemma string_length_app (a b : string) :
  String.length (a ++ b) = (String.length a + String.length b)%nat.
Proof.
  induction a as [|c a IH]; [reflexivity|].
  rewrite string_app_cons. cbn. now rewrite IH.
Qed.

Lemma string_app_assoc (a b c : string) : (a ++ b) ++ c = a ++ (b ++ c).
Proof.
  induction a as [|x a IH]; [reflexivity|].
  rewrite !string_app_cons. now rewrite IH.
Qed.

Lemma class_refuses_slash (p : ascii -> bool) (c : ascii) :
  p "/"%char = false -> p c = true -> Ascii.eqb c "/" = false.
Proof.
  intros Hslash Hc. destruct (Ascii.eqb_spec c "/"%char) as [->|]; [congruence | reflexivity].
Qed.

Lemma star_slashes p s k out :
  p "/"%char = false -> Re.star p s k = Some out ->
  exists c m, s = c ++ m /\ count_slashes c = 0%nat /\ k m = Some out.
Proof.
  intros Hslash. induction s as [|ch s IH]; cbn; intros Hstar.
  - exists "", "". now repeat split.
  - destruct (p ch) eqn:Hch; [|exists "", (String ch s); now repeat split].
    destruct (Re.star p s k) as [r|] eqn:Hrest.
    + destruct (IH Hstar) as (c & m & -> & Hc & Hk).
      exists (String ch c), m. cbn. rewrite (class_refuses_slash p ch Hslash Hch), Hc.
      now repeat split.
    + exists "", (String ch s). now repeat split.
Qed.

Lemma rep_slashes n p s k out :
  p "/"%char = false -> Re.rep n p s k = Some out ->
  exists c m, s = c ++ m /\ count_slashes c = 0%nat /\ k m = Some out.
Proof.
  intros Hslash. revert s. induction n as [|n IH]; intros s; cbn; intros Hrep.
  - exists "", s. now repeat split.
  - destruct s as [|ch s]; [discriminate|].
    destruct (p ch) eqn:Hch; [|discriminate].
    destruct (IH s Hrep) as (c & m & -> & Hc & Hk).
    exists (String ch c), m. cbn. rewrite (class_refuses_slash p ch Hslash Hch), Hc.
    now repeat split.
Qed.

(** What the matcher consumes holds as many slashes as the pattern
    says. *)
Lemma exec_slashes r :
  forall n s k out, slashes_of r = Some n -> Re.exec r s k = Some out ->
  exists c m, s = c ++ m /\ count_slashes c = n /\ k m = Some out.
Proof.
  induction r as [ch|p|n0 p|r1 IH1 r2 IH2|]; intros n s k out Hn Hexec; cbn in Hn, Hexec.
  - destruct s as [|ch' s]; [discriminate|].
    destruct (Ascii.eqb_spec ch ch') as [<-|]; [|discriminate].
    injection Hn as <-. exists (String ch ""), s. cbn.
    destruct (Ascii.eqb ch "/"); now repeat split.
  - destruct (p "/"%char) eqn:Hslash; [discriminate|]. injection Hn as <-.
    destruct s as [|ch s]; [discriminate|].
    destruct (p ch) eqn:Hch; [|discriminate].
    destruct (star_slashes p s k out Hslash Hexec) as (c & m & -> & Hc & Hk).
    exists (String ch c), m. cbn. rewrite (class_refuses_slash p ch Hslash Hch), Hc.
    now repeat split.
  - destruct (p "/"%char) eqn:Hslash; [discriminate|]. injection Hn as <-.
    now apply rep_slashes with n0 p.
  - destruct (slashes_of r1) as [a|]; [|discriminate].
    destruct (slashes_of r2) as [b|]; [|discriminate]. injection Hn as <-.
    destruct (IH1 a s _ out eq_refl Hexec) as (c1 & m1 & -> & Hc1 & Hk1).
    destruct (IH2 b m1 k out eq_refl Hk1) as (c2 & m2 & -> & Hc2 & Hk2).
    exists (c1 ++ c2), m2. rewrite string_app_assoc, count_slashes_app, Hc1, Hc2.
    now repeat split.
  - injection Hn as <-. destruct (Re.at_end s); [|discriminate].
    exists "", s. now repeat split.
Qed.

Lemma sub_from_skip r repl (pre s : string) :
  Re.sub_from r repl (pre ++ s) (String.length pre) = Re.sub_from r repl s 0.
Proof.
  induction pre as [|c pre IH]; [reflexivity|].
  rewrite string_app_cons. cbn. exact IH.
Qed.

(** A substitution pass whose pattern and replacement hold the same
    number of slashes keeps the number of slashes of the string. *)
Lemma sub_count_slashes r repl n :
  slashes_of r = Some n -> count_slashes repl = n ->
  forall s, count_slashes (Re.sub r repl s) = count_slashes s.
Proof.
  intros Hr Hrepl s. unfold Re.sub.
  remember (String.length s) as len eqn:Hlen.
  assert (Hbound : (String.length s <= len)%nat) by lia. clear Hlen.
  revert s Hbound. induction len as [|len IH]; intros s Hbound.
  - destruct s; [|cbn in Hbound; lia]. cbn.
    destruct (Re.match_at r "") as [rest|] eqn:Hm; [|reflexivity].
    destruct (exec_slashes r n "" Some rest Hr Hm) as (c & m & Hs & Hc & _).
    destruct c; [|discriminate]. cbn in Hc. now rewrite Hrepl, <- Hc.
  - destruct s as [|ch s].
    + cbn. destruct (Re.match_at r "") as [rest|] eqn:Hm; [|reflexivity].
      destruct (exec_slashes r n "" Some rest Hr Hm) as (c & m & Hs & Hc & _).
      destruct c; [|discriminate]. cbn in Hc. now rewrite Hrepl, <- Hc.
    + cbn in Hbound. cbn [Re.sub_from].
      destruct (Re.match_at r (String ch s)) as [rest|] eqn:Hm.
      * destruct (exec_slashes r n (String ch s) Some rest Hr Hm)
          as (c & m & Hs & Hc & Hk).
        injection Hk as ->. rewrite Hs, string_length_app.
        replace (String.length c + String.length rest - String.length rest)%nat
          with (String.length c) by lia.
        destruct c as [|ch' c]; cbn [String.length].
        -- change ("" ++ rest) with rest in Hs. cbn in Hc. subst rest.
           rewrite count_slashes_app. cbn [count_slashes]. rewrite (IH s) by lia.
           rewrite Hrepl, <- Hc. reflexivity.
        -- rewrite string_app_cons in Hs. injection Hs as -> ->.
           rewrite count_slashes_app, sub_from_skip, (IH rest).
           ++ rewrite Hrepl, <- Hc.
              change (String ch' (c ++ rest)) with (String ch' c ++ rest).
              now rewrite count_slashes_app.
           ++ rewrite string_length_app in Hbound. lia.
      * cbn [count_slashes]. rewrite (IH s) by lia. reflexivity.
Qed.

(** Normalisation keeps the number of slashes of a path, so the number
    of its segments: each pass replaces one slash and what follows it
    inside one segment by one slash and a placeholder. *)
Theorem normalize_api_paths_keeps_segments (path : string) :
  count_slashes (normalize_api_paths path) = count_slashes path.
Proof.
  unfold normalize_api_paths.
  rewrite (sub_count_slashes filename_pattern "/:filename" 1) by reflexivity.
  rewrite (sub_count_slashes uuid_pattern "/:uuid" 1) by reflexivity.
  now rewrite (sub_count_slashes numeric_id_pattern "/:id" 1) by reflexivity.
Qed.

Lemma slash_digit_free_weaken b s :
  slash_digit_free b s = true -> slash_digit_free false s = true.
Proof.
  destruct s as [|c s]; [reflexivity|]. cbn.
  intros H. apply andb_true_iff in H as [_ H]. exact H.
Qed.

(** A substitution pass keeps a string free of slash-digit pairs when its
    replacement is free of them, does not start with a digit and does not
    end in a slash. *)
Lemma sub_from_slash_digit_free r repl :
  (forall b, slash_digit_free b repl = true) ->
  (forall b x, slash_digit_free false x = true -> slash_digit_free b (repl ++ x) = true) ->
  forall s skip b,
    slash_digit_free false s = true ->
    match skip with
    | O => slash_digit_free b s = true
    | S _ => b = false
    end ->
    slash_digit_free b (Re.sub_from r repl s skip) = true.
Proof.
  intros Hrepl Hthen. induction s as [|c s IH]; intros skip b Hfree Hstate.
  - cbn. destruct (Re.match_at r ""); [apply Hrepl | reflexivity].
  - assert (Htail : slash_digit_free (Ascii.eqb c "/") s = true)
      by (cbn in Hfree; exact Hfree).
    cbn [Re.sub_from]. destruct skip as [|n].
    + destruct (Re.match_at r (String c s)) as [rest|].
      * destruct (String.length (String c s) - String.length rest)%nat as [|n].
        -- apply Hthen. cbn. apply IH; [now apply slash_digit_free_weaken with
             (Ascii.eqb c "/") | exact Htail].
        -- apply Hthen. apply IH; [now apply slash_digit_free_weaken with
             (Ascii.eqb c "/")|].
           destruct n; [now apply slash_digit_free_weaken with (Ascii.eqb c "/")
                       | reflexivity].
      * cbn. cbn in Hstate. apply andb_true_iff in Hstate as [Hc _]. rewrite Hc. cbn.
        apply IH; [now apply slash_digit_free_weaken with (Ascii.eqb c "/") | exact Htail].
    + subst b. apply IH; [now apply slash_digit_free_weaken with (Ascii.eqb c "/")|].
      destruct n; [now apply slash_digit_free_weaken with (Ascii.eqb c "/")
                  | reflexivity].
Qed.

Lemma star_total p s : exists rest, Re.star p s Some = Some rest.
Proof.
  induction s as [|c s [rest IH]]; cbn; [now exists ""|].
  destruct (p c); [rewrite IH; now exists rest | now eexists].
Qed.

(** Where the numeric pattern does not match at a slash, no digit
    follows the slash. *)
Lemma numeric_id_unmatched_slash c s :
  Re.match_at numeric_id_pattern (String c s) = None ->
  Ascii.eqb c "/" = true ->
  match s with
  | String d _ => Re.digit d
  | EmptyString => false
  end = false.
Proof.
  intros Hnone Hc. destruct s as [|d s]; [reflexivity|].
  apply Ascii.eqb_eq in Hc. subst c.
  unfold Re.match_at, numeric_id_pattern in Hnone. cbn in Hnone.
  destruct (Re.digit d); [|reflexivity].
  destruct (star_total Re.digit s) as [rest Hrest]. rewrite Hrest in Hnone. discriminate.
Qed.

Ltac placeholder_free :=
  intros;
  repeat rewrite string_app_cons;
  repeat match goal with |- context [EmptyString ++ ?x] => change (EmptyString ++ x) with x end;
  repeat match goal with b : bool |- _ => destruct b end;
  cbn; auto.

(** After the numeric pass no slash is followed by a digit. *)
Lemma numeric_pass_slash_digit_free s :
  forall skip b,
    match skip with
    | O => b = true -> match s with
                       | String d _ => Re.digit d
                       | EmptyString => false
                       end = false
    | S _ => b = false
    end ->
    slash_digit_free b (Re.sub_from numeric_id_pattern "/:id" s skip) = true.
Proof.
  induction s as [|c s IH]; intros skip b Hstate; [reflexivity|].
  cbn [Re.sub_from]. destruct skip as [|n].
  - destruct (Re.match_at numeric_id_pattern (String c s)) as [rest|] eqn:Hm.
    + destruct (exec_slashes numeric_id_pattern 1 (String c s) Some rest eq_refl Hm)
        as (cm & m & Hs & Hcm & Hk).
      injection Hk as ->. rewrite Hs, string_length_app.
      replace (String.length cm + String.length rest - String.length rest)%nat
        with (String.length cm) by lia.
      destruct cm as [|c' cm]; [discriminate|]. cbn [String.length].
      assert (Hnext : slash_digit_free false
                        (Re.sub_from numeric_id_pattern "/:id" s (String.length cm)) = true)
        by (apply IH; destruct (String.length cm); [discriminate | reflexivity]).
      revert Hnext. generalize (Re.sub_from numeric_id_pattern "/:id" s (String.length cm)).
      placeholder_free.
    + cbn [slash_digit_free]. apply andb_true_iff. split.
      * destruct b; [|reflexivity]. cbn. cbn in Hstate. now rewrite (Hstate eq_refl).
      * apply IH. intros Hc. now apply numeric_id_unmatched_slash with c.
  - subst b. apply IH. destruct n; [discriminate | reflexivity].
Qed.

(** In a normalised path no slash is followed by a decimal digit: the
    numeric pass removes every run of digits that starts a segment, and the
    two later passes bring none back. *)
Theorem normalize_api_paths_leaves_no_leading_digit (path : string) :
  slash_digit_free false (normalize_api_paths path) = true.
Proof.
  unfold normalize_api_paths, Re.sub.
  assert (H1 : slash_digit_free false (Re.sub_from numeric_id_pattern "/:id" path 0) = true)
    by (apply numeric_pass_slash_digit_free; discriminate).
  assert (H2 : slash_digit_free false
                 (Re.sub_from uuid_pattern "/:uuid"
                    (Re.sub_from numeric_id_pattern "/:id" path 0) 0) = true)
    by (apply sub_from_slash_digit_free; [placeholder_free | placeholder_free | exact H1
                                         | exact H1]).
  apply sub_from_slash_digit_free; [placeholder_free | placeholder_free | exact H2 | exact H2].
Qed.

(** *** The metrics server and [enable_metrics] *)

Section Server_properties.

Variable OSError_subclass : string -> bool.
Variable start_http_server : Z -> Outcome unit.
Context `{HistogramCtor}.

Lemma start_metrics_server_explicit (port : Z) (p : Process) :
  let r := start_metrics_server OSError_subclass start_http_server (Some port) p in
  same_but_log p r.2 /\
  match start_http_server port with
  | Returned _ => r.1 = Returned tt /\ levels r.2 = (levels p ++ [INFO; INFO])%list
  | Raised e =>
      if isinstance_OSError OSError_subclass e then
        if contains "Address already in use" (exc_msg e) then
          r.1 = Returned tt /\ levels r.2 = (levels p ++ [WARNING])%list
        else r.1 = Raised e /\ levels r.2 = (levels p ++ [ERROR])%list
      else r = (Raised e, p)
  end.
Proof.
  unfold start_metrics_server, try_except_OSError, lift, logger, modify, raise, levels,
    same_but_log, mbind, M_bind, bind, mret, M_ret, ret. cbn.
  destruct (start_http_server port) as [[]|e]; cbn.
  - rewrite !map_app. cbn. rewrite <- app_assoc. now repeat split.
  - destruct (isinstance_OSError OSError_subclass e); [|now repeat split].
    destruct (contains "Address already in use" (exc_msg e)); cbn;
      rewrite map_app; now repeat split.
Qed.

(** [start_metrics_server] on a given port: a server that starts leaves
    two info records; an [OSError] whose text holds "Address already in
    use" is swallowed with one warning; any other [OSError] is logged as an
    error and raised again; an exception of another class goes through
    with nothing logged.  Nothing but the log is touched. *)
Theorem start_metrics_server_outcomes (port : Z) (p : Process) :
  let r := start_metrics_server OSError_subclass start_http_server (Some port) p in
  same_but_log p r.2 /\
  (forall u, start_http_server port = Returned u ->
     r.1 = Returned tt /\ levels r.2 = (levels p ++ [INFO; INFO])%list) /\
  (forall e, start_http_server port = Raised e ->
     isinstance_OSError OSError_subclass e = true ->
     contains "Address already in use" (exc_msg e) = true ->
     r.1 = Returned tt /\ levels r.2 = (levels p ++ [WARNING])%list) /\
  (forall e, start_http_server port = Raised e ->
     isinstance_OSError OSError_subclass e = true ->
     contains "Address already in use" (exc_msg e) = false ->
     r.1 = Raised e /\ levels r.2 = (levels p ++ [ERROR])%list) /\
  (forall e, start_http_server port = Raised e ->
     isinstance_OSError OSError_subclass e = false ->
     r = (Raised e, p)).
Proof.
  pose proof (start_metrics_server_explicit port p) as [Hframe Hcases].
  cbv zeta in *. split; [exact Hframe|].
  split; [|split; [|split]].
  - intros u Hstart. now rewrite Hstart in Hcases.
  - intros e Hstart Hos Hmsg. now rewrite Hstart, Hos, Hmsg in Hcases.
  - intros e Hstart Hos Hmsg. now rewrite Hstart, Hos, Hmsg in Hcases.
  - intros e Hstart Hos. now rewrite Hstart, Hos in Hcases.
Qed.

(** Without a port argument the port is the integer value of
    [RL_METRICS_PORT], or 8000 when the variable is not set; a value that
    is not an integer literal makes the call raise [ValueError] before
    anything is bound or logged. *)
Theorem start_metrics_server_port_from_environment (p : Process) :
  (environ p !! "RL_METRICS_PORT" = None ->
   start_metrics_server OSError_subclass start_http_server None p
   = start_metrics_server OSError_subclass start_http_server (Some 8000%Z) p) /\
  (forall v port, environ p !! "RL_METRICS_PORT" = Some v ->
     int_of_str v = Returned port ->
     start_metrics_server OSError_subclass start_http_server None p
     = start_metrics_server OSError_subclass start_http_server (Some port) p) /\
  (forall v e, environ p !! "RL_METRICS_PORT" = Some v ->
     int_of_str v = Raised e ->
     start_metrics_server OSError_subclass start_http_server None p = (Raised e, p) /\
     exc_type e = "ValueError").
Proof.
  unfold start_metrics_server, getenv, gets, lift, mbind, M_bind, bind, mret, M_ret, ret.
  split; [|split].
  - intros Hunset. rewrite Hunset. reflexivity.
  - intros v port Hset Hint. rewrite Hset. cbn. rewrite Hint. reflexivity.
  - intros v e Hset Hint. rewrite Hset. cbn. rewrite Hint.
    split; [reflexivity | now apply int_of_str_raises with v].
Qed.

End Server_properties.

Section Enable_properties.

Variable OSError_subclass : string -> bool.
Variable start_http_server : Z -> Outcome unit.
Context `{HistogramCtor}.

Lemma same_but_log_refl p : same_but_log p p.
Proof. now repeat split. Qed.

Lemma same_but_log_write p p' r : same_but_log p p' -> same_but_log p (write_log r p').
Proof. intros (? & ? & ? & ?). now repeat split. Qed.

(** The guarded start of the server inside [enable_metrics]. *)
Lemma guarded_server_start (port : Z) (h : Exception -> M Process unit) (p : Process) :
  (forall e s, (h e s).1 = Returned tt /\ same_but_log s (h e s).2) ->
  let r := try_except_OSError OSError_subclass
             (start_metrics_server OSError_subclass start_http_server (Some port)) h p in
  same_but_log p r.2 /\
  match start_http_server port with
  | Returned _ => r.1 = Returned tt
  | Raised e => if isinstance_OSError OSError_subclass e then r.1 = Returned tt
                else r = (Raised e, p)
  end.
Proof.
  intros Hh. pose proof (start_metrics_server_explicit OSError_subclass start_http_server
                           port p) as [Hframe Hcases].
  cbv zeta in *. unfold try_except_OSError.
  destruct (start_metrics_server OSError_subclass start_http_server (Some port) p)
    as [o p'] eqn:Hstart. cbn in Hframe, Hcases.
  destruct (start_http_server port) as [u|e].
  - destruct Hcases as [-> _]. now split.
  - destruct (isinstance_OSError OSError_subclass e) eqn:Hos.
    + destruct (contains "Address already in use" (exc_msg e));
        destruct Hcases as [-> _]; [now split|].
      rewrite Hos. destruct (Hh e p') as [Hret Hsame]. split; [|exact Hret].
      destruct Hframe as (? & ? & ? & ?), Hsame as (? & ? & ? & ?).
      repeat split; congruence.
    + injection Hcases as -> ->. rewrite Hos. split; [apply same_but_log_refl | reflexivity].
Qed.

Lemma get_metrics_registry_stored now namespace0 hb rsb app_version app_name p inst p1 :
  get_metrics_registry now namespace0 hb rsb app_version app_name p = (Returned inst, p1) ->
  _metrics_instance p1 = Some inst.
Proof.
  intros Hcall.
  change (get_registry (mkArgs now namespace0 hb rsb app_version app_name) p
          = (Returned inst, p1)) in Hcall.
  destruct (_metrics_instance p) as [a|] eqn:Hinst.
  - rewrite (get_registry_existing _ p a Hinst) in Hcall. injection Hcall as <- <-.
    exact Hinst.
  - now destruct (get_registry_first _ p inst p1 Hinst Hcall) as [Hstored _].
Qed.

Lemma flask_enable_metrics_unfold now (port : Z) namespace0 hb rsb path_normalizer
    exclude_paths app_name app_version p inst p1 :
  get_metrics_registry now namespace0 hb rsb app_version app_name p = (Returned inst, p1) ->
  let r := flask_enable_metrics OSError_subclass start_http_server now (Some port)
             namespace0 hb rsb path_normalizer exclude_paths app_name app_version p in
  same_but_log p1 r.2 /\
  match start_http_server port with
  | Raised e =>
      if isinstance_OSError OSError_subclass e then
        r.1 = Returned (inst, mkFlaskHooks path_normalizer
                                (flask_middleware.resolve_exclude_paths exclude_paths))
      else r = (Raised e, p1)
  | Returned _ =>
      r.1 = Returned (inst, mkFlaskHooks path_normalizer
                              (flask_middleware.resolve_exclude_paths exclude_paths))
  end.
Proof.
  intros Hreg. unfold flask_enable_metrics.
  erewrite bind_returned by exact Hreg.
  match goal with
  | |- context [try_except_OSError _ _ ?h] =>
      pose proof (guarded_server_start port h p1) as Hstep
  end.
  cbv zeta in Hstep.
  destruct Hstep as [Hframe Hcases];
    [intros e s; split; [reflexivity | apply same_but_log_write, same_but_log_refl]|].
  destruct (try_except_OSError _ _ _ p1) as [o p2] eqn:Hguard. cbn in Hframe, Hcases.
  destruct (start_http_server port) as [u|e].
  - subst o. erewrite bind_returned by exact Hguard.
    cbn. split; [now apply same_but_log_write | reflexivity].
  - destruct (isinstance_OSError OSError_subclass e).
    + subst o. erewrite bind_returned by exact Hguard.
      cbn. split; [now apply same_but_log_write | reflexivity].
    + injection Hcases as -> ->. erewrite bind_raised by exact Hguard.
      split; [apply same_but_log_refl | reflexivity].
Qed.

Lemma fastapi_enable_metrics_unfold now (port : Z) namespace0 hb rsb path_normalizer
    exclude_paths app_name app_version p inst p1 :
  get_metrics_registry now namespace0 hb rsb app_version app_name p = (Returned inst, p1) ->
  let r := fastapi_enable_metrics OSError_subclass start_http_server now (Some port)
             namespace0 hb rsb path_normalizer exclude_paths app_name app_version p in
  same_but_log p1 r.2 /\
  match start_http_server port with
  | Raised e =>
      if isinstance_OSError OSError_subclass e then
        r.1 = Returned (inst, fastapi_middleware.RLMetricsMiddleware_init path_normalizer
                                exclude_paths)
      else r = (Raised e, p1)
  | Returned _ =>
      r.1 = Returned (inst, fastapi_middleware.RLMetricsMiddleware_init path_normalizer
                              exclude_paths)
  end.
Proof.
  intros Hreg. unfold fastapi_enable_metrics.
  erewrite bind_returned by exact Hreg.
  match goal with
  | |- context [try_except_OSError _ _ ?h] =>
      pose proof (guarded_server_start port h p1) as Hstep
  end.
  cbv zeta in Hstep.
  destruct Hstep as [Hframe Hcases];
    [intros e s; split; [reflexivity | apply same_but_log_write, same_but_log_refl]|].
  destruct (try_except_OSError _ _ _ p1) as [o p2] eqn:Hguard. cbn in Hframe, Hcases.
  destruct (start_http_server port) as [u|e].
  - subst o. erewrite bind_returned by exact Hguard.
    cbn. split; [now apply same_but_log_write | reflexivity].
  - destruct (isinstance_OSError OSError_subclass e).
    + subst o. erewrite bind_returned by exact Hguard.
      cbn. split; [now apply same_but_log_write | reflexivity].
    + injection Hcases as -> ->. erewrite bind_raised by exact Hguard.
      split; [apply same_but_log_refl | reflexivity].
Qed.


Lemma same_but_log_trans p q r : same_but_log p q -> same_but_log q r -> same_but_log p r.
Proof. intros (? & ? & ? & ?) (? & ? & ? & ?). repeat split; congruence. Qed.

(** Whatever the port argument and whatever binding does, the guarded
    start of the server touches the log only. *)
Lemma guarded_server_frame (port : option Z) (h : Exception -> M Process unit)
    (p : Process) :
  (forall e s, same_but_log s (h e s).2) ->
  same_but_log p
    (try_except_OSError OSError_subclass
       (start_metrics_server OSError_subclass start_http_server port) h p).2.
Proof.
  intros Hh.
  assert (Hstart : same_but_log p
            (start_metrics_server OSError_subclass start_http_server port p).2).
  { destruct port as [port|];
      [exact (proj1 (start_metrics_server_explicit OSError_subclass start_http_server
                       port p))|].
    unfold start_metrics_server at 1.
    unfold getenv, gets, lift, mbind, M_bind, bind, mret, M_ret, ret.
    destruct (int_of_str _) as [port|e]; [|apply same_but_log_refl].
    exact (proj1 (start_metrics_server_explicit OSError_subclass start_http_server
                    port p)). }
  unfold try_except_OSError.
  destruct (start_metrics_server OSError_subclass start_http_server port p) as [[u|e] p'];
    [exact Hstart|].
  destruct (isinstance_OSError OSError_subclass e); [|exact Hstart].
  exact (same_but_log_trans _ _ _ Hstart (Hh e p')).
Qed.

Lemma logger_frame lvl msg (s : Process) : same_but_log s (logger lvl msg s).2.
Proof. apply same_but_log_write, same_but_log_refl. Qed.

Lemma flask_enable_metrics_stored now port namespace0 hb rsb path_normalizer
    exclude_paths app_name app_version p r p' :
  flask_enable_metrics OSError_subclass start_http_server now port namespace0 hb rsb
    path_normalizer exclude_paths app_name app_version p = (Returned r, p') ->
  _metrics_instance p' = Some r.1.
Proof.
  unfold flask_enable_metrics.
  destruct (get_metrics_registry now namespace0 hb rsb app_version app_name p)
    as [[inst|e] p1] eqn:Hreg;
    [erewrite bind_returned by exact Hreg | erewrite bind_raised by exact Hreg; discriminate].
  apply get_metrics_registry_stored in Hreg.
  match goal with
  | |- context [try_except_OSError _ _ ?h] =>
      pose proof (guarded_server_frame port h p1 (fun e s => logger_frame _ _ s)) as Hframe
  end.
  destruct (try_except_OSError _ _ _ p1) as [[u|e] p2] eqn:Hguard;
    [erewrite bind_returned by exact Hguard | erewrite bind_raised by exact Hguard;
                                               discriminate].
  cbn. intros [= <- <-]. cbn. destruct Hframe as (_ & _ & _ & Hinst). cbn in Hinst.
  congruence.
Qed.

Lemma fastapi_enable_metrics_stored now port namespace0 hb rsb path_normalizer
    exclude_paths app_name app_version p r p' :
  fastapi_enable_metrics OSError_subclass start_http_server now port namespace0 hb rsb
    path_normalizer exclude_paths app_name app_version p = (Returned r, p') ->
  _metrics_instance p' = Some r.1.
Proof.
  unfold fastapi_enable_metrics.
  destruct (get_metrics_registry now namespace0 hb rsb app_version app_name p)
    as [[inst|e] p1] eqn:Hreg;
    [erewrite bind_returned by exact Hreg | erewrite bind_raised by exact Hreg; discriminate].
  apply get_metrics_registry_stored in Hreg.
  match goal with
  | |- context [try_except_OSError _ _ ?h] =>
      pose proof (guarded_server_frame port h p1 (fun e s => logger_frame _ _ s)) as Hframe
  end.
  destruct (try_except_OSError _ _ _ p1) as [[u|e] p2] eqn:Hguard;
    [erewrite bind_returned by exact Hguard | erewrite bind_raised by exact Hguard;
                                               discriminate].
  cbn. intros [= <- <-]. cbn. destruct Hframe as (_ & _ & _ & Hinst). cbn in Hinst.
  congruence.
Qed.

(** A returned [enable_metrics] call of __init__.py leaves its metrics
    instance in the module-level singleton. *)
Lemma enable_metrics_stored now app port kwargs p r p' :
  enable_metrics OSError_subclass start_http_server now app port kwargs p
  = (Returned r, p') ->
  _metrics_instance p' = Some r.1.
Proof.
  unfold enable_metrics, enable_flask_metrics, enable_fastapi_metrics.
  destruct (has_before_request app && has_after_request app);
    [|destruct (has_add_middleware app); [|discriminate]].
  - match goal with |- context [mbind _ ?c] => destruct (c p) as [[x|e] q] eqn:Hcall end;
      [erewrite bind_returned by exact Hcall | erewrite bind_raised by exact Hcall;
                                                discriminate].
    intros [= <- <-]. exact (flask_enable_metrics_stored _ _ _ _ _ _ _ _ _ _ _ _ Hcall).
  - match goal with |- context [mbind _ ?c] => destruct (c p) as [[x|e] q] eqn:Hcall end;
      [erewrite bind_returned by exact Hcall | erewrite bind_raised by exact Hcall;
                                                discriminate].
    intros [= <- <-]. exact (fastapi_enable_metrics_stored _ _ _ _ _ _ _ _ _ _ _ _ Hcall).
Qed.

Lemma get_metrics_registry_environ now namespace0 hb rsb app_version app_name p :
  environ (get_metrics_registry now namespace0 hb rsb app_version app_name p).2 = environ p.
Proof.
  change (environ (get_registry (mkArgs now namespace0 hb rsb app_version app_name) p).2
          = environ p).
  destruct (_metrics_instance p) as [a|] eqn:Hinst.
  - now rewrite (get_registry_existing _ p a Hinst).
  - rewrite (get_registry_unfold _ p Hinst).
    match goal with
    | |- context [RLMetrics_init ?a ?b ?c ?d ?e ?f p] =>
        pose proof (RLMetrics_init_frame a b c d e f p) as (_ & _ & Henv & _);
        destruct (RLMetrics_init a b c d e f p) as [[m|e0] p0]
    end; exact Henv.
Qed.

End Enable_properties.

Section Enable_again.

Variable OSError_subclass : string -> bool.

(** What binding a port does at the time of the first call, and at the
    time of a later one. *)
Variable start_http_server start_http_server' : Z -> Outcome unit.
Context `{HistogramCtor}.

(** Once [enable_metrics] of __init__.py has returned a metrics instance,
    a later call on a supported application, with a port, returns the
    same instance whatever its other arguments are, provided that binding
    the port then succeeds or fails with an [OSError]; the later call
    changes nothing of the process but its log. *)
Theorem enable_metrics_shares_instance now1 app1 port1 kwargs1 p0 inst x1 p1
    now2 app2 (port2 : Z) kwargs2 :
  enable_metrics OSError_subclass start_http_server now1 app1 port1 kwargs1 p0
  = (Returned (inst, x1), p1) ->
  has_before_request app2 && has_after_request app2 || has_add_middleware app2 = true ->
  (forall e, start_http_server' port2 = Raised e ->
             isinstance_OSError OSError_subclass e = true) ->
  let r := enable_metrics OSError_subclass start_http_server' now2 app2 (Some port2)
             kwargs2 p1 in
  (exists x2, r.1 = Returned (inst, x2)) /\ same_but_log p1 r.2.
Proof.
  intros Hfirst Happ Hbind.
  pose proof (enable_metrics_stored _ _ _ _ _ _ _ _ _ Hfirst) as Hinst. cbn in Hinst.
  assert (Hreg : get_metrics_registry now2 (opt_namespace kwargs2)
                   (opt_histogram_buckets kwargs2) (opt_response_size_buckets kwargs2)
                   (opt_app_version kwargs2) (opt_app_name kwargs2) p1
                 = (Returned inst, p1))
    by exact (get_registry_existing (mkArgs _ _ _ _ _ _) p1 inst Hinst).
  unfold enable_metrics, enable_flask_metrics, enable_fastapi_metrics.
  destruct (has_before_request app2 && has_after_request app2);
    [|destruct (has_add_middleware app2); [|discriminate]]; cbv zeta.
  - destruct (flask_enable_metrics_unfold OSError_subclass start_http_server' now2 port2
                _ _ _ (opt_path_normalizer kwargs2) (opt_exclude_paths kwargs2) _ _ _ _ _
                Hreg) as [Hframe Hcases].
    cbv zeta in Hframe, Hcases.
    match goal with
    | |- context [mbind _ ?c] => destruct (c p1) as [o q] eqn:Hcall
    end.
    cbn in Hframe, Hcases.
    assert (Hret : o = Returned (inst, mkFlaskHooks (opt_path_normalizer kwargs2)
                      (flask_middleware.resolve_exclude_paths (opt_exclude_paths kwargs2)))).
    { destruct (start_http_server' port2) as [u|e] eqn:Hstart; [exact Hcases|].
      now rewrite (Hbind e eq_refl) in Hcases. }
    subst o. erewrite bind_returned by exact Hcall.
    split; [eexists; reflexivity | exact Hframe].
  - destruct (fastapi_enable_metrics_unfold OSError_subclass start_http_server' now2 port2
                _ _ _ (opt_path_normalizer kwargs2) (opt_exclude_paths kwargs2) _ _ _ _ _
                Hreg) as [Hframe Hcases].
    cbv zeta in Hframe, Hcases.
    match goal with
    | |- context [mbind _ ?c] => destruct (c p1) as [o q] eqn:Hcall
    end.
    cbn in Hframe, Hcases.
    assert (Hret : o = Returned (inst, fastapi_middleware.RLMetricsMiddleware_init
                      (opt_path_normalizer kwargs2) (opt_exclude_paths kwargs2))).
    { destruct (start_http_server' port2) as [u|e] eqn:Hstart; [exact Hcases|].
      now rewrite (Hbind e eq_refl) in Hcases. }
    subst o. erewrite bind_returned by exact Hcall.
    split; [eexists; reflexivity | exact Hframe].
Qed.

(** A value of RL_METRICS_PORT that is not an integer is not forgiven:
    with no port argument, [enable_metrics] of __init__.py raises the
    [ValueError] of the conversion, which its [except OSError] does not
    catch, and it does so after the metrics instance has been created and
    stored. *)
Theorem enable_metrics_malformed_port_variable now app kwargs p v e inst p1 :
  has_before_request app && has_after_request app || has_add_middleware app = true ->
  OSError_subclass "ValueError" = false ->
  environ p !! "RL_METRICS_PORT" = Some v ->
  int_of_str v = Raised e ->
  get_metrics_registry now (opt_namespace kwargs) (opt_histogram_buckets kwargs)
    (opt_response_size_buckets kwargs) (opt_app_version kwargs) (opt_app_name kwargs) p
  = (Returned inst, p1) ->
  enable_metrics OSError_subclass start_http_server now app None kwargs p = (Raised e, p1) /\
  exc_type e = "ValueError" /\
  _metrics_instance p1 = Some inst.
Proof.
  intros Happ Hsub Hset Hint Hreg.
  pose proof (int_of_str_raises v e Hint) as Htype.
  pose proof (get_metrics_registry_stored _ _ _ _ _ _ _ _ _ Hreg) as Hinst.
  assert (Henv : environ p1 = environ p).
  { pose proof (get_metrics_registry_environ now (opt_namespace kwargs)
                  (opt_histogram_buckets kwargs) (opt_response_size_buckets kwargs)
                  (opt_app_version kwargs) (opt_app_name kwargs) p) as Henv.
    now rewrite Hreg in Henv. }
  assert (Hstart : start_metrics_server OSError_subclass start_http_server None p1
                   = (Raised e, p1)).
  { unfold start_metrics_server, getenv, gets, lift, mbind, M_bind, bind, mret, M_ret, ret.
    rewrite Henv, Hset. cbn. now rewrite Hint. }
  assert (Hos : isinstance_OSError OSError_subclass e = false)
    by (unfold isinstance_OSError; now rewrite Htype, Hsub).
  assert (Hguard : forall h, try_except_OSError OSError_subclass
                     (start_metrics_server OSError_subclass start_http_server None) h p1
                   = (Raised e, p1))
    by (intros h; unfold try_except_OSError; now rewrite Hstart, Hos).
  split; [|split; [exact Htype | exact Hinst]].
  unfold enable_metrics, enable_flask_metrics, enable_fastapi_metrics.
  destruct (has_before_request app && has_after_request app);
    [|destruct (has_add_middleware app); [|discriminate]].
  - apply bind_raised. unfold flask_enable_metrics.
    erewrite bind_returned by exact Hreg. apply bind_raised, Hguard.
  - apply bind_raised. unfold fastapi_enable_metrics.
    erewrite bind_returned by exact Hreg. apply bind_raised, Hguard.
Qed.

End Enable_again.


Lemma enable_metrics_shares_instance_witness :
  let OSError_subclass := fun _ : string => false in
  let flask_app := mkApp true true false "Flask" in
  let fastapi_app := mkApp false false true "FastAPI" in
  let defaults := mkOptions None None None None None None None in
  let other := mkOptions (Some "other") (Some [3; 1]%Q) None None None None None in
  let first := enable_metrics (H := prometheus_client) OSError_subclass
                 (fun _ => Returned tt) 0 flask_app (Some 8000%Z) defaults
                 (initial_process ∅) in
  let r := enable_metrics (H := prometheus_client) OSError_subclass
             (fun _ => Raised (mkException "OSError" "[Errno 98] Address already in use"))
             1 fastapi_app (Some 8000%Z) other first.2 in
  first.1 = Returned (0%nat, Flask_hooks (mkFlaskHooks None
                                            flask_middleware.default_exclude_paths)) /\
  (exists x2, r.1 = Returned (0%nat, x2)) /\ same_but_log first.2 r.2.
Proof.
  intros OSError_subclass flask_app fastapi_app defaults other first.
  split; [vm_compute; reflexivity|].
  apply (enable_metrics_shares_instance (H := prometheus_client) OSError_subclass
           (fun _ => Returned tt)
           (fun _ => Raised (mkException "OSError" "[Errno 98] Address already in use"))
           0 flask_app (Some 8000%Z) defaults (initial_process ∅) 0%nat
           (Flask_hooks (mkFlaskHooks None flask_middleware.default_exclude_paths))
           first.2 1 fastapi_app 8000%Z other).
  - vm_compute; reflexivity.
  - reflexivity.
  - intros e [= <-]. reflexivity.
Defined.

Lemma enable_metrics_malformed_port_variable_witness :
  let OSError_subclass := String.eqb "PermissionError" in
  let app := mkApp true true false "Flask" in
  let kwargs := mkOptions None None None None None None None in
  let p := initial_process {["RL_METRICS_PORT" := "80a"]} in
  let e := ValueError "invalid literal for int() with base 10: '80a'" in
  let p1 := (get_metrics_registry (H := prometheus_client) 0 None None None None None p).2 in
  enable_metrics (H := prometheus_client) OSError_subclass (fun _ => Returned tt) 0 app
    None kwargs p = (Raised e, p1) /\
  exc_type e = "ValueError" /\
  _metrics_instance p1 = Some 0%nat.
Proof.
  intros OSError_subclass app kwargs p e p1.
  apply (enable_metrics_malformed_port_variable (H := prometheus_client) OSError_subclass
           (fun _ => Returned tt) 0 app kwargs p "80a" e 0%nat p1).
  - reflexivity.
  - reflexivity.
  - reflexivity.
  - vm_compute; reflexivity.
  - vm_compute; reflexivity.
Defined.

Lemma in_progress_gauge_counts_witness :
  let l := [Inc "GET"; Inc "POST"; Inc "GET"; Dec "GET"] in
  (0 <= gauge_value (requests_in_progress (self (gauge_ops l fresh_world))) "GET")%Z /\
  gauge_value (requests_in_progress (self (gauge_ops l fresh_world))) "PUT"
  = gauge_value (requests_in_progress (self fresh_world)) "PUT".
Proof.
  intros l.
  destruct (in_progress_gauge_counts l fresh_world "GET") as (_ & _ & Hnonneg).
  destruct (in_progress_gauge_counts l fresh_world "PUT") as (_ & Hsame & _).
  split; [apply Hnonneg; vm_compute; [lia | discriminate] | apply Hsame; reflexivity].
Defined.

Lemma request_counter_counts_calls_witness :
  let fault := fun m => match m with
                        | Size_observe => Some (ValueError "size")
                        | _ => None
                        end in
  let l := [mkObservation "GET" "/a" 0.2 200 (Some 10%Z);
            mkObservation "GET" "/a" 0.3 500 None;
            mkObservation "POST" "/b" 1 201 (Some 4%Z)] in
  counter_total (request_count (self (observe_all fault l fresh_world))) = 3%nat.
Proof.
  intros fault l.
  exact (proj2 (request_counter_counts_calls fault l fresh_world) eq_refl eq_refl).
Defined.

Lemma start_metrics_server_outcomes_witness :
  let OSError_subclass := String.eqb "PermissionError" in
  let p := initial_process ∅ in
  let busy := fun _ : Z => Raised (mkException "OSError" "[Errno 98] Address already in use") in
  let denied := fun _ : Z =>
    Raised (mkException "PermissionError" "[Errno 13] Permission denied") in
  let broken := fun _ : Z => Raised (mkException "TypeError" "an integer is required") in
  ((start_metrics_server OSError_subclass busy (Some 8000%Z) p).1 = Returned tt /\
   levels (start_metrics_server OSError_subclass busy (Some 8000%Z) p).2 = [WARNING]) /\
  ((start_metrics_server OSError_subclass denied (Some 80%Z) p).1
   = Raised (mkException "PermissionError" "[Errno 13] Permission denied") /\
   levels (start_metrics_server OSError_subclass denied (Some 80%Z) p).2 = [ERROR]) /\
  start_metrics_server OSError_subclass broken (Some 80%Z) p
  = (Raised (mkException "TypeError" "an integer is required"), p).
Proof.
  intros OSError_subclass p busy denied broken.
  destruct (start_metrics_server_outcomes OSError_subclass busy 8000%Z p)
    as (_ & _ & Hbusy & _).
  destruct (start_metrics_server_outcomes OSError_subclass denied 80%Z p)
    as (_ & _ & _ & Hdenied & _).
  destruct (start_metrics_server_outcomes OSError_subclass broken 80%Z p)
    as (_ & _ & _ & _ & Hbroken).
  split; [exact (Hbusy _ eq_refl eq_refl eq_refl)|].
  split; [exact (Hdenied _ eq_refl eq_refl eq_refl)|].
  exact (Hbroken _ eq_refl eq_refl).
Defined.

Lemma start_metrics_server_port_from_environment_witness :
  let OSError_subclass := fun _ : string => false in
  let start_http_server := fun port : Z =>
    if (port =? 9100)%Z then Returned tt else Raised (mkException "OSError" "refused") in
  (start_metrics_server OSError_subclass start_http_server None
     (initial_process {["RL_METRICS_PORT" := " 9100 "]})).1 = Returned tt /\
  (start_metrics_server OSError_subclass start_http_server None
     (initial_process {["RL_METRICS_PORT" := "9100.0"]})).1
  = Raised (ValueError "invalid literal for int() with base 10: '9100.0'").
Proof.
  intros OSError_subclass start_http_server.
  destruct (start_metrics_server_port_from_environment OSError_subclass start_http_server
              (initial_process {["RL_METRICS_PORT" := " 9100 "]})) as (_ & Hvalue & _).
  destruct (start_metrics_server_port_from_environment OSError_subclass start_http_server
              (initial_process {["RL_METRICS_PORT" := "9100.0"]})) as (_ & _ & Hbad).
  split.
  - rewrite (Hvalue " 9100 " 9100%Z eq_refl eq_refl). reflexivity.
  - now rewrite (proj1 (Hbad "9100.0" _ eq_refl eq_refl)).
Defined.
